(** * nexveil-auth: the licence-verification client of index.js

    A shallow embedding of the class [NexveilAuth] (index.js) and of the
    JavaScript and Node primitives its methods use, followed by the
    properties of its configuration check, hardware fingerprint, request
    signature, response check and result cache. *)

From Stdlib Require Import ZArith List String Ascii Bool Lia.
From Stdlib Require Import DecimalString Sorted Permutation.
From Stdlib Require OrderedTypeEx.
Import ListNotations.

Local Open Scope string_scope.
Local Open Scope Z_scope.

(** ** JavaScript strings

    A JavaScript string is a sequence of UTF-16 code units.  The embedding
    covers the strings whose code units lie in U+0000..U+00FF: a Rocq
    [string] lists them, one [ascii] per code unit, so [String.length] is
    the [length] property and [String.leb] the code-unit order used by the
    default [Array.prototype.sort]. *)

Module JSString.

Definition code (c : ascii) : Z := Z.of_N (N_of_ascii c).

(** [s.length === 0] *)
Definition is_empty (s : string) : bool :=
  match s with EmptyString => true | String _ _ => false end.

(** [s.startsWith(p)] *)
Fixpoint startsWith (s p : string) : bool :=
  match p, s with
  | EmptyString, _ => true
  | String _ _, EmptyString => false
  | String a p', String b s' => Ascii.eqb a b && startsWith s' p'
  end.

(** [s.includes(sub)] *)
Fixpoint includes (s sub : string) : bool :=
  startsWith s sub ||
  match s with
  | EmptyString => false
  | String _ s' => includes s' sub
  end.

(** [parts.join(sep)] on an array of strings *)
Fixpoint join (sep : string) (parts : list string) : string :=
  match parts with
  | [] => ""
  | [p] => p
  | p :: rest => p ++ sep ++ join sep rest
  end.

(** [s.split(sep)] for a one-character separator; [cur] is the piece
    read so far. *)
Fixpoint split_from (sep : ascii) (cur : string) (s : string) : list string :=
  match s with
  | EmptyString => [cur]
  | String c s' =>
      if Ascii.eqb c sep then cur :: split_from sep "" s'
      else split_from sep (cur ++ String c "") s'
  end.

Definition split (sep : ascii) (s : string) : list string := split_from sep "" s.

(** White space and line terminators of ECMAScript within U+0000..U+00FF:
    TAB, LF, VT, FF, CR, SP and NBSP. *)
Definition is_space (c : ascii) : bool :=
  let n := code c in
  (n =? 9) || (n =? 10) || (n =? 11) || (n =? 12) || (n =? 13) || (n =? 32) || (n =? 160).

Fixpoint trimStart (s : string) : string :=
  match s with
  | EmptyString => ""
  | String c s' => if is_space c then trimStart s' else s
  end.

Fixpoint trimEnd (s : string) : string :=
  match s with
  | EmptyString => ""
  | String c s' =>
      let t := trimEnd s' in
      if is_space c && is_empty t then "" else String c t
  end.

(** [s.trim()] *)
Definition trim (s : string) : string := trimEnd (trimStart s).

(** The UTF-8 encoding of a string, as Node takes it when a string is
    hashed or percent-encoded: one byte below U+0080, two bytes from
    U+0080 to U+00FF. *)
Definition utf8_of_char (c : ascii) : list Z :=
  let n := code c in
  if n <? 128 then [n] else [Z.lor 192 (Z.shiftr n 6); Z.lor 128 (Z.land n 63)].

Fixpoint utf8 (s : string) : list Z :=
  match s with
  | EmptyString => []
  | String c s' => utf8_of_char c ++ utf8 s'
  end.

Definition hex_digit (upper : bool) (d : Z) : ascii :=
  ascii_of_N (Z.to_N (if d <? 10 then 48 + d else (if upper then 55 else 87) + d)).

(** Two hexadecimal digits of a byte. *)
Definition hex_byte (upper : bool) (b : Z) : string :=
  String (hex_digit upper (Z.shiftr b 4)) (String (hex_digit upper (Z.land b 15)) "").

(** [Buffer.toString('hex')] *)
Fixpoint hex (bytes : list Z) : string :=
  match bytes with
  | [] => ""
  | b :: rest => hex_byte false b ++ hex rest
  end.

(** [n.toString()] for an integer-valued number below 10^21 in absolute
    value, which JavaScript prints in plain decimal. *)
Definition Number_toString (n : Z) : string := NilZero.string_of_int (Z.to_int n).

(** Characters [encodeURIComponent] leaves as they are:
    A-Z a-z 0-9 - _ . ! ~ * ' ( ) *)
Definition uri_unreserved (n : Z) : bool :=
  ((65 <=? n) && (n <=? 90)) || ((97 <=? n) && (n <=? 122)) || ((48 <=? n) && (n <=? 57))
  || (n =? 45) || (n =? 95) || (n =? 46) || (n =? 33) || (n =? 126)
  || (n =? 42) || (n =? 39) || (n =? 40) || (n =? 41).

Fixpoint percent_encode (bytes : list Z) : string :=
  match bytes with
  | [] => ""
  | b :: rest =>
      (if uri_unreserved b then String (ascii_of_N (Z.to_N b)) ""
       else "%" ++ hex_byte true b) ++ percent_encode rest
  end.

(** [encodeURIComponent(s)]; it throws only on lone surrogates, which lie
    outside U+0000..U+00FF. *)
Definition encodeURIComponent (s : string) : string := percent_encode (utf8 s).

End JSString.

(** ** SHA-256 (FIPS 180-4), the hash behind [crypto.createHash('sha256')]

    32-bit words are integers in [0, 2^32) with the wrap-around written
    out. *)

Module SHA256.

Definition wrap (x : Z) : Z := x mod 4294967296.

Definition add32 (x y : Z) : Z := wrap (x + y).

Definition rotr (n x : Z) : Z :=
  Z.lor (Z.shiftr x n) (wrap (Z.shiftl x (32 - n))).

Definition not32 (x : Z) : Z := Z.lxor x 4294967295.

Definition Ch (x y z : Z) : Z := Z.lxor (Z.land x y) (Z.land (not32 x) z).

Definition Maj (x y z : Z) : Z :=
  Z.lxor (Z.lxor (Z.land x y) (Z.land x z)) (Z.land y z).

Definition bsig0 (x : Z) : Z := Z.lxor (Z.lxor (rotr 2 x) (rotr 13 x)) (rotr 22 x).
Definition bsig1 (x : Z) : Z := Z.lxor (Z.lxor (rotr 6 x) (rotr 11 x)) (rotr 25 x).
Definition ssig0 (x : Z) : Z := Z.lxor (Z.lxor (rotr 7 x) (rotr 18 x)) (Z.shiftr x 3).
Definition ssig1 (x : Z) : Z := Z.lxor (Z.lxor (rotr 17 x) (rotr 19 x)) (Z.shiftr x 10).

(** Round constants: the first 32 bits of the fractional parts of the
    cube roots of the first 64 primes. *)
Definition round_constants : list Z :=
[ 1116352408; 1899447441; 3049323471; 3921009573;
  961987163; 1508970993; 2453635748; 2870763221;
  3624381080; 310598401; 607225278; 1426881987;
  1925078388; 2162078206; 2614888103; 3248222580;
  3835390401; 4022224774; 264347078; 604807628;
  770255983; 1249150122; 1555081692; 1996064986;
  2554220882; 2821834349; 2952996808; 3210313671;
  3336571891; 3584528711; 113926993; 338241895;
  666307205; 773529912; 1294757372; 1396182291;
  1695183700; 1986661051; 2177026350; 2456956037;
  2730485921; 2820302411; 3259730800; 3345764771;
  3516065817; 3600352804; 4094571909; 275423344;
  430227734; 506948616; 659060556; 883997877;
  958139571; 1322822218; 1537002063; 1747873779;
  1955562222; 2024104815; 2227730452; 2361852424;
  2428436474; 2756734187; 3204031479; 3329325298 ].

(** Initial hash value: square roots of the first 8 primes. *)
Definition initial_hash : list Z :=
[ 1779033703; 3144134277; 1013904242; 2773480762;
  1359893119; 2600822924; 528734635; 1541459225 ].

(** Padding: the bit 1, zeros up to 56 modulo 64 bytes, then the bit
    length as a 64-bit big-endian integer. *)
Definition be_bytes (count : nat) (x : Z) : list Z :=
  map (fun i => Z.land (Z.shiftr x (8 * Z.of_nat i)) 255) (rev (seq 0 count)).

Definition pad (msg : list Z) : list Z :=
  let len := Z.of_nat (List.length msg) in
  let zeros := Z.to_nat ((55 - len) mod 64) in
  msg ++ [128] ++ repeat 0 zeros ++ be_bytes 8 (8 * len).

(** Big-endian 32-bit words of a byte sequence. *)
Fixpoint words (bytes : list Z) : list Z :=
  match bytes with
  | a :: b :: c :: d :: rest =>
      (Z.shiftl a 24 + Z.shiftl b 16 + Z.shiftl c 8 + d) :: words rest
  | _ => []
  end.

Fixpoint blocks (fuel : nat) (ws : list Z) : list (list Z) :=
  match fuel, ws with
  | S fuel', _ :: _ => firstn 16 ws :: blocks fuel' (skipn 16 ws)
  | _, _ => []
  end.

(** Message schedule: [w] holds W(0..t-1); each step appends W(t). *)
Fixpoint extend (steps : nat) (w : list Z) : list Z :=
  match steps with
  | O => w
  | S steps' =>
      let t := List.length w in
      let at_ k := nth (t - k) w 0 in
      extend steps'
        (w ++ [add32 (add32 (add32 (ssig1 (at_ 2%nat)) (at_ 7%nat)) (ssig0 (at_ 15%nat)))
                     (at_ 16%nat)])
  end.

Definition schedule (block : list Z) : list Z := extend 48 block.

Record regs := { ra : Z; rb : Z; rc : Z; rd : Z; re : Z; rf : Z; rg : Z; rh : Z }.

Definition round (r : regs) (kw : Z * Z) : regs :=
  let t1 := add32 (add32 (add32 (add32 (rh r) (bsig1 (re r))) (Ch (re r) (rf r) (rg r)))
                         (fst kw)) (snd kw) in
  let t2 := add32 (bsig0 (ra r)) (Maj (ra r) (rb r) (rc r)) in
  {| ra := add32 t1 t2; rb := ra r; rc := rb r; rd := rc r;
     re := add32 (rd r) t1; rf := re r; rg := rf r; rh := rg r |}.

Definition regs_of (h : list Z) : regs :=
  {| ra := nth 0 h 0; rb := nth 1 h 0; rc := nth 2 h 0; rd := nth 3 h 0;
     re := nth 4 h 0; rf := nth 5 h 0; rg := nth 6 h 0; rh := nth 7 h 0 |}.

Definition compress (h : list Z) (block : list Z) : list Z :=
  let r := fold_left round (combine round_constants (schedule block)) (regs_of h) in
  map (fun p : Z * Z => add32 (fst p) (snd p))
      (combine h [ra r; rb r; rc r; rd r; re r; rf r; rg r; rh r]).

Definition digest (msg : list Z) : list Z :=
  let ws := words (pad msg) in
  flat_map (be_bytes 4) (fold_left compress (blocks (List.length ws) ws) initial_hash).

End SHA256.

(** [sha256(data)]:
    [crypto.createHash('sha256').update(data).digest('hex')] *)
Definition sha256 (data : string) : string :=
  JSString.hex (SHA256.digest (JSString.utf8 data)).

(** ** JavaScript values

    The values the client tests for truthiness, compares or concatenates:
    [undefined], [null], booleans and strings.  Objects are typed records
    below; numbers appear only as the integers of [Date.now()] and of the
    HTTP status. *)

Inductive jsval : Type :=
| JUndefined
| JNull
| JBool (b : bool)
| JStr (s : string).

Module JS.

(** ToBoolean: what [if (v)], [!v], [v || w] and [v && w] test. *)
Definition truthy (v : jsval) : bool :=
  match v with
  | JUndefined | JNull => false
  | JBool b => b
  | JStr s => negb (JSString.is_empty s)
  end.

(** ToString: what [+] with a string and template literals apply. *)
Definition ToString (v : jsval) : string :=
  match v with
  | JUndefined => "undefined"
  | JNull => "null"
  | JBool true => "true"
  | JBool false => "false"
  | JStr s => s
  end.

(** [typeof v === 'string'] *)
Definition is_string (v : jsval) : bool :=
  match v with JStr _ => true | _ => false end.

(** [a === b] *)
Definition strict_eq (a b : jsval) : bool :=
  match a, b with
  | JUndefined, JUndefined => true
  | JNull, JNull => true
  | JBool x, JBool y => Bool.eqb x y
  | JStr x, JStr y => String.eqb x y
  | _, _ => false
  end.

(** [a || b] *)
Definition or (a b : jsval) : jsval := if truthy a then a else b.

End JS.

(** ** Completions: a value returned or an [Error] thrown, by its message *)

Inductive outcome (A : Type) : Type :=
| Return (value : A)
| Throw (message : string).

Arguments Return {A} value.
Arguments Throw {A} message.

Definition and_then {A B : Type} (o : outcome A) (k : A -> outcome B) : outcome B :=
  match o with
  | Return a => k a
  | Throw m => Throw m
  end.

(** [for (const x of xs) body(x)] for a body that may throw. *)
Fixpoint for_of {A : Type} (xs : list A) (body : A -> outcome unit) : outcome unit :=
  match xs with
  | [] => Return tt
  | x :: rest => and_then (body x) (fun _ => for_of rest body)
  end.

(** ** Data model (index.d.ts) *)

Module Config.

(** [NexveilConfig] as a caller may pass it: any field may be absent
    ([undefined]) or of another type than declared. *)
Record t : Type := {
  appName : jsval;
  secret1 : jsval;
  secret2 : jsval;
  secret3 : jsval;
  apiUrl : jsval;
  autoHWID : jsval;
  customHWID : jsval;
  strictSSL : jsval
}.

(** [config[field]] *)
Definition get (config : t) (field : string) : jsval :=
  if String.eqb field "appName" then appName config
  else if String.eqb field "secret1" then secret1 config
  else if String.eqb field "secret2" then secret2 config
  else if String.eqb field "secret3" then secret3 config
  else if String.eqb field "apiUrl" then apiUrl config
  else if String.eqb field "autoHWID" then autoHWID config
  else if String.eqb field "customHWID" then customHWID config
  else if String.eqb field "strictSSL" then strictSSL config
  else JUndefined.

End Config.

Record KeyData : Type := {
  expiresAt : jsval;
  activatedAt : jsval;
  note : jsval
}.

Record AppData : Type := { version : jsval }.

Record VerificationData : Type := {
  key_data : KeyData;
  app_data : AppData
}.

(** The JSON object of a server response. *)
Module Response.

Record t : Type := {
  code : jsval;
  message : jsval;
  signature : jsval;
  data : option VerificationData
}.

End Response.

(** [VerificationResult], the object [verify] builds. *)
Module Result.

Record t : Type := {
  success : bool;
  code : jsval;
  message : jsval;
  signature : jsval;
  data : option VerificationData;
  isActivated : bool;
  isValid : bool;
  timestamp : string
}.

(** [result.success = b] *)
Definition set_success (b : bool) (r : t) : t :=
  {| success := b; code := code r; message := message r; signature := signature r;
     data := data r; isActivated := isActivated r; isValid := isValid r;
     timestamp := timestamp r |}.

End Result.

(** The fields of a [NexveilAuth] instance. *)
Record NexveilAuth : Type := {
  appName : jsval;
  secret1 : jsval;
  secret2 : jsval;
  secret3 : jsval;
  apiUrl : jsval;
  autoHWID : bool;
  customHWID : jsval;
  strictSSL : bool;
  _hwid : jsval;
  _lastVerification : option Result.t
}.

Definition set_customHWID (v : jsval) (this : NexveilAuth) : NexveilAuth :=
  {| appName := appName this; secret1 := secret1 this; secret2 := secret2 this;
     secret3 := secret3 this; apiUrl := apiUrl this; autoHWID := autoHWID this;
     customHWID := v; strictSSL := strictSSL this; _hwid := _hwid this;
     _lastVerification := _lastVerification this |}.

Definition set_hwid (v : jsval) (this : NexveilAuth) : NexveilAuth :=
  {| appName := appName this; secret1 := secret1 this; secret2 := secret2 this;
     secret3 := secret3 this; apiUrl := apiUrl this; autoHWID := autoHWID this;
     customHWID := customHWID this; strictSSL := strictSSL this; _hwid := v;
     _lastVerification := _lastVerification this |}.

Definition set_lastVerification (v : option Result.t) (this : NexveilAuth) : NexveilAuth :=
  {| appName := appName this; secret1 := secret1 this; secret2 := secret2 this;
     secret3 := secret3 this; apiUrl := apiUrl this; autoHWID := autoHWID this;
     customHWID := customHWID this; strictSSL := strictSSL this; _hwid := _hwid this;
     _lastVerification := v |}.

(** ** The world around a call *)

Record CpuInfo : Type := { model : string }.

Record NetworkInterfaceInfo : Type := { mac : string }.

(** What the [os] module and [execSync] answer on this machine. *)
Record System : Type := {
  cpus : list CpuInfo;
  hostname : outcome string;
  platform : string;
  arch : string;
  networkInterfaces : outcome (list (string * list NetworkInterfaceInfo));
  exec : string -> outcome string
}.

(** [fetch(url, fetchOptions)] *)
Record Request : Type := {
  url : string;
  method : string;
  headers : list (string * jsval);
  agent : jsval
}.

(** A [Response]: [ok], [status] and what [json()] resolves to.  [None] is
    the JSON value [null], whose properties cannot be read; a JSON value
    that is no object reads as a body with every field [undefined]. *)
Record HttpResponse : Type := {
  ok : bool;
  status : Z;
  json : outcome (option Response.t)
}.

Record Env : Type := {
  os : System;
  randomBytes : nat -> list Z;
  Date_now : Z;
  toISOString : string;
  fetch : Request -> outcome HttpResponse
}.

(** What a call does to the outside, in order. *)
Inductive Event : Type :=
| Probe (call : string)
| Exec (command : string)
| Warn (text : string)
| Fetch (request : Request).

(** ** Methods: a completion, the instance afterwards, the events *)

Definition M (A : Type) : Type :=
  Env -> NexveilAuth -> outcome A * NexveilAuth * list Event.

Definition ret {A : Type} (a : A) : M A := fun _ this => (Return a, this, []).

Definition throw {A : Type} (message : string) : M A :=
  fun _ this => (Throw message, this, []).

Definition bind {A B : Type} (m : M A) (k : A -> M B) : M B :=
  fun env this =>
    match m env this with
    | (Return a, this1, ev1) =>
        match k a env this1 with
        | (r, this2, ev2) => (r, this2, (ev1 ++ ev2)%list)
        end
    | (Throw e, this1, ev1) => (Throw e, this1, ev1)
    end.

(** [try { m } catch (error) { handler(error.message) }] *)
Definition try_catch {A : Type} (m : M A) (handler : string -> M A) : M A :=
  fun env this =>
    match m env this with
    | (Return a, this1, ev1) => (Return a, this1, ev1)
    | (Throw e, this1, ev1) =>
        match handler e env this1 with
        | (r, this2, ev2) => (r, this2, (ev1 ++ ev2)%list)
        end
    end.

Definition read_this : M NexveilAuth := fun _ this => (Return this, this, []).

Definition update (f : NexveilAuth -> NexveilAuth) : M unit :=
  fun _ this => (Return tt, f this, []).

Definition emit (e : Event) : M unit := fun _ this => (Return tt, this, [e]).

Definition ask : M Env := fun env this => (Return env, this, []).

Definition lift {A : Type} (o : outcome A) : M A := fun _ this => (o, this, []).

Declare Scope method_scope.
Delimit Scope method_scope with method.
Notation "x <- m ;; k" := (bind m (fun x => k))
  (at level 61, m at next level, right associativity) : method_scope.
Notation "m ;; k" := (bind m (fun _ => k))
  (at level 61, right associativity) : method_scope.

Local Open Scope method_scope.

(** ** Node primitives as methods *)

Definition os_cpus : M (list CpuInfo) :=
  emit (Probe "os.cpus") ;; env <- ask ;; ret (cpus (os env)).

Definition os_hostname : M string :=
  emit (Probe "os.hostname") ;; env <- ask ;; lift (hostname (os env)).

Definition os_platform : M string :=
  emit (Probe "os.platform") ;; env <- ask ;; ret (platform (os env)).

Definition os_arch : M string :=
  emit (Probe "os.arch") ;; env <- ask ;; ret (arch (os env)).

Definition os_networkInterfaces : M (list (string * list NetworkInterfaceInfo)) :=
  emit (Probe "os.networkInterfaces") ;; env <- ask ;; lift (networkInterfaces (os env)).

(** [execSync(command, { encoding: 'utf8' })] *)
Definition execSync (command : string) : M string :=
  emit (Exec command) ;; env <- ask ;; lift (exec (os env) command).

Definition console_warn (text : string) : M unit := emit (Warn text).

(** [crypto.randomBytes(size).toString('hex')] *)
Definition crypto_randomBytes_hex (size : nat) : M string :=
  env <- ask ;; ret (JSString.hex (randomBytes env size)).

(** [Date.now().toString()] *)
Definition Date_now_toString : M string :=
  env <- ask ;; ret (JSString.Number_toString (Date_now env)).

(** [new Date().toISOString()] *)
Definition new_Date_toISOString : M string :=
  env <- ask ;; ret (toISOString env).

Definition do_fetch (request : Request) : M HttpResponse :=
  emit (Fetch request) ;; env <- ask ;; lift (fetch env request).

(** [macAddresses.sort()]: the default order, by code units. *)
Fixpoint sort_insert (x : string) (sorted : list string) : list string :=
  match sorted with
  | [] => [x]
  | y :: rest => if String.leb x y then x :: sorted else y :: sort_insert x rest
  end.

Fixpoint Array_sort (xs : list string) : list string :=
  match xs with
  | [] => []
  | x :: rest => sort_insert x (Array_sort rest)
  end.

(** ** The class [NexveilAuth] *)

Definition required : list string := ["appName"; "secret1"; "secret2"; "secret3"].

(** [/^.{64}$/s.test(secret)]: the argument is converted to a string; with
    the flag [s] and without [u] the dot matches any code unit, so the test
    is that there are exactly 64 of them. *)
Definition secretRegex_test (secret : jsval) : bool :=
  (String.length (JS.ToString secret) =? 64)%nat.

Definition validateConfig (config : option Config.t) : outcome unit :=
  match config with
  | None => Throw "nexveil: Configuration object is required"
  | Some config =>
      and_then
        (for_of required (fun field =>
           if negb (JS.truthy (Config.get config field))
           then Throw ("nexveil: Missing required field: " ++ field)
           else Return tt))
        (fun _ =>
      and_then
        (for_of [1; 2; 3] (fun i =>
           let secret := Config.get config ("secret" ++ JSString.Number_toString i) in
           if negb (secretRegex_test secret)
           then Throw ("nexveil: secret" ++ JSString.Number_toString i
                       ++ " must be exactly 64 characters")
           else Return tt))
        (fun _ =>
      match Config.appName config with
      | JStr name =>
          if (String.length name =? 0)%nat
          then Throw "nexveil: appName must be a non-empty string"
          else Return tt
      | _ => Throw "nexveil: appName must be a non-empty string"
      end))
  end.

(** [new NexveilAuth(config)] *)
Definition constructor (config : option Config.t) : outcome NexveilAuth :=
  and_then (validateConfig config) (fun _ =>
  match config with
  | None => Throw "Cannot read properties of undefined (reading 'appName')"
  | Some config =>
      Return
        {| appName := Config.appName config;
           secret1 := Config.secret1 config;
           secret2 := Config.secret2 config;
           secret3 := Config.secret3 config;
           apiUrl := JS.or (Config.apiUrl config) (JStr "https://api.nexveil.net");
           autoHWID := negb (JS.strict_eq (Config.autoHWID config) (JBool false));
           customHWID := JS.or (Config.customHWID config) JNull;
           strictSSL := negb (JS.strict_eq (Config.strictSSL config) (JBool false));
           _hwid := JNull;
           _lastVerification := None |}
  end).

Definition zero_mac : string := "00:00:00:00:00:00".

Definition wmic_command : string := "wmic csproduct get uuid".

Definition machine_id_command : string :=
  "cat /etc/machine-id || cat /var/lib/dbus/machine-id".

(** The command of the source holds a backslash followed by a double
    quote after [-F]. *)
Definition ioreg_command : string :=
  "ioreg -d2 -c IOPlatformExpertDevice | awk -F"
  ++ String "092"%char (String "034"%char " '/IOPlatformUUID/{print $(NF-1)}'").

Definition newline : ascii := "010"%char.

Definition generateHWID : M jsval :=
  this <- read_this ;;
  if JS.truthy (customHWID this) then ret (customHWID this)
  else if JS.truthy (_hwid this) then ret (_hwid this)
  else
    try_catch
      (cpus <- os_cpus ;;
       let components0 :=
         match cpus with
         | cpu :: _ => [model cpu]
         | [] => []
         end in
       host <- os_hostname ;;
       plat <- os_platform ;;
       arc <- os_arch ;;
       interfaces <- os_networkInterfaces ;;
       let macAddresses :=
         filter (fun m => negb (JSString.is_empty m) && negb (String.eqb m zero_mac))
                (flat_map (fun entry => map mac (snd entry)) interfaces) in
       let components1 := (components0 ++ [host; plat; arc] ++ Array_sort macAddresses)%list in
       specific <-
         try_catch
           (p1 <- os_platform ;;
            if String.eqb p1 "win32" then
              out <- execSync wmic_command ;;
              match nth_error (JSString.split newline out) 1 with
              | Some line => ret [JSString.trim line]
              | None => throw "Cannot read properties of undefined (reading 'trim')"
              end
            else
              p2 <- os_platform ;;
              if String.eqb p2 "linux" then
                out <- execSync machine_id_command ;;
                ret [JSString.trim out]
              else
                p3 <- os_platform ;;
                if String.eqb p3 "darwin" then
                  out <- execSync ioreg_command ;;
                  ret [JSString.trim out]
                else ret [])
           (fun _ =>
              console_warn "Nexveil: Could not retrieve platform-specific ID" ;;
              ret []) ;;
       let combined := JSString.join "||" (components1 ++ specific) in
       let hwid := sha256 combined in
       update (set_hwid (JStr hwid)) ;;
       ret (JStr hwid))
      (fun message => throw ("Nexveil: Failed to generate HWID: " ++ message)).

Definition getHWID : M jsval :=
  this <- read_this ;;
  if autoHWID this then generateHWID
  else if JS.truthy (customHWID this) then ret (customHWID this)
  else throw "Nexveil: HWID not set. Enable autoHWID or provide customHWID".

Definition setHWID (hwid : jsval) : M unit :=
  if negb (JS.truthy hwid) || negb (JS.is_string hwid)
  then throw "Nexveil: HWID must be a non-empty string"
  else update (set_customHWID hwid) ;; update (set_hwid hwid).

Definition KEY_VALID : jsval := JStr "KEY_VALID".
Definition KEY_ACTIVATED : jsval := JStr "KEY_ACTIVATED".

Definition signature_error : string :=
  "nexveil: Server signature verification failed - response may be tampered".

Definition verify (key : jsval) : M Result.t :=
  if negb (JS.truthy key) || negb (JS.is_string key)
  then throw "Nexveil: License key must be a non-empty string"
  else
    try_catch
      (clientHWID <- getHWID ;;
       clientNonce <- crypto_randomBytes_hex 32 ;;
       clientTime <- Date_now_toString ;;
       this <- read_this ;;
       let clientSignature :=
         sha256 (clientNonce ++ JS.ToString (secret1 this) ++ JS.ToString key
                 ++ JS.ToString (secret2 this) ++ clientTime
                 ++ JS.ToString (secret3 this) ++ JS.ToString clientHWID) in
       let headers :=
         [ ("Content-Type", JStr "application/json");
           ("clienttime", JStr clientTime);
           ("externalsignature", JStr clientSignature);
           ("clientnonce", JStr clientNonce);
           ("clienthwid", clientHWID) ] in
       let url :=
         JS.ToString (apiUrl this) ++ "/wlv1/application/auth?key="
         ++ JSString.encodeURIComponent (JS.ToString key) ++ "&app_name="
         ++ JSString.encodeURIComponent (JS.ToString (appName this)) in
       let fetchOptions :=
         {| url := url; method := "GET"; headers := headers;
            agent := if negb (strictSSL this) && JSString.includes url "localhost"
                     then JNull else JUndefined |} in
       response <- do_fetch fetchOptions ;;
       if negb (ok response) && (status response >=? 500)
       then throw ("nexveil: Server error ("
                   ++ JSString.Number_toString (status response) ++ ")")
       else
         parsed <- lift (json response) ;;
         match parsed with
         | None => throw "Cannot read properties of null (reading 'signature')"
         | Some data =>
             (if JS.truthy (Response.signature data) then
                let expectedServerSignature :=
                  sha256 (clientNonce ++ JS.ToString (secret3 this)
                          ++ JS.ToString (Response.code data)) in
                if negb (JS.strict_eq (Response.signature data) (JStr expectedServerSignature))
                then throw signature_error
                else ret tt
              else ret tt) ;;
             now <- new_Date_toISOString ;;
             let result :=
               {| Result.success := false;
                  Result.code := JS.or (Response.code data) (JStr "UNKNOWN_ERROR");
                  Result.message := JS.or (Response.message data) (JStr "Unknown error occurred");
                  Result.signature := JS.or (Response.signature data) JNull;
                  Result.data := Response.data data;
                  Result.isActivated := JS.strict_eq (Response.code data) KEY_ACTIVATED;
                  Result.isValid := JS.strict_eq (Response.code data) KEY_VALID
                                    || JS.strict_eq (Response.code data) KEY_ACTIVATED;
                  Result.timestamp := now |} in
             if Result.isValid result then
               let result := Result.set_success true result in
               update (set_lastVerification (Some result)) ;;
               ret result
             else ret result
         end)
      (fun message =>
         if JSString.includes message "nexveil:" then throw message
         else throw ("nexveil: Verification failed - " ++ message)).

Definition verifyOrThrow (key : jsval) : M Result.t :=
  result <- verify key ;;
  if negb (Result.success result)
  then throw ("nexveil: " ++ JS.ToString (Result.code result) ++ " - "
              ++ JS.ToString (Result.message result))
  else ret result.

Definition getLastVerification : M (option Result.t) :=
  this <- read_this ;; ret (_lastVerification this).

(** [this._lastVerification && this._lastVerification.success]: the left
    operand itself when it is [null], the flag otherwise (an object is
    truthy). *)
Definition isAuthenticated : M jsval :=
  this <- read_this ;;
  match _lastVerification this with
  | None => ret JNull
  | Some last => ret (JBool (Result.success last))
  end.

Definition clearCache : M unit := update (set_lastVerification None).

(** ** Notions used in the statements *)

Definition outcome_of {A : Type} (x : outcome A * NexveilAuth * list Event) : outcome A :=
  fst (fst x).

Definition state_after {A : Type} (x : outcome A * NexveilAuth * list Event) : NexveilAuth :=
  snd (fst x).

Definition events_of {A : Type} (x : outcome A * NexveilAuth * list Event) : list Event :=
  snd x.

Definition preserves {A B : Type} (f : NexveilAuth -> B) (m : M A) : Prop :=
  forall env this, f (state_after (m env this)) = f this.

Definition emits {A : Type} (P : Event -> Prop) (m : M A) : Prop :=
  forall env this, Forall P (events_of (m env this)).

Definition not_fetch (e : Event) : Prop :=
  match e with Fetch _ => False | _ => True end.

(** The MAC addresses [generateHWID] keeps, and the components it joins. *)
Definition mac_kept (m : string) : bool :=
  negb (JSString.is_empty m) && negb (String.eqb m zero_mac).

Definition all_macs (interfaces : list (string * list NetworkInterfaceInfo)) : list string :=
  flat_map (fun entry => map mac (snd entry)) interfaces.

Definition specific_id (s : System) : list string :=
  if String.eqb (platform s) "win32" then
    match exec s wmic_command with
    | Return out =>
        match nth_error (JSString.split newline out) 1 with
        | Some line => [JSString.trim line]
        | None => []
        end
    | Throw _ => []
    end
  else if String.eqb (platform s) "linux" then
    match exec s machine_id_command with
    | Return out => [JSString.trim out]
    | Throw _ => []
    end
  else if String.eqb (platform s) "darwin" then
    match exec s ioreg_command with
    | Return out => [JSString.trim out]
    | Throw _ => []
    end
  else [].

Definition components (s : System) (host : string)
    (interfaces : list (string * list NetworkInterfaceInfo)) : list string :=
  (match cpus s with cpu :: _ => [model cpu] | [] => [] end
   ++ [host; platform s; arch s]
   ++ Array_sort (filter mac_kept (all_macs interfaces))
   ++ specific_id s)%list.

(** The warning logged when the platform-specific lookup throws. *)
Definition lookup_warning : Event :=
  Warn "Nexveil: Could not retrieve platform-specific ID".

(** What the platform-specific lookup does to the outside. *)
Definition specific_events (s : System) : list Event :=
  if String.eqb (platform s) "win32" then
    [Probe "os.platform"; Exec wmic_command]
    ++ match exec s wmic_command with
       | Return out =>
           match nth_error (JSString.split newline out) 1 with
           | Some _ => []
           | None => [lookup_warning]
           end
       | Throw _ => [lookup_warning]
       end
  else if String.eqb (platform s) "linux" then
    [Probe "os.platform"; Probe "os.platform"; Exec machine_id_command]
    ++ match exec s machine_id_command with
       | Return _ => []
       | Throw _ => [lookup_warning]
       end
  else if String.eqb (platform s) "darwin" then
    [Probe "os.platform"; Probe "os.platform"; Probe "os.platform"; Exec ioreg_command]
    ++ match exec s ioreg_command with
       | Return _ => []
       | Throw _ => [lookup_warning]
       end
  else [Probe "os.platform"; Probe "os.platform"; Probe "os.platform"].

(** What one derivation of the fingerprint does to the outside. *)
Definition derivation_events (s : System) : list Event :=
  [Probe "os.cpus"; Probe "os.hostname"; Probe "os.platform"; Probe "os.arch";
   Probe "os.networkInterfaces"] ++ specific_events s.

(** The parts of one [verify] call: the error the handler rethrows, the
    request handed to [fetch], the signature expected from the server and
    the result object. *)
Definition wrap_error (message : string) : string :=
  if JSString.includes message "nexveil:" then message
  else "nexveil: Verification failed - " ++ message.

Definition nonce_of (env : Env) : string := JSString.hex (randomBytes env 32).

Definition clientSignature_of (env : Env) (this : NexveilAuth) (key hwid : jsval) : string :=
  sha256 (nonce_of env ++ JS.ToString (secret1 this) ++ JS.ToString key
          ++ JS.ToString (secret2 this) ++ JSString.Number_toString (Date_now env)
          ++ JS.ToString (secret3 this) ++ JS.ToString hwid).

Definition url_of (this : NexveilAuth) (key : jsval) : string :=
  JS.ToString (apiUrl this) ++ "/wlv1/application/auth?key="
  ++ JSString.encodeURIComponent (JS.ToString key) ++ "&app_name="
  ++ JSString.encodeURIComponent (JS.ToString (appName this)).

Definition request_of (env : Env) (this : NexveilAuth) (key hwid : jsval) : Request :=
  {| url := url_of this key;
     method := "GET";
     headers :=
       [ ("Content-Type", JStr "application/json");
         ("clienttime", JStr (JSString.Number_toString (Date_now env)));
         ("externalsignature", JStr (clientSignature_of env this key hwid));
         ("clientnonce", JStr (nonce_of env));
         ("clienthwid", hwid) ];
     agent := if negb (strictSSL this) && JSString.includes (url_of this key) "localhost"
              then JNull else JUndefined |}.

Definition expected_signature (env : Env) (this : NexveilAuth) (data : Response.t) : string :=
  sha256 (nonce_of env ++ JS.ToString (secret3 this) ++ JS.ToString (Response.code data)).

Definition classify (env : Env) (data : Response.t) : Result.t :=
  {| Result.success := false;
     Result.code := JS.or (Response.code data) (JStr "UNKNOWN_ERROR");
     Result.message := JS.or (Response.message data) (JStr "Unknown error occurred");
     Result.signature := JS.or (Response.signature data) JNull;
     Result.data := Response.data data;
     Result.isActivated := JS.strict_eq (Response.code data) KEY_ACTIVATED;
     Result.isValid := JS.strict_eq (Response.code data) KEY_VALID
                       || JS.strict_eq (Response.code data) KEY_ACTIVATED;
     Result.timestamp := toISOString env |}.

Definition after_response (env : Env) (this1 : NexveilAuth) (ev : list Event)
    (response : HttpResponse) : outcome Result.t * NexveilAuth * list Event :=
  if negb (ok response) && (status response >=? 500)
  then (Throw ("nexveil: Server error (" ++ JSString.Number_toString (status response) ++ ")"),
        this1, ev)
  else
    match json response with
    | Throw e => (Throw (wrap_error e), this1, ev)
    | Return None =>
        (Throw (wrap_error "Cannot read properties of null (reading 'signature')"), this1, ev)
    | Return (Some data) =>
        if JS.truthy (Response.signature data)
           && negb (JS.strict_eq (Response.signature data)
                                 (JStr (expected_signature env this1 data)))
        then (Throw signature_error, this1, ev)
        else if Result.isValid (classify env data)
        then (Return (Result.set_success true (classify env data)),
              set_lastVerification (Some (Result.set_success true (classify env data))) this1,
              ev)
        else (Return (classify env data), this1, ev)
    end.

(** The public methods as calls made on one instance, each in the world
    of its own moment. *)
Inductive Call : Type :=
| call_generateHWID
| call_getHWID
| call_setHWID (hwid : jsval)
| call_verify (key : jsval)
| call_verifyOrThrow (key : jsval)
| call_getLastVerification
| call_isAuthenticated
| call_clearCache.

Definition perform (c : Call) (env : Env) (this : NexveilAuth) : NexveilAuth :=
  match c with
  | call_generateHWID => state_after (generateHWID env this)
  | call_getHWID => state_after (getHWID env this)
  | call_setHWID hwid => state_after (setHWID hwid env this)
  | call_verify key => state_after (verify key env this)
  | call_verifyOrThrow key => state_after (verifyOrThrow key env this)
  | call_getLastVerification => state_after (getLastVerification env this)
  | call_isAuthenticated => state_after (isAuthenticated env this)
  | call_clearCache => state_after (clearCache env this)
  end.

Fixpoint run (calls : list (Call * Env)) (this : NexveilAuth) : NexveilAuth :=
  match calls with
  | [] => this
  | (c, env) :: rest => run rest (perform c env this)
  end.

Definition is_setHWID (c : Call) : bool :=
  match c with call_setHWID _ => true | _ => false end.

(** [headers[name]] *)
Fixpoint header (name : string) (hs : list (string * jsval)) : jsval :=
  match hs with
  | [] => JUndefined
  | (n, v) :: rest => if String.eqb n name then v else header name rest
  end.

(** ** Configuration errors *)

(** The field name built in the loop over the secrets. *)
Definition secret_field (i : Z) : string := "secret" ++ JSString.Number_toString i.

(** A configuration error that names a field of [config] at fault: a
    required field that is falsy, or a secret whose text has not 64
    characters. *)
Inductive names_offender (config : Config.t) : string -> Prop :=
| names_missing field :
    In field required ->
    JS.truthy (Config.get config field) = false ->
    names_offender config ("nexveil: Missing required field: " ++ field)
| names_bad_secret i :
    In i [1; 2; 3] ->
    String.length (JS.ToString (Config.get config (secret_field i))) <> 64%nat ->
    names_offender config ("nexveil: " ++ secret_field i ++ " must be exactly 64 characters").


(** The configuration of test.js, and variants of it. *)
Definition test_config : Config.t :=
  {| Config.appName := JStr "solara";
     Config.secret1 := JStr "4444454636363636363737373734734745645642461346434366345364536453";
     Config.secret2 := JStr "56865856865658653865386538636386364364t3463643463643463wr32wa42a";
     Config.secret3 := JStr "745836473526478u2746574527542452w365yaw36rqwa3tr5wa6yr36ayha456t";
     Config.apiUrl := JStr "http://api.nexveil.local:4000";
     Config.autoHWID := JUndefined;
     Config.customHWID := JUndefined;
     Config.strictSSL := JUndefined |}.

Definition with_secret2 (v : jsval) (config : Config.t) : Config.t :=
  {| Config.appName := Config.appName config;
     Config.secret1 := Config.secret1 config;
     Config.secret2 := v;
     Config.secret3 := Config.secret3 config;
     Config.apiUrl := Config.apiUrl config;
     Config.autoHWID := Config.autoHWID config;
     Config.customHWID := Config.customHWID config;
     Config.strictSSL := Config.strictSSL config |}.

Definition with_customHWID (v : jsval) (config : Config.t) : Config.t :=
  {| Config.appName := Config.appName config;
     Config.secret1 := Config.secret1 config;
     Config.secret2 := Config.secret2 config;
     Config.secret3 := Config.secret3 config;
     Config.apiUrl := Config.apiUrl config;
     Config.autoHWID := Config.autoHWID config;
     Config.customHWID := v;
     Config.strictSSL := Config.strictSSL config |}.

Definition with_autoHWID (v : jsval) (config : Config.t) : Config.t :=
  {| Config.appName := Config.appName config;
     Config.secret1 := Config.secret1 config;
     Config.secret2 := Config.secret2 config;
     Config.secret3 := Config.secret3 config;
     Config.apiUrl := Config.apiUrl config;
     Config.autoHWID := v;
     Config.customHWID := Config.customHWID config;
     Config.strictSSL := Config.strictSSL config |}.

(** 64 characters of mixed symbols, and the same with one character less
    and one more. *)
Definition symbols64 : string :=
  "!@#$%^&*()_+-=[]{}|;:,.<>?/~` 'aA0!@#$%^&*()_+-=[]{}|;:,.<>?/~` ".

Definition symbols63 : string := String.substring 0 63 symbols64.

Definition symbols65 : string := symbols64 ++ "#".

(** Calls among which none is [setHWID]. *)
Definition no_setHWID (calls : list (Call * Env)) : Prop :=
  Forall (fun ce => is_setHWID (fst ce) = false) calls.

(** ** A concrete world

    A Linux machine whose interface [eth0] has an IPv4 and an IPv6 entry,
    hence the same MAC address twice, as [os.networkInterfaces()] reports
    it. *)
Definition linux_box : System :=
  {| cpus := [ {| model := "Intel(R) Core(TM) i7-8650U CPU @ 1.90GHz" |};
               {| model := "Intel(R) Core(TM) i7-8650U CPU @ 1.90GHz" |} ];
     hostname := Return "build-host";
     platform := "linux";
     arch := "x64";
     networkInterfaces :=
       Return
         [ ("lo", [ {| mac := "00:00:00:00:00:00" |}; {| mac := "00:00:00:00:00:00" |} ]);
           ("eth0", [ {| mac := "52:54:00:12:34:56" |}; {| mac := "52:54:00:12:34:56" |} ]) ];
     exec := fun command =>
       if String.eqb command machine_id_command
       then Return ("0f2d3c4b5a69788796a5b4c3d2e1f001" ++ String newline "")
       else Throw ("Command failed: " ++ command) |}.

Definition world (transport : Request -> outcome HttpResponse) : Env :=
  {| os := linux_box;
     randomBytes := fun size => repeat 171 size;
     Date_now := 1700000000000;
     toISOString := "2023-11-14T22:13:20.000Z";
     fetch := transport |}.

(** No network. *)
Definition offline : Request -> outcome HttpResponse :=
  fun _ => Throw "fetch failed".

(** An authority that answers [code] with status 200 and signs the
    nonce of the request with [secret]. *)
Definition authority (code : jsval) (secret : string) : Request -> outcome HttpResponse :=
  fun request =>
    Return
      {| ok := true;
         status := 200;
         json :=
           Return
             (Some
                {| Response.code := code;
                   Response.message := JStr "done";
                   Response.signature :=
                     JStr (sha256 (JS.ToString (header "clientnonce" (headers request))
                                   ++ secret ++ JS.ToString code));
                   Response.data := None |}) |}.

(** An authority that answers a fixed body, whatever the request. *)
Definition answers (is_ok : bool) (code_status : Z) (body : Response.t)
  : Request -> outcome HttpResponse :=
  fun _ => Return {| ok := is_ok; status := code_status; json := Return (Some body) |}.

(** The instance [new NexveilAuth(test_config)] builds. *)
Definition test_instance : NexveilAuth :=
  {| appName := JStr "solara";
     secret1 := JStr "4444454636363636363737373734734745645642461346434366345364536453";
     secret2 := JStr "56865856865658653865386538636386364364t3463643463643463wr32wa42a";
     secret3 := JStr "745836473526478u2746574527542452w365yaw36rqwa3tr5wa6yr36ayha456t";
     apiUrl := JStr "http://api.nexveil.local:4000";
     autoHWID := true;
     customHWID := JNull;
     strictSSL := true;
     _hwid := JNull;
     _lastVerification := None |}.

Definition test_secret3 : string :=
  "745836473526478u2746574527542452w365yaw36rqwa3tr5wa6yr36ayha456t".

(** A result as [verify] caches it. *)
Definition valid_result : Result.t :=
  {| Result.success := true;
     Result.code := KEY_VALID;
     Result.message := JStr "done";
     Result.signature := JNull;
     Result.data := None;
     Result.isActivated := false;
     Result.isValid := true;
     Result.timestamp := "2023-11-14T22:13:20.000Z" |}.

(** ** Statements about signatures

    The reading of the response check under which every body that carries
    a [signature] field (any value but [undefined]) different from the
    expected hash makes [verify] throw the signature error and leave the
    cache alone. *)
Definition rejects_every_mismatching_signature : Prop :=
  forall key env this r this' ev request response data,
    verify key env this = (r, this', ev) ->
    In (Fetch request) ev ->
    fetch env request = Return response ->
    json response = Return (Some data) ->
    Response.signature data <> JUndefined ->
    Response.signature data
    <> JStr (sha256 (nonce_of env ++ JS.ToString (secret3 this)
                     ++ JS.ToString (Response.code data))) ->
    r = Throw signature_error /\ _lastVerification this' = _lastVerification this.

(** A body that claims a valid key under an empty signature. *)
Definition unsigned_valid : Response.t :=
  {| Response.code := KEY_VALID;
     Response.message := JStr "done";
     Response.signature := JStr "";
     Response.data := None |}.

(** A body that claims a valid key under a signature that is not a hash
    at all. *)
Definition forged_valid : Response.t :=
  {| Response.code := KEY_VALID;
     Response.message := JStr "done";
     Response.signature := JStr "0000000000000000000000000000000000000000000000000000000000000000";
     Response.data := None |}.

Definition wrong_secret : string :=
  "ffffffffffffffffffffffffffffffffffffffffffffffffffffffffffffffff".

(** ** The fingerprint read as a function of a set of addresses

    [sorted_set] keeps one copy of each address; [components_of_set] is the
    component list with the addresses taken as a set, and
    [fingerprint_from_sorted_set] the statement that [generateHWID] hashes
    that list. *)
Definition sorted_set (macs : list string) : list string :=
  nodup string_dec (Array_sort macs).

Definition components_of_set (s : System) (host : string)
    (interfaces : list (string * list NetworkInterfaceInfo)) : list string :=
  (match cpus s with cpu :: _ => [model cpu] | [] => [] end
   ++ [host; platform s; arch s]
   ++ sorted_set (filter mac_kept (all_macs interfaces))
   ++ specific_id s)%list.

Definition fingerprint_from_sorted_set : Prop :=
  forall env this host interfaces,
    JS.truthy (customHWID this) = false ->
    JS.truthy (_hwid this) = false ->
    hostname (os env) = Return host ->
    networkInterfaces (os env) = Return interfaces ->
    outcome_of (generateHWID env this)
    = Return (JStr (sha256 (JSString.join "||"
                              (components_of_set (os env) host interfaces)))).

(** The order of [Array.prototype.sort] on strings. *)
Definition string_le (a b : string) : Prop := String.leb a b = true.

(** [linux_box] with the machine-id lookup failing. *)
Definition linux_box_without_id : System :=
  {| cpus := cpus linux_box;
     hostname := hostname linux_box;
     platform := platform linux_box;
     arch := arch linux_box;
     networkInterfaces := networkInterfaces linux_box;
     exec := fun command => Throw ("Command failed: " ++ command) |}.

(** ** More of the concrete world *)

(** [test_instance] with automatic generation switched off. *)
Definition manual_instance : NexveilAuth :=
  {| appName := appName test_instance;
     secret1 := secret1 test_instance;
     secret2 := secret2 test_instance;
     secret3 := secret3 test_instance;
     apiUrl := apiUrl test_instance;
     autoHWID := false;
     customHWID := JNull;
     strictSSL := strictSSL test_instance;
     _hwid := JNull;
     _lastVerification := None |}.

(** A body with nothing but data the client does not look at. *)
Definition empty_body : Response.t :=
  {| Response.code := JUndefined;
     Response.message := JUndefined;
     Response.signature := JUndefined;
     Response.data := None |}.

(** A body that reports an expired key, unsigned. *)
Definition expired_body : Response.t :=
  {| Response.code := JStr "KEY_EXPIRED";
     Response.message := JStr "License key has expired";
     Response.signature := JNull;
     Response.data := None |}.

(** [linux_box] with its interfaces listed in another order. *)
Definition linux_box_reordered : System :=
  {| cpus := cpus linux_box;
     hostname := hostname linux_box;
     platform := platform linux_box;
     arch := arch linux_box;
     networkInterfaces :=
       Return
         [ ("eth0", [ {| mac := "52:54:00:12:34:56" |}; {| mac := "52:54:00:12:34:56" |} ]);
           ("lo", [ {| mac := "00:00:00:00:00:00" |}; {| mac := "00:00:00:00:00:00" |} ]) ];
     exec := exec linux_box |}.

(** A machine on which the host name cannot be read. *)
Definition nameless_box : System :=
  {| cpus := cpus linux_box;
     hostname := Throw "A system error occurred: uv_os_gethostname returned ENOSYS";
     platform := platform linux_box;
     arch := arch linux_box;
     networkInterfaces := networkInterfaces linux_box;
     exec := exec linux_box |}.

(** A Windows machine whose [wmic] prints a single line. *)
Definition windows_box : System :=
  {| cpus := cpus linux_box;
     hostname := Return "DESKTOP-1";
     platform := "win32";
     arch := "x64";
     networkInterfaces := Return [ ("Ethernet", [ {| mac := "52:54:00:12:34:56" |} ]) ];
     exec := fun command =>
       if String.eqb command wmic_command then Return "No Instance(s) Available."
       else Throw ("Command failed: " ++ command) |}.

Definition on_machine (s : System) : Env :=
  {| os := s;
     randomBytes := fun size => repeat 171 size;
     Date_now := 1700000000000;
     toISOString := "2023-11-14T22:13:20.000Z";
     fetch := offline |}.

(** The interfaces of [linux_box]. *)
Definition linux_interfaces : list (string * list NetworkInterfaceInfo) :=
  [ ("lo", [ {| mac := "00:00:00:00:00:00" |}; {| mac := "00:00:00:00:00:00" |} ]);
    ("eth0", [ {| mac := "52:54:00:12:34:56" |}; {| mac := "52:54:00:12:34:56" |} ]) ].

(** ** The cache as the methods leave it *)

(** A cache that is empty or holds a result of a successful
    verification. *)
Definition cache_sound (this : NexveilAuth) : Prop :=
  match _lastVerification this with
  | None => True
  | Some r =>
      Result.success r = true
      /\ Result.isValid r = true
      /\ (Result.code r = KEY_VALID \/ Result.code r = KEY_ACTIVATED)
  end.

(** ** Validation in order *)

(** [field] is the first of the required fields that is falsy. *)
Definition first_missing (config : Config.t) (field : string) : Prop :=
  exists before after,
    required = (before ++ field :: after)%list
    /\ Forall (fun g => JS.truthy (Config.get config g) = true) before
    /\ JS.truthy (Config.get config field) = false.

(** [i] is the first secret whose text has not 64 characters. *)
Definition first_bad_secret (config : Config.t) (i : Z) : Prop :=
  exists before after,
    [1; 2; 3] = (before ++ i :: after)%list
    /\ Forall (fun j => String.length (JS.ToString (Config.get config (secret_field j)))
                        = 64%nat) before
    /\ String.length (JS.ToString (Config.get config (secret_field i))) <> 64%nat.

(** ** The text of a query *)

Definition chars (s : string) : list ascii := list_ascii_of_string s.

(** Characters that cannot end or split a query parameter: the ones
    [encodeURIComponent] keeps, and the percent sign. *)
Definition query_safe (c : ascii) : bool :=
  JSString.uri_unreserved (JSString.code c) || Ascii.eqb c "%"%char.

(** [test_config] without an API address and with the switches given as
    [null]. *)
Definition bare_config : Config.t :=
  {| Config.appName := JStr "My App & Co";
     Config.secret1 := Config.secret1 test_config;
     Config.secret2 := Config.secret2 test_config;
     Config.secret3 := Config.secret3 test_config;
     Config.apiUrl := JUndefined;
     Config.autoHWID := JNull;
     Config.customHWID := JStr "";
     Config.strictSSL := JNull |}.

Definition with_appName (v : jsval) (config : Config.t) : Config.t :=
  {| Config.appName := v;
     Config.secret1 := Config.secret1 config;
     Config.secret2 := Config.secret2 config;
     Config.secret3 := Config.secret3 config;
     Config.apiUrl := Config.apiUrl config;
     Config.autoHWID := Config.autoHWID config;
     Config.customHWID := Config.customHWID config;
     Config.strictSSL := Config.strictSSL config |}.

(** The instance [new NexveilAuth(bare_config)] builds. *)
Definition bare_instance : NexveilAuth :=
  {| appName := JStr "My App & Co";
     secret1 := secret1 test_instance;
     secret2 := secret2 test_instance;
     secret3 := secret3 test_instance;
     apiUrl := JStr "https://api.nexveil.net";
     autoHWID := true;
     customHWID := JNull;
     strictSSL := true;
     _hwid := JNull;
     _lastVerification := None |}.

(** The digits of [digest('hex')]. *)
Definition lower_hex (c : ascii) : bool :=
  let n := JSString.code c in
  ((48 <=? n) && (n <=? 57)) || ((97 <=? n) && (n <=? 102)).

(** The first line of a text. *)
Definition first_line (s : string) : string :=
  hd "" (JSString.split newline s).

(** * The callers in [examples.js] *)

(** The examples call the library and print to the console.  A printed
    line is recorded by the statement that prints it, with the values it
    prints beside its fixed text; the fixed texts are not compared by any
    code. *)
Module Script.

Inductive Line : Type :=
(* verifyLicense *)
| Verifying_license
| Hardware_ID (hwid : jsval)
| License_is_VALID
| Response_code (code : jsval)
| First_activation
| License_verification_failed
| Error_code (code message : jsval)
| Error_during_verification (message : string)
(* robustVerification *)
| License_active
| License_has_expired
| Please_renew
| License_has_been_revoked
| Reason (message : jsval)
| Bound_to_another_device
| Contact_support_to_reset
| Account_banned
| Please_contact_support
| License_verification_failed_with (code : jsval)
| Message (message : jsval)
| Verification_error (message : string)
| Unable_to_reach_server
| Check_your_connection.

Inductive Output : Type :=
| Library (e : Event)
| Log (line : Line)
| Error (line : Line).

(** A function of the examples: its completion, the instance it works
    on afterwards, and what it did. *)
Definition t (A : Type) : Type :=
  Env -> NexveilAuth -> outcome A * NexveilAuth * list Output.

Definition ret {A : Type} (a : A) : t A := fun _ auth => (Return a, auth, []).

Definition bind {A B : Type} (m : t A) (k : A -> t B) : t B :=
  fun env auth =>
    match m env auth with
    | (Return a, auth1, out1) =>
        match k a env auth1 with
        | (r, auth2, out2) => (r, auth2, (out1 ++ out2)%list)
        end
    | (Throw e, auth1, out1) => (Throw e, auth1, out1)
    end.

(** [try { m } catch (error) { handler(error.message) }] *)
Definition try_catch {A : Type} (m : t A) (handler : string -> t A) : t A :=
  fun env auth =>
    match m env auth with
    | (Return a, auth1, out1) => (Return a, auth1, out1)
    | (Throw e, auth1, out1) =>
        match handler e env auth1 with
        | (r, auth2, out2) => (r, auth2, (out1 ++ out2)%list)
        end
    end.

(** A call of a method of the instance. *)
Definition call {A : Type} (m : M A) : t A :=
  fun env auth =>
    match m env auth with
    | (r, auth1, ev) => (r, auth1, map Library ev)
    end.

Definition console_log (line : Line) : t unit := fun _ auth => (Return tt, auth, [Log line]).

Definition console_error (line : Line) : t unit :=
  fun _ auth => (Return tt, auth, [Error line]).

Definition answer {A : Type} (x : outcome A * NexveilAuth * list Output) : outcome A :=
  fst (fst x).

Definition instance {A : Type} (x : outcome A * NexveilAuth * list Output) : NexveilAuth :=
  snd (fst x).

Definition output {A : Type} (x : outcome A * NexveilAuth * list Output) : list Output :=
  snd x.

(** What a function did through the library. *)
Definition library (out : list Output) : list Event :=
  flat_map (fun o => match o with Library e => [e] | _ => [] end) out.

End Script.

Declare Scope script_scope.
Delimit Scope script_scope with script.
Notation "x <- m ;; k" := (Script.bind m (fun x => k))
  (at level 61, m at next level, right associativity) : script_scope.
Notation "m ;; k" := (Script.bind m (fun _ => k))
  (at level 61, right associativity) : script_scope.

(** [async function verifyLicense(licenseKey)] of example 1, on the
    instance [auth] of the example. *)
Definition verifyLicense (licenseKey : jsval) : Script.t bool :=
  Script.try_catch
    (Script.console_log Script.Verifying_license ;;
     hwid <- Script.call getHWID ;;
     Script.console_log (Script.Hardware_ID hwid) ;;
     result <- Script.call (verify licenseKey) ;;
     if Result.success result
     then
       Script.console_log Script.License_is_VALID ;;
       Script.console_log (Script.Response_code (Result.code result)) ;;
       (if Result.isActivated result
        then Script.console_log Script.First_activation
        else Script.ret tt) ;;
       Script.ret true
     else
       Script.console_log Script.License_verification_failed ;;
       Script.console_log (Script.Error_code (Result.code result) (Result.message result)) ;;
       Script.ret false)%script
    (fun message =>
       (Script.console_error (Script.Error_during_verification message) ;;
        Script.ret false)%script).

(** [s.repeat(n)] *)
Fixpoint String_repeat (s : string) (n : nat) : string :=
  match n with
  | O => ""
  | S n' => s ++ String_repeat s n'
  end.

(** The configuration of example 5. *)
Definition robust_config : Config.t :=
  {| Config.appName := JStr "MyApp";
     Config.secret1 := JStr (String_repeat "0" 64);
     Config.secret2 := JStr (String_repeat "0" 64);
     Config.secret3 := JStr (String_repeat "0" 64);
     Config.apiUrl := JUndefined;
     Config.autoHWID := JUndefined;
     Config.customHWID := JUndefined;
     Config.strictSSL := JUndefined |}.

(** The [try] statement of [robustVerification], on the instance the
    function has built. *)
Definition robustVerification_try (licenseKey : jsval) : Script.t bool :=
  Script.try_catch
    (result <- Script.call (verify licenseKey) ;;
     if JS.strict_eq (Result.code result) (JStr "KEY_VALID")
        || JS.strict_eq (Result.code result) (JStr "KEY_ACTIVATED")
     then
       Script.console_log Script.License_active ;;
       Script.ret true
     else if JS.strict_eq (Result.code result) (JStr "KEY_EXPIRED")
     then
       Script.console_error Script.License_has_expired ;;
       Script.console_log Script.Please_renew ;;
       Script.ret false
     else if JS.strict_eq (Result.code result) (JStr "KEY_REVOKED")
     then
       Script.console_error Script.License_has_been_revoked ;;
       Script.console_log (Script.Reason (Result.message result)) ;;
       Script.ret false
     else if JS.strict_eq (Result.code result) (JStr "HWID_MISMATCH")
     then
       Script.console_error Script.Bound_to_another_device ;;
       Script.console_log Script.Contact_support_to_reset ;;
       Script.ret false
     else if JS.strict_eq (Result.code result) (JStr "USER_BANNED")
     then
       Script.console_error Script.Account_banned ;;
       Script.console_log Script.Please_contact_support ;;
       Script.ret false
     else
       Script.console_error (Script.License_verification_failed_with (Result.code result)) ;;
       Script.console_log (Script.Message (Result.message result)) ;;
       Script.ret false)%script
    (fun message =>
       (Script.console_error (Script.Verification_error message) ;;
        (if JSString.includes message "fetch"
         then
           Script.console_log Script.Unable_to_reach_server ;;
           Script.console_log Script.Check_your_connection
         else Script.ret tt) ;;
        Script.ret false)%script).

(** [async function robustVerification(licenseKey)] of example 5: the
    instance is built outside the [try] statement and is the function's
    own. *)
Definition robustVerification (licenseKey : jsval) (env : Env)
    : outcome bool * list Script.Output :=
  match constructor (Some robust_config) with
  | Throw e => (Throw e, [])
  | Return auth =>
      match robustVerification_try licenseKey env auth with
      | (r, _, out) => (r, out)
      end
  end.

(** The instance [robustVerification] builds. *)
Definition robust_instance : NexveilAuth :=
  {| appName := JStr "MyApp";
     secret1 := JStr (String_repeat "0" 64);
     secret2 := JStr (String_repeat "0" 64);
     secret3 := JStr (String_repeat "0" 64);
     apiUrl := JStr "https://api.nexveil.net";
     autoHWID := true;
     customHWID := JNull;
     strictSSL := true;
     _hwid := JNull;
     _lastVerification := None |}.

(** * Properties *)

Arguments sha256 : simpl never.
Arguments JSString.join : simpl never.
Arguments Array_sort : simpl never.
Arguments JSString.trim : simpl never.
Arguments JSString.split : simpl never.
Arguments generateHWID : simpl never.
Arguments getHWID : simpl never.
Arguments verify : simpl never.
Arguments JSString.includes : simpl nomatch.
Arguments JSString.hex : simpl never.
Arguments JSString.Number_toString : simpl never.
Arguments JSString.encodeURIComponent : simpl never.

(** ** The hash agrees with the FIPS 180-4 test vectors *)

Example sha256_abc :
  sha256 "abc" = "ba7816bf8f01cfea414140de5dae2223b00361a396177a9cb410ff61f20015ad".
Proof. vm_compute. reflexivity. Qed.

Example sha256_two_blocks :
  sha256 "abcdbcdecdefdefgefghfghighijhijkijkljklmklmnlmnomnopnopq"
  = "248d6a61d20638b8e5c026930c3e6039a33ce45964ff2167f6ecedd419db06c1".
Proof. vm_compute. reflexivity. Qed.

Example sha256_empty :
  sha256 "" = "e3b0c44298fc1c149afbf4c8996fb92427ae41e4649b934ca495991b7852b855".
Proof. vm_compute. reflexivity. Qed.


(** ** Running a method by reduction *)

Ltac run_method :=
  cbv beta iota zeta delta
    [bind try_catch ret throw emit ask lift read_this update
     os_cpus os_hostname os_platform os_arch os_networkInterfaces execSync
     console_warn crypto_randomBytes_hex Date_now_toString new_Date_toISOString
     do_fetch].

(** ** What a method leaves untouched, and what it emits *)

Section Frame.

Context {B : Type} (f : NexveilAuth -> B).

Lemma preserves_ret {A} (a : A) : preserves f (ret a).
Proof. intros env this. reflexivity. Qed.

Lemma preserves_throw {A} e : preserves f (@throw A e).
Proof. intros env this. reflexivity. Qed.

Lemma preserves_emit e : preserves f (emit e).
Proof. intros env this. reflexivity. Qed.

Lemma preserves_ask : preserves f ask.
Proof. intros env this. reflexivity. Qed.

Lemma preserves_read_this : preserves f read_this.
Proof. intros env this. reflexivity. Qed.

Lemma preserves_lift {A} (o : outcome A) : preserves f (lift o).
Proof. intros env this. reflexivity. Qed.

Lemma preserves_update g :
  (forall this, f (g this) = f this) -> preserves f (update g).
Proof. intros H env this. apply H. Qed.

Lemma preserves_bind {A C} (m : M A) (k : A -> M C) :
  preserves f m -> (forall a, preserves f (k a)) -> preserves f (bind m k).
Proof.
  intros Hm Hk env this. unfold bind. specialize (Hm env this).
  destruct (m env this) as [[[a|e] this1] ev1]; unfold state_after in *; simpl in *.
  - specialize (Hk a env this1).
    destruct (k a env this1) as [[r this2] ev2]; unfold state_after in *; simpl in *.
    congruence.
  - exact Hm.
Qed.

Lemma preserves_try_catch {A} (m : M A) (h : string -> M A) :
  preserves f m -> (forall e, preserves f (h e)) -> preserves f (try_catch m h).
Proof.
  intros Hm Hh env this. unfold try_catch. specialize (Hm env this).
  destruct (m env this) as [[[a|e] this1] ev1]; unfold state_after in *; simpl in *.
  - exact Hm.
  - specialize (Hh e env this1).
    destruct (h e env this1) as [[r this2] ev2]; unfold state_after in *; simpl in *.
    congruence.
Qed.

End Frame.

Section Emits.

Context (P : Event -> Prop).

Lemma emits_ret {A} (a : A) : emits P (ret a).
Proof. intros env this. constructor. Qed.

Lemma emits_throw {A} e : emits P (@throw A e).
Proof. intros env this. constructor. Qed.

Lemma emits_emit e : P e -> emits P (emit e).
Proof. intros H env this. repeat constructor. exact H. Qed.

Lemma emits_ask : emits P ask.
Proof. intros env this. constructor. Qed.

Lemma emits_read_this : emits P read_this.
Proof. intros env this. constructor. Qed.

Lemma emits_lift {A} (o : outcome A) : emits P (lift o).
Proof. intros env this. constructor. Qed.

Lemma emits_update g : emits P (update g).
Proof. intros env this. constructor. Qed.

Lemma emits_bind {A C} (m : M A) (k : A -> M C) :
  emits P m -> (forall a, emits P (k a)) -> emits P (bind m k).
Proof.
  intros Hm Hk env this. unfold bind. specialize (Hm env this).
  destruct (m env this) as [[[a|e] this1] ev1]; unfold events_of in *; simpl in *.
  - specialize (Hk a env this1).
    destruct (k a env this1) as [[r this2] ev2]; unfold events_of in *; simpl in *.
    apply Forall_app. split; assumption.
  - exact Hm.
Qed.

Lemma emits_try_catch {A} (m : M A) (h : string -> M A) :
  emits P m -> (forall e, emits P (h e)) -> emits P (try_catch m h).
Proof.
  intros Hm Hh env this. unfold try_catch. specialize (Hm env this).
  destruct (m env this) as [[[a|e] this1] ev1]; unfold events_of in *; simpl in *.
  - exact Hm.
  - specialize (Hh e env this1).
    destruct (h e env this1) as [[r this2] ev2]; unfold events_of in *; simpl in *.
    apply Forall_app. split; assumption.
Qed.

End Emits.

Ltac unfold_node :=
  unfold os_cpus, os_hostname, os_platform, os_arch, os_networkInterfaces, execSync,
    console_warn, crypto_randomBytes_hex, Date_now_toString, new_Date_toISOString, do_fetch.

Ltac frame_step :=
  first
    [ progress intros
    | progress cbv zeta
    | apply preserves_bind | apply preserves_try_catch | apply preserves_ret
    | apply preserves_throw | apply preserves_emit | apply preserves_ask
    | apply preserves_read_this | apply preserves_lift
    | apply preserves_update; solve [auto]
    | apply emits_bind | apply emits_try_catch | apply emits_ret
    | apply emits_throw | apply emits_ask | apply emits_read_this
    | apply emits_lift | apply emits_update
    | apply emits_emit; exact I
    | match goal with
      | |- preserves _ (if ?b then _ else _) => destruct b
      | |- preserves _ (match ?x with _ => _ end) => destruct x
      | |- emits _ (if ?b then _ else _) => destruct b
      | |- emits _ (match ?x with _ => _ end) => destruct x
      end ].

Ltac frame := unfold_node; repeat frame_step.

Lemma generateHWID_preserves {B} (f : NexveilAuth -> B) :
  (forall v this, f (set_hwid v this) = f this) -> preserves f generateHWID.
Proof. intros H. unfold generateHWID. frame. Qed.

Lemma getHWID_preserves {B} (f : NexveilAuth -> B) :
  (forall v this, f (set_hwid v this) = f this) -> preserves f getHWID.
Proof.
  intros H. unfold getHWID. frame.
Qed.

Lemma generateHWID_no_fetch : emits not_fetch generateHWID.
Proof. unfold generateHWID. frame. Qed.

Lemma getHWID_no_fetch : emits not_fetch getHWID.
Proof. unfold getHWID. frame. Qed.

(** ** [generateHWID] on an instance with nothing set or memoized *)

Lemma generateHWID_fresh env this host interfaces :
  JS.truthy (customHWID this) = false ->
  JS.truthy (_hwid this) = false ->
  hostname (os env) = Return host ->
  networkInterfaces (os env) = Return interfaces ->
  generateHWID env this =
    (Return (JStr (sha256 (JSString.join "||" (components (os env) host interfaces)))),
     set_hwid (JStr (sha256 (JSString.join "||" (components (os env) host interfaces)))) this,
     derivation_events (os env)).
Proof.
  intros Hc Hm Hh Hn.
  unfold generateHWID, components, specific_id, derivation_events, specific_events.
  run_method. rewrite Hc, Hm. run_method. rewrite Hh. run_method. rewrite Hn. run_method.
  destruct (String.eqb (platform (os env)) "win32"); run_method;
    [ destruct (exec (os env) wmic_command) as [out|e]; run_method;
      [ destruct (nth_error (JSString.split newline out) 1); run_method | ]
    | destruct (String.eqb (platform (os env)) "linux"); run_method;
      [ destruct (exec (os env) machine_id_command); run_method
      | destruct (String.eqb (platform (os env)) "darwin"); run_method;
        [ destruct (exec (os env) ioreg_command); run_method | ] ] ];
    cbn [app]; rewrite <- ?app_assoc; cbn [app]; rewrite ?app_nil_r;
    reflexivity.
Qed.

(** ** [verify], step by step *)

Lemma startsWith_app p s : JSString.startsWith (p ++ s) p = true.
Proof.
  induction p as [|c p IH]; simpl.
  - destruct s; reflexivity.
  - rewrite Ascii.eqb_refl. exact IH.
Qed.

Lemma includes_app p s : JSString.includes (p ++ s) p = true.
Proof.
  destruct p as [|c p].
  - destruct s; reflexivity.
  - change (JSString.includes (String c p ++ s) (String c p))
      with (JSString.startsWith (String c p ++ s) (String c p)
            || JSString.includes (p ++ s) (String c p)).
    rewrite startsWith_app. reflexivity.
Qed.

Lemma server_error_tagged text :
  JSString.includes ("nexveil: Server error (" ++ text) "nexveil:" = true.
Proof. exact (includes_app "nexveil:" (" Server error (" ++ text)). Qed.

Lemma signature_error_tagged : JSString.includes signature_error "nexveil:" = true.
Proof. reflexivity. Qed.

Lemma null_body_untagged :
  JSString.includes "Cannot read properties of null (reading 'signature')" "nexveil:" = false.
Proof. reflexivity. Qed.

Lemma verify_unfold key env this :
  verify key env this =
    if negb (JS.truthy key) || negb (JS.is_string key)
    then (Throw "Nexveil: License key must be a non-empty string", this, [])
    else
      match getHWID env this with
      | (Throw e, this1, ev1) => (Throw (wrap_error e), this1, ev1)
      | (Return hwid, this1, ev1) =>
          let request := request_of env this1 key hwid in
          match fetch env request with
          | Throw e => (Throw (wrap_error e), this1, (ev1 ++ [Fetch request])%list)
          | Return response =>
              after_response env this1 (ev1 ++ [Fetch request])%list response
          end
      end.
Proof.
  unfold verify, after_response, wrap_error.
  destruct (negb (JS.truthy key) || negb (JS.is_string key)); [reflexivity|].
  run_method.
  destruct (getHWID env this) as [[[hwid|e] this1] ev1]; run_method.
  2:{ destruct (JSString.includes e "nexveil:"); rewrite app_nil_r; reflexivity. }
  change (JSString.hex (randomBytes env 32)) with (nonce_of env).
  unfold request_of, clientSignature_of, url_of, expected_signature, classify.
  match goal with |- context [fetch env ?r] => destruct (fetch env r) as [response|e] end;
    run_method.
  2:{ destruct (JSString.includes e "nexveil:"); cbn [app]; rewrite ?app_nil_r; reflexivity. }
  destruct (negb (ok response) && (status response >=? 500)); run_method.
  { rewrite server_error_tagged. run_method. cbn [app]. rewrite ?app_nil_r. reflexivity. }
  destruct (json response) as [[data|]|e]; run_method.
  - destruct (JS.truthy (Response.signature data)); run_method; cbn [andb negb].
    + match goal with |- context [JS.strict_eq (Response.signature data) ?x] =>
        destruct (JS.strict_eq (Response.signature data) x) end; run_method; cbn [negb].
      * match goal with |- context [if ?b then _ else _] => destruct b end;
          run_method; cbn [app]; rewrite ?app_nil_r; reflexivity.
      * rewrite signature_error_tagged. run_method.
        cbn [app]; rewrite ?app_nil_r; reflexivity.
    + match goal with |- context [if ?b then _ else _] => destruct b end;
        run_method; cbn [app]; rewrite ?app_nil_r; reflexivity.
  - rewrite !null_body_untagged. run_method. cbn [app]; rewrite ?app_nil_r; reflexivity.
  - destruct (JSString.includes e "nexveil:"); cbn [app]; rewrite ?app_nil_r; reflexivity.
Qed.

(** ** Construction and [validateConfig] *)

Lemma validateConfig_cases config :
  validateConfig (Some config) =
    if negb (JS.truthy (Config.appName config))
    then Throw "nexveil: Missing required field: appName"
    else if negb (JS.truthy (Config.secret1 config))
    then Throw "nexveil: Missing required field: secret1"
    else if negb (JS.truthy (Config.secret2 config))
    then Throw "nexveil: Missing required field: secret2"
    else if negb (JS.truthy (Config.secret3 config))
    then Throw "nexveil: Missing required field: secret3"
    else if negb (secretRegex_test (Config.secret1 config))
    then Throw "nexveil: secret1 must be exactly 64 characters"
    else if negb (secretRegex_test (Config.secret2 config))
    then Throw "nexveil: secret2 must be exactly 64 characters"
    else if negb (secretRegex_test (Config.secret3 config))
    then Throw "nexveil: secret3 must be exactly 64 characters"
    else match Config.appName config with
         | JStr name =>
             if (String.length name =? 0)%nat
             then Throw "nexveil: appName must be a non-empty string"
             else Return tt
         | _ => Throw "nexveil: appName must be a non-empty string"
         end.
Proof.
  unfold validateConfig, required.
  change (Config.get config "appName") with (Config.appName config).
  cbn [for_of and_then].
  change (Config.get config "appName") with (Config.appName config).
  change (Config.get config "secret1") with (Config.secret1 config).
  change (Config.get config "secret2") with (Config.secret2 config).
  change (Config.get config "secret3") with (Config.secret3 config).
  change (Config.get config ("secret" ++ JSString.Number_toString 1)) with (Config.secret1 config).
  change (Config.get config ("secret" ++ JSString.Number_toString 2)) with (Config.secret2 config).
  change (Config.get config ("secret" ++ JSString.Number_toString 3)) with (Config.secret3 config).
  destruct (JS.truthy (Config.appName config)); [|reflexivity].
  destruct (JS.truthy (Config.secret1 config)); [|reflexivity].
  destruct (JS.truthy (Config.secret2 config)); [|reflexivity].
  destruct (JS.truthy (Config.secret3 config)); [|reflexivity].
  destruct (secretRegex_test (Config.secret1 config)); [|reflexivity].
  destruct (secretRegex_test (Config.secret2 config)); [|reflexivity].
  destruct (secretRegex_test (Config.secret3 config)); reflexivity.
Qed.

Lemma constructor_cases config :
  constructor (Some config) =
    match validateConfig (Some config) with
    | Throw message => Throw message
    | Return _ =>
        Return
          {| appName := Config.appName config;
             secret1 := Config.secret1 config;
             secret2 := Config.secret2 config;
             secret3 := Config.secret3 config;
             apiUrl := JS.or (Config.apiUrl config) (JStr "https://api.nexveil.net");
             autoHWID := negb (JS.strict_eq (Config.autoHWID config) (JBool false));
             customHWID := JS.or (Config.customHWID config) JNull;
             strictSSL := negb (JS.strict_eq (Config.strictSSL config) (JBool false));
             _hwid := JNull;
             _lastVerification := None |}
    end.
Proof.
  unfold constructor. destruct (validateConfig (Some config)); reflexivity.
Qed.

Lemma regex_rejects v :
  secretRegex_test v = false -> String.length (JS.ToString v) <> 64%nat.
Proof. unfold secretRegex_test. intros H. apply Nat.eqb_neq. exact H. Qed.

Lemma regex_accepts s : String.length s = 64%nat -> secretRegex_test (JStr s) = true.
Proof. unfold secretRegex_test. simpl. intros ->. reflexivity. Qed.

Lemma nonempty_truthy s : s <> "" -> JS.truthy (JStr s) = true.
Proof. destruct s; [congruence | reflexivity]. Qed.

Lemma length64_truthy s : String.length s = 64%nat -> JS.truthy (JStr s) = true.
Proof. destruct s; [discriminate | reflexivity]. Qed.

(** Whenever some required field is falsy or some secret fails the length
    test, validation throws an error naming such a field. *)
Lemma validateConfig_names_offender config :
  (exists field, In field required /\ JS.truthy (Config.get config field) = false)
  \/ (exists i, In i [1; 2; 3]
        /\ String.length (JS.ToString (Config.get config (secret_field i))) <> 64%nat) ->
  exists message,
    validateConfig (Some config) = Throw message /\ names_offender config message.
Proof.
  intros H. rewrite validateConfig_cases.
  destruct (JS.truthy (Config.appName config)) eqn:Ea; cbn [negb].
  2:{ eexists; split; [reflexivity|].
      apply (names_missing config "appName"); [simpl; tauto | exact Ea]. }
  destruct (JS.truthy (Config.secret1 config)) eqn:E1; cbn [negb].
  2:{ eexists; split; [reflexivity|].
      apply (names_missing config "secret1"); [simpl; tauto | exact E1]. }
  destruct (JS.truthy (Config.secret2 config)) eqn:E2; cbn [negb].
  2:{ eexists; split; [reflexivity|].
      apply (names_missing config "secret2"); [simpl; tauto | exact E2]. }
  destruct (JS.truthy (Config.secret3 config)) eqn:E3; cbn [negb].
  2:{ eexists; split; [reflexivity|].
      apply (names_missing config "secret3"); [simpl; tauto | exact E3]. }
  destruct (secretRegex_test (Config.secret1 config)) eqn:R1; cbn [negb].
  2:{ eexists; split; [reflexivity|].
      apply (names_bad_secret config 1); [simpl; tauto | exact (regex_rejects _ R1)]. }
  destruct (secretRegex_test (Config.secret2 config)) eqn:R2; cbn [negb].
  2:{ eexists; split; [reflexivity|].
      apply (names_bad_secret config 2); [simpl; tauto | exact (regex_rejects _ R2)]. }
  destruct (secretRegex_test (Config.secret3 config)) eqn:R3; cbn [negb].
  2:{ eexists; split; [reflexivity|].
      apply (names_bad_secret config 3); [simpl; tauto | exact (regex_rejects _ R3)]. }
  exfalso. destruct H as [[field [Hin Hf]] | [i [Hin Hl]]].
  - simpl in Hin.
    destruct Hin as [<-|[<-|[<-|[<-|[]]]]];
      change (Config.get config _) with (Config.appName config) in Hf
      || change (Config.get config _) with (Config.secret1 config) in Hf
      || change (Config.get config _) with (Config.secret2 config) in Hf
      || change (Config.get config _) with (Config.secret3 config) in Hf;
      congruence.
  - simpl in Hin.
    destruct Hin as [<-|[<-|[<-|[]]]]; apply Hl; apply Nat.eqb_eq.
    + exact R1.
    + exact R2.
    + exact R3.
Qed.

(** C5. Construction fails with the configuration-object error when no
    configuration is given; when a required field ([appName], [secret1],
    [secret2], [secret3]) is missing or empty, or when a secret is a text of
    a length other than 64, it fails with an error that names a field at
    fault; it succeeds for every non-empty [appName] and every three secrets
    of 64 characters, whatever the characters; a secret of length 63 or 65
    is rejected. *)
Theorem construction_validates_config :
  constructor None = Throw "nexveil: Configuration object is required"
  /\ (forall config field,
        In field required ->
        Config.get config field = JUndefined \/ Config.get config field = JStr "" ->
        exists message,
          constructor (Some config) = Throw message /\ names_offender config message)
  /\ (forall config i s,
        In i [1; 2; 3] ->
        Config.get config (secret_field i) = JStr s ->
        String.length s <> 64%nat ->
        exists message,
          constructor (Some config) = Throw message /\ names_offender config message)
  /\ (forall config name s1 s2 s3,
        Config.appName config = JStr name -> name <> "" ->
        Config.secret1 config = JStr s1 -> String.length s1 = 64%nat ->
        Config.secret2 config = JStr s2 -> String.length s2 = 64%nat ->
        Config.secret3 config = JStr s3 -> String.length s3 = 64%nat ->
        exists this,
          constructor (Some config) = Return this
          /\ appName this = JStr name /\ secret1 this = JStr s1
          /\ secret2 this = JStr s2 /\ secret3 this = JStr s3)
  /\ (forall config i s,
        In i [1; 2; 3] ->
        Config.get config (secret_field i) = JStr s ->
        String.length s = 63%nat \/ String.length s = 65%nat ->
        exists message, constructor (Some config) = Throw message).
Proof.
  assert (Hreject : forall config,
    (exists field, In field required /\ JS.truthy (Config.get config field) = false)
    \/ (exists i, In i [1; 2; 3]
          /\ String.length (JS.ToString (Config.get config (secret_field i))) <> 64%nat) ->
    exists message,
      constructor (Some config) = Throw message /\ names_offender config message).
  { intros config H. destruct (validateConfig_names_offender config H) as [message [Hv Hn]].
    exists message. split; [|exact Hn]. rewrite constructor_cases, Hv. reflexivity. }
  split; [reflexivity|]. split; [|split; [|split]].
  - intros config field Hin Hf. apply Hreject. left. exists field. split; [exact Hin|].
    destruct Hf as [-> | ->]; reflexivity.
  - intros config i s Hin Hs Hl. apply Hreject. right. exists i. split; [exact Hin|].
    rewrite Hs. exact Hl.
  - intros config name s1 s2 s3 Ha Hne H1 L1 H2 L2 H3 L3.
    rewrite constructor_cases, validateConfig_cases, Ha, H1, H2, H3.
    rewrite (nonempty_truthy name Hne), !length64_truthy, !regex_accepts by assumption.
    cbn [negb]. destruct name as [|c name]; [congruence|]. cbn [String.length Nat.eqb].
    eexists. split; [reflexivity|]. cbn. repeat split.
  - intros config i s Hin Hs Hl.
    destruct (Hreject config) as [message [Hc _]].
    + right. exists i. split; [exact Hin|]. rewrite Hs. cbn [JS.ToString]. lia.
    + exists message. exact Hc.
Qed.

Lemma construction_validates_config_witness :
  (exists message,
     constructor (Some (with_secret2 JUndefined test_config)) = Throw message
     /\ names_offender (with_secret2 JUndefined test_config) message)
  /\ (exists message,
       constructor (Some (with_secret2 (JStr symbols63) test_config)) = Throw message
       /\ names_offender (with_secret2 (JStr symbols63) test_config) message)
  /\ (exists this,
       constructor (Some (with_secret2 (JStr symbols64) test_config)) = Return this
       /\ appName this = JStr "solara"
       /\ secret1 this = Config.secret1 test_config
       /\ secret2 this = JStr symbols64
       /\ secret3 this = Config.secret3 test_config)
  /\ (exists message,
       constructor (Some (with_secret2 (JStr symbols65) test_config)) = Throw message).
Proof.
  destruct construction_validates_config as (_ & Hmissing & Hlength & Haccept & Hnear).
  split; [|split; [|split]].
  - apply (Hmissing (with_secret2 JUndefined test_config) "secret2").
    + simpl. tauto.
    + left. reflexivity.
  - apply (Hlength (with_secret2 (JStr symbols63) test_config) 2 symbols63).
    + simpl. tauto.
    + reflexivity.
    + vm_compute. discriminate.
  - apply (Haccept (with_secret2 (JStr symbols64) test_config) "solara"
             "4444454636363636363737373734734745645642461346434366345364536453"
             symbols64
             "745836473526478u2746574527542452w365yaw36rqwa3tr5wa6yr36ayha456t");
      try reflexivity.
    discriminate.
  - apply (Hnear (with_secret2 (JStr symbols65) test_config) 2 symbols65).
    + simpl. tauto.
    + reflexivity.
    + right. reflexivity.
Defined.

(** ** The hardware fingerprint: [generateHWID], [getHWID], [setHWID] *)

Lemma generateHWID_custom env this :
  JS.truthy (customHWID this) = true ->
  generateHWID env this = (Return (customHWID this), this, []).
Proof. intros H. unfold generateHWID. run_method. rewrite H. reflexivity. Qed.

Lemma generateHWID_memoized env this :
  JS.truthy (customHWID this) = false ->
  JS.truthy (_hwid this) = true ->
  generateHWID env this = (Return (_hwid this), this, []).
Proof. intros Hc Hm. unfold generateHWID. run_method. rewrite Hc, Hm. reflexivity. Qed.

Lemma getHWID_custom env this :
  JS.truthy (customHWID this) = true ->
  getHWID env this = (Return (customHWID this), this, []).
Proof.
  intros H. unfold getHWID. run_method. destruct (autoHWID this).
  - rewrite (generateHWID_custom env this H). reflexivity.
  - rewrite H. reflexivity.
Qed.

Lemma getHWID_auto env this :
  autoHWID this = true -> getHWID env this = generateHWID env this.
Proof.
  intros H. unfold getHWID. run_method. rewrite H.
  destruct (generateHWID env this) as [[[v|e] this1] ev1]; cbn [app]; reflexivity.
Qed.

Lemma setHWID_string env this x :
  x <> "" ->
  setHWID (JStr x) env this = (Return tt, set_hwid (JStr x) (set_customHWID (JStr x) this), []).
Proof.
  intros H. unfold setHWID. rewrite (nonempty_truthy x H). reflexivity.
Qed.

Lemma setHWID_rejects env this hwid :
  JS.truthy hwid = false \/ JS.is_string hwid = false ->
  setHWID hwid env this = (Throw "Nexveil: HWID must be a non-empty string", this, []).
Proof.
  intros H. unfold setHWID.
  destruct H as [-> | ->]; rewrite ?orb_true_r; reflexivity.
Qed.

Lemma verify_preserves {B} (f : NexveilAuth -> B) key :
  (forall v this, f (set_hwid v this) = f this) ->
  (forall v this, f (set_lastVerification v this) = f this) ->
  preserves f (verify key).
Proof. intros Hh Hl. unfold verify. frame. Qed.

Lemma verifyOrThrow_preserves {B} (f : NexveilAuth -> B) key :
  (forall v this, f (set_hwid v this) = f this) ->
  (forall v this, f (set_lastVerification v this) = f this) ->
  preserves f (verifyOrThrow key).
Proof.
  intros Hh Hl. unfold verifyOrThrow. apply preserves_bind.
  - apply verify_preserves; assumption.
  - intros r. frame.
Qed.

(** Every call but [setHWID] leaves alone what neither the memoized
    fingerprint nor the cache touches. *)
Lemma perform_keeps {B} (f : NexveilAuth -> B) c env this :
  (forall v this, f (set_hwid v this) = f this) ->
  (forall v this, f (set_lastVerification v this) = f this) ->
  is_setHWID c = false ->
  f (perform c env this) = f this.
Proof.
  intros Hh Hl Hc. destruct c; try discriminate; cbn [perform].
  - apply generateHWID_preserves. exact Hh.
  - apply getHWID_preserves. exact Hh.
  - apply verify_preserves; assumption.
  - apply verifyOrThrow_preserves; assumption.
  - reflexivity.
  - unfold isAuthenticated. run_method. destruct (_lastVerification this); reflexivity.
  - apply Hl.
Qed.

Lemma run_keeps {B} (f : NexveilAuth -> B) calls this :
  (forall v this, f (set_hwid v this) = f this) ->
  (forall v this, f (set_lastVerification v this) = f this) ->
  no_setHWID calls ->
  f (run calls this) = f this.
Proof.
  intros Hh Hl Hn. revert this.
  induction Hn as [|[c env] calls Hc _ IH]; intros this; cbn [run].
  - reflexivity.
  - rewrite IH. apply perform_keeps; assumption.
Qed.

Lemma constructor_fields config this :
  constructor (Some config) = Return this ->
  this =
    {| appName := Config.appName config;
       secret1 := Config.secret1 config;
       secret2 := Config.secret2 config;
       secret3 := Config.secret3 config;
       apiUrl := JS.or (Config.apiUrl config) (JStr "https://api.nexveil.net");
       autoHWID := negb (JS.strict_eq (Config.autoHWID config) (JBool false));
       customHWID := JS.or (Config.customHWID config) JNull;
       strictSSL := negb (JS.strict_eq (Config.strictSSL config) (JBool false));
       _hwid := JNull;
       _lastVerification := None |}.
Proof.
  rewrite constructor_cases. destruct (validateConfig (Some config)); congruence.
Qed.

Lemma constructor_customHWID config this :
  constructor (Some config) = Return this ->
  JS.truthy (Config.customHWID config) = true ->
  customHWID this = Config.customHWID config.
Proof.
  intros Hc Ht. rewrite (constructor_fields config this Hc). cbn [customHWID].
  unfold JS.or. rewrite Ht. reflexivity.
Qed.



(** C9. On an instance with a custom fingerprint, whether it was given
    to the constructor or by an earlier [setHWID], every call to
    [generateHWID] returns that value itself, leaves the instance as it was
    and touches nothing outside: no system probe, no hash. *)
Theorem generateHWID_returns_custom :
  (forall env this,
     JS.truthy (customHWID this) = true ->
     generateHWID env this = (Return (customHWID this), this, []))
  /\ (forall config this0 calls env,
        constructor (Some config) = Return this0 ->
        JS.truthy (Config.customHWID config) = true ->
        no_setHWID calls ->
        generateHWID env (run calls this0)
        = (Return (Config.customHWID config), run calls this0, []))
  /\ (forall x env0 this0 calls env,
        x <> "" ->
        no_setHWID calls ->
        generateHWID env (run calls (state_after (setHWID (JStr x) env0 this0)))
        = (Return (JStr x), run calls (state_after (setHWID (JStr x) env0 this0)), [])).
Proof.
  split; [exact generateHWID_custom|]. split.
  - intros config this0 calls env Hc Ht Hn.
    assert (Hk : customHWID (run calls this0) = Config.customHWID config).
    { rewrite (run_keeps customHWID) by (auto || assumption).
      apply constructor_customHWID; assumption. }
    rewrite generateHWID_custom by (rewrite Hk; exact Ht).
    rewrite Hk. reflexivity.
  - intros x env0 this0 calls env Hx Hn.
    rewrite (setHWID_string env0 this0 x Hx). cbn [state_after fst snd].
    assert (Hk : customHWID (run calls (set_hwid (JStr x) (set_customHWID (JStr x) this0)))
                 = JStr x).
    { rewrite (run_keeps customHWID) by (auto || assumption). reflexivity. }
    rewrite generateHWID_custom by (rewrite Hk; apply nonempty_truthy; exact Hx).
    rewrite Hk. reflexivity.
Qed.

Lemma test_instance_constructed : constructor (Some test_config) = Return test_instance.
Proof. reflexivity. Qed.

Lemma generateHWID_returns_custom_witness :
  generateHWID (world offline) (set_customHWID (JStr "my-custom-hwid") test_instance)
  = (Return (JStr "my-custom-hwid"), set_customHWID (JStr "my-custom-hwid") test_instance, [])
  /\ generateHWID (world offline)
       (run [(call_getHWID, world offline); (call_verify (JStr "ABC"), world offline)]
            (set_customHWID (JStr "my-custom-hwid") test_instance))
     = (Return (JStr "my-custom-hwid"),
        run [(call_getHWID, world offline); (call_verify (JStr "ABC"), world offline)]
            (set_customHWID (JStr "my-custom-hwid") test_instance), [])
  /\ generateHWID (world offline)
       (run [(call_clearCache, world offline)]
            (state_after (setHWID (JStr "X") (world offline) test_instance)))
     = (Return (JStr "X"),
        run [(call_clearCache, world offline)]
            (state_after (setHWID (JStr "X") (world offline) test_instance)), []).
Proof.
  destruct generateHWID_returns_custom as (Hset & Hconfig & Hlater).
  split; [|split].
  - apply (Hset (world offline) (set_customHWID (JStr "my-custom-hwid") test_instance)).
    reflexivity.
  - apply (Hconfig (with_customHWID (JStr "my-custom-hwid") test_config)
                   (set_customHWID (JStr "my-custom-hwid") test_instance)).
    + reflexivity.
    + reflexivity.
    + repeat constructor.
  - apply (Hlater "X" (world offline) test_instance).
    + discriminate.
    + repeat constructor.
Defined.

(** C6. [getHWID] as a state machine.  A custom fingerprint, when set, is
    what it returns, with automatic generation enabled or not: for one given
    to the constructor, and for [X] after [setHWID(X)] at every later call,
    whatever other methods ran in between.  Without a custom fingerprint and
    with [autoHWID] enabled it is [generateHWID]: the memoized value when
    there is one, else the fingerprint derived now and stored in [_hwid].
    Without either, it throws the HWID-not-set error. *)
Theorem getHWID_state_machine :
  (forall env this,
     JS.truthy (customHWID this) = true ->
     getHWID env this = (Return (customHWID this), this, []))
  /\ (forall config this env,
        constructor (Some config) = Return this ->
        JS.truthy (Config.customHWID config) = true ->
        getHWID env this = (Return (Config.customHWID config), this, []))
  /\ (forall x env0 this0 calls env,
        x <> "" ->
        no_setHWID calls ->
        getHWID env (run calls (state_after (setHWID (JStr x) env0 this0)))
        = (Return (JStr x), run calls (state_after (setHWID (JStr x) env0 this0)), []))
  /\ (forall env this,
        JS.truthy (customHWID this) = false ->
        autoHWID this = true ->
        getHWID env this = generateHWID env this
        /\ (JS.truthy (_hwid this) = true ->
            getHWID env this = (Return (_hwid this), this, []))
        /\ (forall host interfaces,
              JS.truthy (_hwid this) = false ->
              hostname (os env) = Return host ->
              networkInterfaces (os env) = Return interfaces ->
              exists fingerprint ev,
                getHWID env this
                = (Return (JStr fingerprint), set_hwid (JStr fingerprint) this, ev)
                /\ fingerprint
                   = sha256 (JSString.join "||" (components (os env) host interfaces))
                /\ _hwid (state_after (getHWID env this)) = JStr fingerprint))
  /\ (forall env this,
        JS.truthy (customHWID this) = false ->
        autoHWID this = false ->
        getHWID env this
        = (Throw "Nexveil: HWID not set. Enable autoHWID or provide customHWID", this, [])).
Proof.
  split; [exact getHWID_custom|]. split; [|split; [|split]].
  - intros config this env Hc Ht.
    rewrite <- (constructor_customHWID config this Hc Ht).
    apply getHWID_custom. rewrite (constructor_customHWID config this Hc Ht). exact Ht.
  - intros x env0 this0 calls env Hx Hn.
    rewrite (setHWID_string env0 this0 x Hx). cbn [state_after fst snd].
    assert (Hk : customHWID (run calls (set_hwid (JStr x) (set_customHWID (JStr x) this0)))
                 = JStr x).
    { rewrite (run_keeps customHWID) by (auto || assumption). reflexivity. }
    rewrite getHWID_custom by (rewrite Hk; apply nonempty_truthy; exact Hx).
    rewrite Hk. reflexivity.
  - intros env this Hc Ha. rewrite (getHWID_auto env this Ha).
    split; [reflexivity|]. split.
    + intros Hm. apply generateHWID_memoized; assumption.
    + intros host interfaces Hm Hh Hi.
      rewrite (generateHWID_fresh env this host interfaces Hc Hm Hh Hi).
      eexists. eexists. repeat split.
  - intros env this Hc Ha. unfold getHWID. run_method. rewrite Ha, Hc. reflexivity.
Qed.

Lemma getHWID_state_machine_witness :
  getHWID (world offline) (set_customHWID (JStr "my-custom-hwid") test_instance)
  = (Return (JStr "my-custom-hwid"), set_customHWID (JStr "my-custom-hwid") test_instance, [])
  /\ getHWID (world offline)
       (run [(call_generateHWID, world offline); (call_verify (JStr "ABC"), world offline)]
            (state_after (setHWID (JStr "X") (world offline) test_instance)))
     = (Return (JStr "X"),
        run [(call_generateHWID, world offline); (call_verify (JStr "ABC"), world offline)]
            (state_after (setHWID (JStr "X") (world offline) test_instance)), [])
  /\ (exists fingerprint ev,
        getHWID (world offline) test_instance
        = (Return (JStr fingerprint), set_hwid (JStr fingerprint) test_instance, ev)
        /\ fingerprint
           = sha256 (JSString.join "||"
                       (components linux_box "build-host"
                          [ ("lo", [ {| mac := "00:00:00:00:00:00" |};
                                     {| mac := "00:00:00:00:00:00" |} ]);
                            ("eth0", [ {| mac := "52:54:00:12:34:56" |};
                                       {| mac := "52:54:00:12:34:56" |} ]) ]))
        /\ _hwid (state_after (getHWID (world offline) test_instance)) = JStr fingerprint)
  /\ getHWID (world offline)
       {| appName := appName test_instance; secret1 := secret1 test_instance;
          secret2 := secret2 test_instance; secret3 := secret3 test_instance;
          apiUrl := apiUrl test_instance; autoHWID := false; customHWID := JNull;
          strictSSL := true; _hwid := JNull; _lastVerification := None |}
     = (Throw "Nexveil: HWID not set. Enable autoHWID or provide customHWID",
        {| appName := appName test_instance; secret1 := secret1 test_instance;
           secret2 := secret2 test_instance; secret3 := secret3 test_instance;
           apiUrl := apiUrl test_instance; autoHWID := false; customHWID := JNull;
           strictSSL := true; _hwid := JNull; _lastVerification := None |}, []).
Proof.
  destruct getHWID_state_machine as (Hset & _ & Hlater & Hauto & Hnone).
  split; [|split; [|split]].
  - apply (Hset (world offline) (set_customHWID (JStr "my-custom-hwid") test_instance)).
    reflexivity.
  - apply (Hlater "X" (world offline) test_instance).
    + discriminate.
    + repeat constructor.
  - destruct (Hauto (world offline) test_instance) as (_ & _ & Hfresh);
      [reflexivity | reflexivity |].
    apply Hfresh; reflexivity.
  - apply Hnone; reflexivity.
Defined.

(** ** The result cache *)

(** C10. With nothing cached, [isAuthenticated] returns the cache value
    [null] itself, which is not the boolean [false]: so on a new instance
    and after [clearCache].  It reads the flag [success] only of a cached
    result. *)
Theorem isAuthenticated_returns_cache_when_empty :
  (forall env this,
     _lastVerification this = None ->
     isAuthenticated env this = (Return JNull, this, []))
  /\ JNull <> JBool false
  /\ (forall config this env,
        constructor (Some config) = Return this ->
        isAuthenticated env this = (Return JNull, this, []))
  /\ (forall env0 env this,
        isAuthenticated env (state_after (clearCache env0 this))
        = (Return JNull, state_after (clearCache env0 this), []))
  /\ (forall env this last,
        _lastVerification this = Some last ->
        isAuthenticated env this = (Return (JBool (Result.success last)), this, [])).
Proof.
  assert (Hnull : forall env this,
            _lastVerification this = None ->
            isAuthenticated env this = (Return JNull, this, [])).
  { intros env this H. unfold isAuthenticated. run_method. rewrite H. reflexivity. }
  split; [exact Hnull|]. split; [discriminate|]. split; [|split].
  - intros config this env Hc. apply Hnull.
    rewrite (constructor_fields config this Hc). reflexivity.
  - intros env0 env this. apply Hnull. reflexivity.
  - intros env this last H. unfold isAuthenticated. run_method. rewrite H. reflexivity.
Qed.

Lemma isAuthenticated_returns_cache_when_empty_witness :
  isAuthenticated (world offline) test_instance = (Return JNull, test_instance, [])
  /\ isAuthenticated (world offline)
       (set_lastVerification (Some valid_result) test_instance)
     = (Return (JBool true), set_lastVerification (Some valid_result) test_instance, []).
Proof.
  destruct isAuthenticated_returns_cache_when_empty as (Hnull & _ & Hnew & _ & Hcached).
  split.
  - apply (Hnew test_config test_instance (world offline)). reflexivity.
  - exact (Hcached (world offline) (set_lastVerification (Some valid_result) test_instance)
                   valid_result eq_refl).
Defined.

(** ** [verify]: what a call sends and what it makes of the answer *)

Lemma result_eta {A : Type} (x : outcome A * NexveilAuth * list Event) :
  x = (outcome_of x, state_after x, events_of x).
Proof. destruct x as [[o s] e]. reflexivity. Qed.

Lemma strict_eq_true a b : JS.strict_eq a b = true <-> a = b.
Proof.
  destruct a as [| |x|x], b as [| |y|y]; simpl; split; intros H;
    try reflexivity; try discriminate.
  - apply Bool.eqb_prop in H. congruence.
  - inversion H. apply Bool.eqb_reflx.
  - apply String.eqb_eq in H. congruence.
  - inversion H. apply String.eqb_refl.
Qed.

Lemma strict_eq_false a b : JS.strict_eq a b = false <-> a <> b.
Proof.
  split.
  - intros H E. apply strict_eq_true in E. congruence.
  - intros H. destruct (JS.strict_eq a b) eqn:E; [|reflexivity].
    apply strict_eq_true in E. contradiction.
Qed.

Lemma after_response_events env this1 ev response :
  events_of (after_response env this1 ev response) = ev.
Proof.
  unfold after_response.
  destruct (negb (ok response) && (status response >=? 500)); [reflexivity|].
  destruct (json response) as [[data|]|e]; try reflexivity.
  destruct (JS.truthy (Response.signature data)
            && negb (JS.strict_eq (Response.signature data)
                                  (JStr (expected_signature env this1 data))));
    [reflexivity|].
  destruct (Result.isValid (classify env data)); reflexivity.
Qed.

Lemma no_fetch_in ev request : Forall not_fetch ev -> ~ In (Fetch request) ev.
Proof.
  intros H Hin. rewrite Forall_forall in H. exact (H _ Hin).
Qed.

(** A request seen among the events of a call is the one built from the
    fingerprint [getHWID] returned, and the call ends as the answer to it
    says. *)
Lemma verify_fetches key env this r this' ev request :
  verify key env this = (r, this', ev) ->
  In (Fetch request) ev ->
  exists hwid this1 ev1,
    getHWID env this = (Return hwid, this1, ev1)
    /\ request = request_of env this1 key hwid
    /\ (r, this', ev)
       = match fetch env request with
         | Throw e => (Throw (wrap_error e), this1, (ev1 ++ [Fetch request])%list)
         | Return response =>
             after_response env this1 (ev1 ++ [Fetch request])%list response
         end.
Proof.
  rewrite verify_unfold. intros Hv Hin.
  destruct (negb (JS.truthy key) || negb (JS.is_string key)).
  { inversion Hv; subst. contradiction. }
  pose proof (getHWID_no_fetch env this) as Hnf. unfold events_of in Hnf.
  destruct (getHWID env this) as [[[hwid|e] this1] ev1]; cbn [snd] in Hnf.
  2:{ inversion Hv; subst. exfalso. exact (no_fetch_in _ _ Hnf Hin). }
  cbv zeta in Hv.
  assert (Hev : ev = (ev1 ++ [Fetch (request_of env this1 key hwid)])%list).
  { destruct (fetch env (request_of env this1 key hwid)) as [response|e].
    - pose proof (after_response_events env this1
                    (ev1 ++ [Fetch (request_of env this1 key hwid)]) response) as He.
      rewrite Hv in He. exact He.
    - inversion Hv; reflexivity. }
  assert (Hreq : request = request_of env this1 key hwid).
  { rewrite Hev in Hin. apply in_app_or in Hin. destruct Hin as [Hin|[Hin|[]]].
    - exfalso. exact (no_fetch_in _ _ Hnf Hin).
    - congruence. }
  exists hwid, this1, ev1. split; [reflexivity|]. split; [exact Hreq|].
  rewrite Hreq. symmetry. exact Hv.
Qed.

(** A call that returns a result got an answer whose body passed the
    signature check, and the result is the classified body. *)
Lemma verify_returns key env this r this' ev :
  verify key env this = (Return r, this', ev) ->
  exists hwid this1 ev1 response data,
    getHWID env this = (Return hwid, this1, ev1)
    /\ fetch env (request_of env this1 key hwid) = Return response
    /\ json response = Return (Some data)
    /\ ev = (ev1 ++ [Fetch (request_of env this1 key hwid)])%list
    /\ (JS.truthy (Response.signature data) = false
        \/ Response.signature data = JStr (expected_signature env this1 data))
    /\ ((Result.isValid (classify env data) = true
         /\ r = Result.set_success true (classify env data)
         /\ this' = set_lastVerification (Some r) this1)
        \/ (Result.isValid (classify env data) = false
            /\ r = classify env data
            /\ this' = this1)).
Proof.
  rewrite verify_unfold. intros Hv.
  destruct (negb (JS.truthy key) || negb (JS.is_string key)); [discriminate|].
  destruct (getHWID env this) as [[[hwid|e] this1] ev1]; [|discriminate].
  cbv zeta in Hv.
  destruct (fetch env (request_of env this1 key hwid)) as [response|e] eqn:Ef;
    [|discriminate].
  unfold after_response in Hv.
  destruct (negb (ok response) && (status response >=? 500)); [discriminate|].
  destruct (json response) as [[data|]|e] eqn:Ej; try discriminate.
  exists hwid, this1, ev1, response, data.
  split; [reflexivity|]. split; [exact Ef|]. split; [exact Ej|].
  assert (Hev : ev = (ev1 ++ [Fetch (request_of env this1 key hwid)])%list).
  { destruct (JS.truthy (Response.signature data)
              && negb (JS.strict_eq (Response.signature data)
                                    (JStr (expected_signature env this1 data))));
      [discriminate|].
    destruct (Result.isValid (classify env data)); inversion Hv; reflexivity. }
  split; [exact Hev|].
  assert (Hsig : JS.truthy (Response.signature data) = false
                 \/ Response.signature data = JStr (expected_signature env this1 data)).
  { destruct (JS.truthy (Response.signature data)); [|left; reflexivity].
    destruct (JS.strict_eq (Response.signature data)
                (JStr (expected_signature env this1 data))) eqn:Es; [|discriminate].
    right. apply strict_eq_true. exact Es. }
  split; [exact Hsig|].
  destruct (JS.truthy (Response.signature data)
            && negb (JS.strict_eq (Response.signature data)
                                  (JStr (expected_signature env this1 data))));
    [discriminate|].
  destruct (Result.isValid (classify env data)) eqn:Ev; inversion Hv; subst.
  - left. repeat split.
  - right. repeat split.
Qed.

Lemma getHWID_keeps_cache env this :
  _lastVerification (state_after (getHWID env this)) = _lastVerification this.
Proof. apply (getHWID_preserves _lastVerification). auto. Qed.

Lemma getHWID_keeps_secrets env this :
  secret1 (state_after (getHWID env this)) = secret1 this
  /\ secret2 (state_after (getHWID env this)) = secret2 this
  /\ secret3 (state_after (getHWID env this)) = secret3 this.
Proof.
  repeat split.
  - apply (getHWID_preserves secret1). auto.
  - apply (getHWID_preserves secret2). auto.
  - apply (getHWID_preserves secret3). auto.
Qed.

(** C3. A result returned by [verify] classifies the code of the
    response: [isActivated] says that it is KEY_ACTIVATED, [isValid] that it
    is KEY_VALID or KEY_ACTIVATED, and [success] equals [isValid]; with any
    other code [success] is false.  The same holds of the code the result
    itself reports. *)
Theorem verify_classifies_code key env this r this' ev :
  verify key env this = (Return r, this', ev) ->
  exists hwid this1 ev1 response data,
    getHWID env this = (Return hwid, this1, ev1)
    /\ fetch env (request_of env this1 key hwid) = Return response
    /\ json response = Return (Some data)
    /\ (Result.isActivated r = true <-> Response.code data = KEY_ACTIVATED)
    /\ (Result.isValid r = true
        <-> Response.code data = KEY_VALID \/ Response.code data = KEY_ACTIVATED)
    /\ Result.success r = Result.isValid r
    /\ (Response.code data <> KEY_VALID ->
        Response.code data <> KEY_ACTIVATED ->
        Result.success r = false)
    /\ Result.code r = JS.or (Response.code data) (JStr "UNKNOWN_ERROR")
    /\ (Result.isActivated r = true <-> Result.code r = KEY_ACTIVATED)
    /\ (Result.isValid r = true
        <-> Result.code r = KEY_VALID \/ Result.code r = KEY_ACTIVATED).
Proof.
  intros Hv.
  destruct (verify_returns key env this r this' ev Hv)
    as (hwid & this1 & ev1 & response & data & Hg & Hf & Hj & _ & _ & Hr).
  exists hwid, this1, ev1, response, data.
  do 3 (split; [assumption|]).
  assert (Hact : Result.isActivated r = JS.strict_eq (Response.code data) KEY_ACTIVATED).
  { destruct Hr as [(_ & -> & _) | (_ & -> & _)]; reflexivity. }
  assert (Hval : Result.isValid r
                 = JS.strict_eq (Response.code data) KEY_VALID
                   || JS.strict_eq (Response.code data) KEY_ACTIVATED).
  { destruct Hr as [(_ & -> & _) | (_ & -> & _)]; reflexivity. }
  assert (Hsuc : Result.success r = Result.isValid r).
  { destruct Hr as [(Hv1 & -> & _) | (Hv0 & -> & _)].
    - cbn [Result.set_success Result.success Result.isValid]. symmetry. exact Hv1.
    - rewrite Hv0. reflexivity. }
  assert (Hcode : Result.code r = JS.or (Response.code data) (JStr "UNKNOWN_ERROR")).
  { destruct Hr as [(_ & -> & _) | (_ & -> & _)]; reflexivity. }
  assert (Hsame : forall c, c = KEY_VALID \/ c = KEY_ACTIVATED ->
            (JS.or (Response.code data) (JStr "UNKNOWN_ERROR") = c
             <-> Response.code data = c)).
  { intros c Hc. unfold JS.or.
    destruct (JS.truthy (Response.code data)) eqn:Et; [tauto|].
    split; intros H.
    - destruct Hc as [-> | ->]; discriminate H.
    - rewrite H in Et. destruct Hc as [-> | ->]; discriminate Et. }
  split; [rewrite Hact; apply strict_eq_true|].
  split; [rewrite Hval, orb_true_iff, !strict_eq_true; tauto|].
  split; [exact Hsuc|].
  split.
  { intros Hn1 Hn2. rewrite Hsuc, Hval.
    apply strict_eq_false in Hn1. apply strict_eq_false in Hn2.
    rewrite Hn1, Hn2. reflexivity. }
  split; [exact Hcode|].
  split.
  - rewrite Hact, Hcode, strict_eq_true. symmetry. apply Hsame. tauto.
  - rewrite Hval, Hcode, orb_true_iff, !strict_eq_true.
    rewrite (Hsame KEY_VALID) by tauto. rewrite (Hsame KEY_ACTIVATED) by tauto. tauto.
Qed.

Lemma verify_classifies_code_witness :
  exists r,
    outcome_of (verify (JStr "ABC") (world (authority KEY_ACTIVATED test_secret3))
                       test_instance)
    = Return r
    /\ Result.isActivated r = true /\ Result.isValid r = true /\ Result.success r = true
    /\ exists hwid this1 ev1 response data,
         getHWID (world (authority KEY_ACTIVATED test_secret3)) test_instance
         = (Return hwid, this1, ev1)
         /\ fetch (world (authority KEY_ACTIVATED test_secret3))
              (request_of (world (authority KEY_ACTIVATED test_secret3)) this1 (JStr "ABC") hwid)
            = Return response
         /\ json response = Return (Some data)
         /\ (Result.isActivated r = true <-> Response.code data = KEY_ACTIVATED)
         /\ (Result.isValid r = true
             <-> Response.code data = KEY_VALID \/ Response.code data = KEY_ACTIVATED)
         /\ Result.success r = Result.isValid r
         /\ (Response.code data <> KEY_VALID ->
             Response.code data <> KEY_ACTIVATED ->
             Result.success r = false)
         /\ Result.code r = JS.or (Response.code data) (JStr "UNKNOWN_ERROR")
         /\ (Result.isActivated r = true <-> Result.code r = KEY_ACTIVATED)
         /\ (Result.isValid r = true
             <-> Result.code r = KEY_VALID \/ Result.code r = KEY_ACTIVATED).
Proof.
  pose proof (result_eta (verify (JStr "ABC") (world (authority KEY_ACTIVATED test_secret3))
                                 test_instance)) as Hrun.
  assert (Hflags :
            match outcome_of (verify (JStr "ABC")
                                (world (authority KEY_ACTIVATED test_secret3)) test_instance)
            with
            | Return r => Result.isActivated r = true /\ Result.isValid r = true
                          /\ Result.success r = true
            | Throw _ => False
            end)
    by (vm_compute; repeat split; reflexivity).
  destruct (outcome_of (verify (JStr "ABC") (world (authority KEY_ACTIVATED test_secret3))
                               test_instance)) as [r|e]; [|contradiction].
  exists r. split; [reflexivity|].
  destruct Hflags as (Ha & Hv & Hs). do 3 (split; [assumption|]).
  exact (verify_classifies_code _ _ _ _ _ _ Hrun).
Defined.

(** ** The cache across calls *)

Lemma verify_cache key env this :
  match verify key env this with
  | (Return r, this', _) =>
      (Result.success r = true /\ _lastVerification this' = Some r)
      \/ (Result.success r = false /\ _lastVerification this' = _lastVerification this)
  | (Throw _, this', _) => _lastVerification this' = _lastVerification this
  end.
Proof.
  rewrite verify_unfold.
  destruct (negb (JS.truthy key) || negb (JS.is_string key)); [reflexivity|].
  pose proof (getHWID_keeps_cache env this) as Hk. unfold state_after in Hk.
  destruct (getHWID env this) as [[[hwid|e] this1] ev1]; cbn [fst snd] in Hk; [|exact Hk].
  cbv zeta.
  destruct (fetch env (request_of env this1 key hwid)) as [response|e]; [|exact Hk].
  unfold after_response.
  destruct (negb (ok response) && (status response >=? 500)); [exact Hk|].
  destruct (json response) as [[data|]|e]; try exact Hk.
  destruct (JS.truthy (Response.signature data)
            && negb (JS.strict_eq (Response.signature data)
                                  (JStr (expected_signature env this1 data))));
    [exact Hk|].
  destruct (Result.isValid (classify env data)).
  - left. split; reflexivity.
  - right. split; [reflexivity | exact Hk].
Qed.

Lemma isAuthenticated_state env this : state_after (isAuthenticated env this) = this.
Proof.
  unfold isAuthenticated. run_method. destruct (_lastVerification this); reflexivity.
Qed.

Lemma verifyOrThrow_unfold key env this :
  verifyOrThrow key env this =
    match verify key env this with
    | (Return r, this', ev) =>
        if Result.success r then (Return r, this', ev)
        else (Throw ("nexveil: " ++ JS.ToString (Result.code r) ++ " - "
                     ++ JS.ToString (Result.message r)), this', ev)
    | (Throw e, this', ev) => (Throw e, this', ev)
    end.
Proof.
  unfold verifyOrThrow. run_method.
  destruct (verify key env this) as [[[r|e] this'] ev]; [|reflexivity].
  destruct (Result.success r); cbn [negb]; rewrite app_nil_r; reflexivity.
Qed.

(** C4. A [verify] call writes the cache slot exactly when it returns a
    result with [success] true, and then it stores that result; a call that
    returns [success] false or that throws, the signature error included,
    leaves the slot as it was.  Of all the methods, the only other one that
    changes the slot is [clearCache], which empties it. *)
Theorem cache_written_only_by_successful_verify :
  (forall key env this r this' ev,
     verify key env this = (r, this', ev) ->
     match r with
     | Return result =>
         if Result.success result
         then _lastVerification this' = Some result
         else _lastVerification this' = _lastVerification this
     | Throw _ => _lastVerification this' = _lastVerification this
     end)
  /\ (forall c env this,
        _lastVerification (perform c env this) <> _lastVerification this ->
        c = call_clearCache
        \/ exists key result,
             (c = call_verify key \/ c = call_verifyOrThrow key)
             /\ outcome_of (verify key env this) = Return result
             /\ Result.success result = true
             /\ _lastVerification (perform c env this) = Some result).
Proof.
  split.
  - intros key env this r this' ev Hv.
    pose proof (verify_cache key env this) as Hc. rewrite Hv in Hc.
    destruct r as [result|e]; [|exact Hc].
    destruct Hc as [[-> Hc] | [-> Hc]]; exact Hc.
  - intros c env this Hne.
    destruct c; cbn [perform] in *.
    + exfalso. apply Hne. apply (generateHWID_preserves _lastVerification). auto.
    + exfalso. apply Hne. apply getHWID_keeps_cache.
    + exfalso. apply Hne. unfold setHWID.
      destruct (negb (JS.truthy hwid) || negb (JS.is_string hwid)); reflexivity.
    + right. pose proof (verify_cache key env this) as Hc.
      unfold state_after, outcome_of in *.
      destruct (verify key env this) as [[[result|e] this'] ev] eqn:Hrun;
        cbn [fst snd] in *.
      * destruct Hc as [[Hs Hc] | [Hs Hc]]; [|contradiction].
        exists key, result. rewrite Hrun.
        split; [left; reflexivity|]. split; [reflexivity|]. split; assumption.
      * contradiction.
    + right. pose proof (verify_cache key env this) as Hc.
      rewrite verifyOrThrow_unfold in *.
      unfold state_after, outcome_of in *.
      destruct (verify key env this) as [[[result|e] this'] ev] eqn:Hrun;
        cbn [fst snd] in *.
      * destruct Hc as [[Hs Hc] | [Hs Hc]].
        -- rewrite Hs in *. cbn [fst snd] in *. exists key, result. rewrite Hrun.
           split; [right; reflexivity|]. split; [reflexivity|]. split; [exact Hs|].
           exact Hc.
        -- rewrite Hs in Hne. cbn [fst snd] in Hne. contradiction.
      * contradiction.
    + exfalso. apply Hne. reflexivity.
    + exfalso. apply Hne. rewrite isAuthenticated_state. reflexivity.
    + left. reflexivity.
Qed.

Lemma cache_written_only_by_successful_verify_witness :
  (outcome_of (verify (JStr "ABC") (world (authority KEY_VALID wrong_secret))
                      (set_lastVerification (Some valid_result) test_instance))
   = Throw signature_error
   /\ _lastVerification
        (state_after (verify (JStr "ABC") (world (authority KEY_VALID wrong_secret))
                             (set_lastVerification (Some valid_result) test_instance)))
      = Some valid_result)
  /\ (exists result,
        outcome_of (verify (JStr "ABC") (world (authority KEY_VALID test_secret3))
                           test_instance)
        = Return result
        /\ Result.success result = true
        /\ _lastVerification
             (state_after (verify (JStr "ABC") (world (authority KEY_VALID test_secret3))
                                  test_instance))
           = Some result)
  /\ (call_verify (JStr "ABC") = call_clearCache
      \/ exists key result,
           (call_verify (JStr "ABC") = call_verify key
            \/ call_verify (JStr "ABC") = call_verifyOrThrow key)
           /\ outcome_of (verify key (world (authority KEY_VALID test_secret3)) test_instance)
              = Return result
           /\ Result.success result = true
           /\ _lastVerification
                (perform (call_verify (JStr "ABC")) (world (authority KEY_VALID test_secret3))
                         test_instance)
              = Some result).
Proof.
  destruct cache_written_only_by_successful_verify as (Hverify & Hcalls).
  split; [|split].
  - pose proof (Hverify _ _ _ _ _ _
                  (result_eta (verify (JStr "ABC") (world (authority KEY_VALID wrong_secret))
                     (set_lastVerification (Some valid_result) test_instance)))) as Hc.
    assert (Hr : outcome_of (verify (JStr "ABC") (world (authority KEY_VALID wrong_secret))
                               (set_lastVerification (Some valid_result) test_instance))
                 = Throw signature_error)
      by (vm_compute; reflexivity).
    rewrite Hr in Hc. split; [exact Hr | exact Hc].
  - pose proof (Hverify _ _ _ _ _ _
                  (result_eta (verify (JStr "ABC") (world (authority KEY_VALID test_secret3))
                     test_instance))) as Hc.
    assert (Hs : match outcome_of (verify (JStr "ABC")
                                     (world (authority KEY_VALID test_secret3)) test_instance)
                 with
                 | Return result => Result.success result = true
                 | Throw _ => False
                 end)
      by (vm_compute; reflexivity).
    destruct (outcome_of (verify (JStr "ABC") (world (authority KEY_VALID test_secret3))
                                 test_instance)) as [result|e]; [|contradiction].
    rewrite Hs in Hc. exists result.
    split; [reflexivity|]. split; [exact Hs | exact Hc].
  - apply Hcalls. vm_compute. discriminate.
Defined.

(** ** [verifyOrThrow] *)

(** C8. [verifyOrThrow(key)] runs [verify(key)], with the same effect on
    the instance and the same events.  When that returns a result whose
    [success] is false it throws an error whose message holds the code and
    the message of that result; when it returns a successful result, that
    result is returned as it is; when it throws, the same error is thrown. *)
Theorem verifyOrThrow_follows_verify key env this :
  state_after (verifyOrThrow key env this) = state_after (verify key env this)
  /\ events_of (verifyOrThrow key env this) = events_of (verify key env this)
  /\ (forall result,
        outcome_of (verify key env this) = Return result ->
        Result.success result = false ->
        outcome_of (verifyOrThrow key env this)
        = Throw ("nexveil: " ++ JS.ToString (Result.code result) ++ " - "
                 ++ JS.ToString (Result.message result)))
  /\ (forall result,
        outcome_of (verify key env this) = Return result ->
        Result.success result = true ->
        outcome_of (verifyOrThrow key env this) = Return result)
  /\ (forall e,
        outcome_of (verify key env this) = Throw e ->
        outcome_of (verifyOrThrow key env this) = Throw e).
Proof.
  rewrite verifyOrThrow_unfold. unfold state_after, events_of, outcome_of.
  destruct (verify key env this) as [[[r|e] this'] ev]; cbn [fst snd].
  - destruct (Result.success r) eqn:Hs; cbn [fst snd]; repeat split;
      intros x Hx; inversion Hx; subst; congruence.
  - repeat split; intros x Hx; inversion Hx; subst; congruence.
Qed.

Lemma verifyOrThrow_follows_verify_witness :
  outcome_of (verifyOrThrow (JStr "ABC") (world (authority (JStr "KEY_EXPIRED") test_secret3))
                test_instance)
  = Throw "nexveil: KEY_EXPIRED - done"
  /\ exists result,
       outcome_of (verifyOrThrow (JStr "ABC") (world (authority KEY_VALID test_secret3))
                     test_instance)
       = Return result
       /\ outcome_of (verify (JStr "ABC") (world (authority KEY_VALID test_secret3))
                        test_instance)
          = Return result.
Proof.
  split.
  - destruct (verifyOrThrow_follows_verify (JStr "ABC")
                (world (authority (JStr "KEY_EXPIRED") test_secret3)) test_instance)
      as (_ & _ & Hfail & _ & _).
    assert (Hr : match outcome_of (verify (JStr "ABC")
                         (world (authority (JStr "KEY_EXPIRED") test_secret3)) test_instance)
                 with
                 | Return result =>
                     Result.success result = false
                     /\ Result.code result = JStr "KEY_EXPIRED"
                     /\ Result.message result = JStr "done"
                 | Throw _ => False
                 end)
      by (vm_compute; repeat split; reflexivity).
    destruct (outcome_of (verify (JStr "ABC")
                (world (authority (JStr "KEY_EXPIRED") test_secret3)) test_instance))
      as [result|e]; [|contradiction].
    destruct Hr as (Hs & Hcode & Hmsg).
    rewrite (Hfail result eq_refl Hs), Hcode, Hmsg. reflexivity.
  - destruct (verifyOrThrow_follows_verify (JStr "ABC")
                (world (authority KEY_VALID test_secret3)) test_instance)
      as (_ & _ & _ & Hpass & _).
    assert (Hs : match outcome_of (verify (JStr "ABC")
                         (world (authority KEY_VALID test_secret3)) test_instance)
                 with
                 | Return result => Result.success result = true
                 | Throw _ => False
                 end)
      by (vm_compute; reflexivity).
    destruct (outcome_of (verify (JStr "ABC") (world (authority KEY_VALID test_secret3))
                                 test_instance)) as [result|e]; [|contradiction].
    exists result. split; [exact (Hpass result eq_refl Hs) | reflexivity].
Defined.

(** ** The client signature *)

Lemma request_headers env this key hwid :
  header "externalsignature" (headers (request_of env this key hwid))
  = JStr (clientSignature_of env this key hwid)
  /\ header "clientnonce" (headers (request_of env this key hwid)) = JStr (nonce_of env)
  /\ header "clienttime" (headers (request_of env this key hwid))
     = JStr (JSString.Number_toString (Date_now env))
  /\ header "clienthwid" (headers (request_of env this key hwid)) = hwid.
Proof. repeat split. Qed.

Lemma verify_sends_one k env this hwid :
  k <> "" ->
  outcome_of (getHWID env this) = Return hwid ->
  events_of (verify (JStr k) env this)
  = (events_of (getHWID env this)
     ++ [Fetch (request_of env (state_after (getHWID env this)) (JStr k) hwid)])%list.
Proof.
  intros Hk Hg. rewrite verify_unfold.
  rewrite (nonempty_truthy k Hk). cbn [negb orb JS.is_string].
  unfold outcome_of, events_of, state_after in *.
  destruct (getHWID env this) as [[[h|e] this1] ev1]; cbn [fst snd] in *; [|discriminate].
  injection Hg as ->. cbv zeta.
  destruct (fetch env (request_of env this1 (JStr k) hwid)) as [response|e].
  - apply after_response_events.
  - reflexivity.
Qed.

(** C2. Every request a [verify] call hands to [fetch] carries, as
    [externalsignature], the SHA-256 of the nonce, secret1, the key,
    secret2, the timestamp, secret3 and the fingerprint, concatenated in
    this order, where nonce, timestamp and fingerprint are the ones sent in
    the headers of the same request.  A call with a non-empty key whose
    fingerprint is available sends exactly one request.  Two requests sent
    for the same key with equal secrets, nonce, timestamp and fingerprint
    carry the same signature. *)
Theorem client_signature_formula :
  (forall key env this r this' ev request,
     verify key env this = (r, this', ev) ->
     In (Fetch request) ev ->
     exists k hwid,
       key = JStr k
       /\ outcome_of (getHWID env this) = Return hwid
       /\ header "clientnonce" (headers request) = JStr (nonce_of env)
       /\ header "clienttime" (headers request)
          = JStr (JSString.Number_toString (Date_now env))
       /\ header "clienthwid" (headers request) = hwid
       /\ header "externalsignature" (headers request)
          = JStr (sha256 (nonce_of env ++ JS.ToString (secret1 this) ++ k
                          ++ JS.ToString (secret2 this)
                          ++ JSString.Number_toString (Date_now env)
                          ++ JS.ToString (secret3 this) ++ JS.ToString hwid)))
  /\ (forall k env this hwid,
        k <> "" ->
        outcome_of (getHWID env this) = Return hwid ->
        exists request,
          events_of (verify (JStr k) env this)
          = (events_of (getHWID env this) ++ [Fetch request])%list)
  /\ (forall key env1 this1 r1 s1 ev1 request1 env2 this2 r2 s2 ev2 request2,
        verify key env1 this1 = (r1, s1, ev1) -> In (Fetch request1) ev1 ->
        verify key env2 this2 = (r2, s2, ev2) -> In (Fetch request2) ev2 ->
        secret1 this1 = secret1 this2 ->
        secret2 this1 = secret2 this2 ->
        secret3 this1 = secret3 this2 ->
        header "clientnonce" (headers request1) = header "clientnonce" (headers request2) ->
        header "clienttime" (headers request1) = header "clienttime" (headers request2) ->
        header "clienthwid" (headers request1) = header "clienthwid" (headers request2) ->
        header "externalsignature" (headers request1)
        = header "externalsignature" (headers request2)).
Proof.
  assert (Hsent : forall key env this r this' ev request,
    verify key env this = (r, this', ev) ->
    In (Fetch request) ev ->
    exists k hwid,
      key = JStr k
      /\ outcome_of (getHWID env this) = Return hwid
      /\ header "clientnonce" (headers request) = JStr (nonce_of env)
      /\ header "clienttime" (headers request)
         = JStr (JSString.Number_toString (Date_now env))
      /\ header "clienthwid" (headers request) = hwid
      /\ header "externalsignature" (headers request)
         = JStr (sha256 (nonce_of env ++ JS.ToString (secret1 this) ++ k
                         ++ JS.ToString (secret2 this)
                         ++ JSString.Number_toString (Date_now env)
                         ++ JS.ToString (secret3 this) ++ JS.ToString hwid))).
  { intros key env this r this' ev request Hv Hin.
    assert (Hkey : exists k, key = JStr k).
    { rewrite verify_unfold in Hv. destruct key as [| |b|k]; cbn in Hv;
        try (inversion Hv; subst; contradiction).
      - destruct b; cbn in Hv; inversion Hv; subst; contradiction.
      - exists k. reflexivity. }
    destruct Hkey as [k ->].
    destruct (verify_fetches _ _ _ _ _ _ _ Hv Hin) as (hwid & this1 & ev1 & Hg & -> & _).
    destruct (getHWID_keeps_secrets env this) as (H1 & H2 & H3).
    unfold outcome_of. rewrite Hg in *. unfold state_after in *. cbn [fst snd] in *.
    exists k, hwid. split; [reflexivity|]. split; [reflexivity|].
    destruct (request_headers env this1 (JStr k) hwid) as (Hs & Hn & Ht & Hh).
    split; [exact Hn|]. split; [exact Ht|]. split; [exact Hh|].
    rewrite Hs. unfold clientSignature_of. rewrite H1, H2, H3. reflexivity. }
  split; [exact Hsent|]. split.
  - intros k env this hwid Hk Hg. eexists. apply (verify_sends_one k env this hwid Hk Hg).
  - intros key env1 this1 r1 s1 ev1 request1 env2 this2 r2 s2 ev2 request2
           Hv1 Hin1 Hv2 Hin2 E1 E2 E3 En Et Eh.
    destruct (Hsent _ _ _ _ _ _ _ Hv1 Hin1) as (k1 & h1 & -> & _ & Hn1 & Ht1 & Hh1 & ->).
    destruct (Hsent _ _ _ _ _ _ _ Hv2 Hin2) as (k2 & h2 & Hk & _ & Hn2 & Ht2 & Hh2 & ->).
    inversion Hk; subst k2.
    rewrite Hn1, Hn2 in En. rewrite Ht1, Ht2 in Et. rewrite Hh1, Hh2 in Eh.
    inversion En as [En']. inversion Et as [Et']. subst h2.
    rewrite E1, E2, E3, En', Et'. reflexivity.
Qed.

Lemma client_signature_formula_witness :
  exists request,
    In (Fetch request)
       (events_of (verify (JStr "ABC") (world (authority KEY_VALID test_secret3))
                          test_instance))
    /\ header "clientnonce" (headers request)
       = JStr "abababababababababababababababababababababababababababababababab"
    /\ header "clienttime" (headers request) = JStr "1700000000000"
    /\ header "clienthwid" (headers request)
       = JStr "0a217f0f539c573c8f98b926bcdce60c159c4487f2f3c4bd21396d0b0749a11c"
    /\ header "externalsignature" (headers request)
       = JStr "20ddc909fdb24ed1d53d7e8c854cf118d16396e3f3fc780d36ad28422599a012".
Proof.
  destruct client_signature_formula as (Hsent & Hone & _).
  assert (Hg : outcome_of (getHWID (world (authority KEY_VALID test_secret3)) test_instance)
               = Return (JStr "0a217f0f539c573c8f98b926bcdce60c159c4487f2f3c4bd21396d0b0749a11c"))
    by (vm_compute; reflexivity).
  destruct (Hone "ABC" (world (authority KEY_VALID test_secret3)) test_instance _
                 ltac:(discriminate) Hg) as [request Hev].
  assert (Hin : In (Fetch request)
                   (events_of (verify (JStr "ABC") (world (authority KEY_VALID test_secret3))
                                      test_instance)))
    by (rewrite Hev; apply in_or_app; right; left; reflexivity).
  destruct (Hsent (JStr "ABC") (world (authority KEY_VALID test_secret3)) test_instance
                  _ _ _ request (result_eta _) Hin)
    as (k & hwid & Hk & Hh & Hn & Ht & Hhw & Hsig).
  injection Hk as Hk'. rewrite Hg in Hh. injection Hh as Hh'.
  exists request. split; [exact Hin|].
  rewrite Hn, Ht, Hhw, Hsig, <- Hk', <- Hh'. repeat split; vm_compute; reflexivity.
Defined.

(** ** The signature of the response *)

(** C1, as the code has it.  When the answer to the request of a
    [verify] call passes the transport check (it is [ok] or its status is
    below 500) and its body carries a truthy [signature] that differs from
    the SHA-256 of the nonce of this call, secret3 and the code of the body,
    the call throws the signature-verification error: no result is built
    and the cache is as before, whatever code the body claims, KEY_VALID
    included.  The nonce is the one the request carried. *)
Theorem mismatching_signature_is_rejected
    key env this r this' ev request response data :
  verify key env this = (r, this', ev) ->
  In (Fetch request) ev ->
  fetch env request = Return response ->
  ok response = true \/ status response < 500 ->
  json response = Return (Some data) ->
  JS.truthy (Response.signature data) = true ->
  Response.signature data
  <> JStr (sha256 (nonce_of env ++ JS.ToString (secret3 this)
                   ++ JS.ToString (Response.code data))) ->
  r = Throw signature_error
  /\ _lastVerification this' = _lastVerification this
  /\ header "clientnonce" (headers request) = JStr (nonce_of env).
Proof.
  intros Hv Hin Hf Hok Hj Ht Hne.
  destruct (verify_fetches _ _ _ _ _ _ _ Hv Hin) as (hwid & this1 & ev1 & Hg & Hreq & Hrun).
  pose proof (getHWID_keeps_cache env this) as Hcache.
  destruct (getHWID_keeps_secrets env this) as (_ & _ & Hs3).
  rewrite Hg in Hcache, Hs3. unfold state_after in Hcache, Hs3. cbn [fst snd] in Hcache, Hs3.
  rewrite Hf in Hrun. unfold after_response in Hrun.
  assert (Hcheck : negb (ok response) && (status response >=? 500) = false).
  { destruct Hok as [-> | Hlt]; [reflexivity|].
    apply andb_false_iff. right. rewrite Z.geb_leb. apply Z.leb_gt. exact Hlt. }
  rewrite Hcheck, Hj, Ht in Hrun. cbn [andb] in Hrun.
  assert (Hmis : JS.strict_eq (Response.signature data)
                   (JStr (expected_signature env this1 data)) = false).
  { apply strict_eq_false. unfold expected_signature. rewrite Hs3. exact Hne. }
  rewrite Hmis in Hrun. cbn [negb] in Hrun. inversion Hrun; subst.
  split; [reflexivity|]. split; [exact Hcache|]. reflexivity.
Qed.

Lemma mismatching_signature_is_rejected_witness :
  outcome_of (verify (JStr "ABC") (world (answers true 200 forged_valid))
                     (set_lastVerification (Some valid_result) test_instance))
  = Throw signature_error
  /\ _lastVerification
       (state_after (verify (JStr "ABC") (world (answers true 200 forged_valid))
                            (set_lastVerification (Some valid_result) test_instance)))
     = Some valid_result.
Proof.
  assert (Hg : outcome_of (getHWID (world (answers true 200 forged_valid))
                             (set_lastVerification (Some valid_result) test_instance))
               = Return (JStr "0a217f0f539c573c8f98b926bcdce60c159c4487f2f3c4bd21396d0b0749a11c"))
    by (vm_compute; reflexivity).
  pose proof (verify_sends_one "ABC" (world (answers true 200 forged_valid))
                (set_lastVerification (Some valid_result) test_instance) _
                ltac:(discriminate) Hg) as Hev.
  assert (Hexp : sha256 (nonce_of (world (answers true 200 forged_valid))
                         ++ JS.ToString (secret3 (set_lastVerification (Some valid_result)
                                                    test_instance))
                         ++ JS.ToString (Response.code forged_valid))
                 = "bf90ac35c783a9adc83d50bcd224f8b5e33ef9b3453b3822337a1b06eff7c30a")
    by (vm_compute; reflexivity).
  destruct (mismatching_signature_is_rejected
              (JStr "ABC") (world (answers true 200 forged_valid))
              (set_lastVerification (Some valid_result) test_instance)
              _ _ _ _
              {| ok := true; status := 200; json := Return (Some forged_valid) |}
              forged_valid
              (result_eta _)
              ltac:(rewrite Hev; apply in_or_app; right; left; reflexivity)
              eq_refl (or_introl eq_refl) eq_refl eq_refl
              ltac:(rewrite Hexp; discriminate))
    as (Hr & Hc & _).
  split; [exact Hr | exact Hc].
Defined.

(** C1 as stated fails: a body that claims KEY_VALID under an empty
    [signature] carries a signature field that differs from the expected
    hash, yet [verify] skips the check, returns a successful result and
    caches it. *)
Lemma empty_signature_is_accepted :
  Response.signature unsigned_valid <> JUndefined
  /\ (exists result,
        outcome_of (verify (JStr "ABC") (world (answers true 200 unsigned_valid)) test_instance)
        = Return result
        /\ Result.success result = true
        /\ Result.code result = KEY_VALID
        /\ _lastVerification
             (state_after (verify (JStr "ABC") (world (answers true 200 unsigned_valid))
                                  test_instance))
           = Some result)
  /\ ~ rejects_every_mismatching_signature.
Proof.
  assert (Hrun : outcome_of (verify (JStr "ABC") (world (answers true 200 unsigned_valid))
                               test_instance)
                 = Return {| Result.success := true;
                             Result.code := KEY_VALID;
                             Result.message := JStr "done";
                             Result.signature := JNull;
                             Result.data := None;
                             Result.isActivated := false;
                             Result.isValid := true;
                             Result.timestamp := "2023-11-14T22:13:20.000Z" |})
    by (vm_compute; reflexivity).
  split; [discriminate|]. split.
  - eexists. split; [exact Hrun|]. split; [reflexivity|]. split; [reflexivity|].
    vm_compute. reflexivity.
  - intros Hall.
    assert (Hg : outcome_of (getHWID (world (answers true 200 unsigned_valid)) test_instance)
                 = Return (JStr "0a217f0f539c573c8f98b926bcdce60c159c4487f2f3c4bd21396d0b0749a11c"))
      by (vm_compute; reflexivity).
    pose proof (verify_sends_one "ABC" (world (answers true 200 unsigned_valid))
                  test_instance _ ltac:(discriminate) Hg) as Hev.
    assert (Hexp : sha256 (nonce_of (world (answers true 200 unsigned_valid))
                           ++ JS.ToString (secret3 test_instance)
                           ++ JS.ToString (Response.code unsigned_valid))
                   = "bf90ac35c783a9adc83d50bcd224f8b5e33ef9b3453b3822337a1b06eff7c30a")
      by (vm_compute; reflexivity).
    destruct (Hall (JStr "ABC") (world (answers true 200 unsigned_valid)) test_instance
                _ _ _ _
                {| ok := true; status := 200; json := Return (Some unsigned_valid) |}
                unsigned_valid
                (result_eta _)
                ltac:(rewrite Hev; apply in_or_app; right; left; reflexivity)
                eq_refl eq_refl
                ltac:(discriminate)
                ltac:(rewrite Hexp; discriminate))
      as (Hr & _).
    rewrite Hrun in Hr. discriminate Hr.
Qed.

(** ** The derivation of the fingerprint *)

Lemma sort_insert_perm x l : Permutation (sort_insert x l) (x :: l).
Proof.
  induction l as [|y l IH]; cbn [sort_insert].
  - apply Permutation_refl.
  - destruct (String.leb x y).
    + apply Permutation_refl.
    + apply perm_trans with (y :: x :: l).
      * apply perm_skip. exact IH.
      * apply perm_swap.
Qed.

Lemma Array_sort_perm l : Permutation (Array_sort l) l.
Proof.
  induction l as [|x l IH]; cbn [Array_sort].
  - apply perm_nil.
  - apply perm_trans with (x :: Array_sort l).
    + apply sort_insert_perm.
    + apply perm_skip. exact IH.
Qed.

Lemma leb_flip x y : String.leb x y = false -> string_le y x.
Proof.
  intros H. destruct (String.leb_total x y) as [H' | H']; [congruence | exact H'].
Qed.

Lemma sort_insert_hd x y l :
  string_le y x -> HdRel string_le y l -> HdRel string_le y (sort_insert x l).
Proof.
  intros Hyx Hl. destruct l as [|z l]; cbn [sort_insert].
  - constructor. exact Hyx.
  - destruct (String.leb x z); constructor.
    + exact Hyx.
    + inversion Hl. assumption.
Qed.

Lemma sort_insert_sorted x l :
  Sorted string_le l -> Sorted string_le (sort_insert x l).
Proof.
  induction 1 as [|y l Hs IH Hd]; cbn [sort_insert].
  - repeat constructor.
  - destruct (String.leb x y) eqn:E.
    + constructor; [constructor; assumption | constructor; exact E].
    + constructor; [exact IH|]. apply sort_insert_hd; [apply leb_flip; exact E | exact Hd].
Qed.

Lemma Array_sort_sorted l : Sorted string_le (Array_sort l).
Proof.
  induction l as [|x l IH]; cbn [Array_sort].
  - constructor.
  - apply sort_insert_sorted. exact IH.
Qed.

Lemma mac_kept_spec m : mac_kept m = true <-> m <> "" /\ m <> zero_mac.
Proof.
  unfold mac_kept. rewrite andb_true_iff, !negb_true_iff. split.
  - intros [He Hz]. split.
    + intros ->. discriminate He.
    + intros ->. discriminate Hz.
  - intros [He Hz]. split.
    + destruct m; [congruence | reflexivity].
    + apply String.eqb_neq. exact Hz.
Qed.

Lemma kept_macs_spec interfaces m :
  In m (Array_sort (filter mac_kept (all_macs interfaces)))
  <-> (exists name entries entry,
         In (name, entries) interfaces /\ In entry entries /\ mac entry = m)
      /\ m <> "" /\ m <> zero_mac.
Proof.
  split.
  - intros H. apply (Permutation_in _ (Array_sort_perm _)) in H.
    apply filter_In in H. destruct H as [Hin Hk].
    split; [|apply mac_kept_spec; exact Hk].
    unfold all_macs in Hin. apply in_flat_map in Hin.
    destruct Hin as [[name entries] [Hi Hm]]. apply in_map_iff in Hm.
    destruct Hm as [entry [He Hin]]. exists name, entries, entry. auto.
  - intros [[name [entries [entry [Hi [He Hm]]]]] Hk].
    apply (Permutation_in _ (Permutation_sym (Array_sort_perm _))).
    apply filter_In. split; [|apply mac_kept_spec; exact Hk].
    unfold all_macs. apply in_flat_map. exists (name, entries). split; [exact Hi|].
    apply in_map_iff. exists entry. auto.
Qed.

Lemma specific_id_on_failure s :
  (forall command, exists e, exec s command = Throw e) ->
  specific_id s = []
  /\ (String.eqb (platform s) "win32" = true
      \/ String.eqb (platform s) "linux" = true
      \/ String.eqb (platform s) "darwin" = true ->
      In lookup_warning (specific_events s)).
Proof.
  intros Hfail. unfold specific_id, specific_events.
  destruct (Hfail wmic_command) as [e1 ->].
  destruct (Hfail machine_id_command) as [e2 ->].
  destruct (Hfail ioreg_command) as [e3 ->].
  destruct (String.eqb (platform s) "win32").
  { split; [reflexivity|]. intros _. simpl. tauto. }
  destruct (String.eqb (platform s) "linux").
  { split; [reflexivity|]. intros _. simpl. tauto. }
  destruct (String.eqb (platform s) "darwin").
  { split; [reflexivity|]. intros _. simpl. tauto. }
  split; [reflexivity|]. intros [H|[H|H]]; discriminate H.
Qed.

Lemma specific_id_on_success s :
  (String.eqb (platform s) "win32" = true ->
   forall out line,
     exec s wmic_command = Return out ->
     nth_error (JSString.split newline out) 1 = Some line ->
     specific_id s = [JSString.trim line])
  /\ (String.eqb (platform s) "linux" = true ->
      forall out,
        exec s machine_id_command = Return out ->
        specific_id s = [JSString.trim out])
  /\ (String.eqb (platform s) "darwin" = true ->
      forall out,
        exec s ioreg_command = Return out ->
        specific_id s = [JSString.trim out])
  /\ (String.eqb (platform s) "win32" = false ->
      String.eqb (platform s) "linux" = false ->
      String.eqb (platform s) "darwin" = false ->
      specific_id s = []).
Proof.
  unfold specific_id. repeat split.
  - intros -> out line -> ->. reflexivity.
  - intros Hl out ->. apply String.eqb_eq in Hl. rewrite Hl. reflexivity.
  - intros Hd out ->. apply String.eqb_eq in Hd. rewrite Hd. reflexivity.
  - intros -> -> ->. reflexivity.
Qed.

(** The digest has 32 bytes, so the hexadecimal text has 64 characters. *)
Lemma be_bytes_length count x : List.length (SHA256.be_bytes count x) = count.
Proof.
  unfold SHA256.be_bytes. rewrite length_map, length_rev, length_seq. reflexivity.
Qed.

Lemma compress_length h block :
  List.length h = 8%nat -> List.length (SHA256.compress h block) = 8%nat.
Proof.
  intros H. unfold SHA256.compress. rewrite length_map, length_combine, H. reflexivity.
Qed.

Lemma fold_compress_length blocks h :
  List.length h = 8%nat -> List.length (fold_left SHA256.compress blocks h) = 8%nat.
Proof.
  revert h. induction blocks as [|b blocks IH]; intros h H; cbn [fold_left].
  - exact H.
  - apply IH. apply compress_length. exact H.
Qed.

Lemma flat_map_be_bytes_length ws :
  List.length (flat_map (SHA256.be_bytes 4) ws) = (4 * List.length ws)%nat.
Proof.
  induction ws as [|w ws IH]; cbn [flat_map List.length].
  - reflexivity.
  - rewrite length_app, be_bytes_length, IH. lia.
Qed.

Lemma hex_length bytes : String.length (JSString.hex bytes) = (2 * List.length bytes)%nat.
Proof.
  induction bytes as [|b bytes IH].
  - reflexivity.
  - change (JSString.hex (b :: bytes)) with (JSString.hex_byte false b ++ JSString.hex bytes).
    unfold JSString.hex_byte. cbn [String.append String.length List.length].
    rewrite IH. lia.
Qed.

Lemma sha256_length data : String.length (sha256 data) = 64%nat.
Proof.
  unfold sha256, SHA256.digest. rewrite hex_length, flat_map_be_bytes_length.
  rewrite fold_compress_length; reflexivity.
Qed.

Lemma sha256_truthy data : JS.truthy (JStr (sha256 data)) = true.
Proof. apply length64_truthy. apply sha256_length. Qed.

(** C7, as the code has it.  With no custom fingerprint and nothing
    memoized, on a machine whose host name and interfaces can be read,
    [generateHWID] joins with the delimiter [||], in this order: the model
    of the first CPU when one is reported, the host name, the platform, the
    architecture, the MAC addresses and the platform-specific identifier.
    The addresses are the [mac] of every entry of every interface, except
    the empty and the all-zero ones, in sorted order: a list, in which an
    address shared by several entries stands once per entry.  The
    identifier is at most one text; when the lookup throws it is left out,
    a warning is logged and the derivation goes on.  The fingerprint is the
    SHA-256 of the joined text in hexadecimal, 64 characters; it is stored
    in [_hwid], and every later call on that instance returns it without
    any probe, command or warning. *)
Theorem generateHWID_derives_and_memoizes env this host interfaces :
  JS.truthy (customHWID this) = false ->
  JS.truthy (_hwid this) = false ->
  hostname (os env) = Return host ->
  networkInterfaces (os env) = Return interfaces ->
  exists macs specific fingerprint,
    macs = Array_sort (filter mac_kept (all_macs interfaces))
    /\ Sorted string_le macs
    /\ Permutation macs (filter mac_kept (all_macs interfaces))
    /\ (forall m,
          In m macs
          <-> (exists name entries entry,
                 In (name, entries) interfaces /\ In entry entries /\ mac entry = m)
              /\ m <> "" /\ m <> zero_mac)
    /\ specific = specific_id (os env)
    /\ (List.length specific <= 1)%nat
    /\ ((forall command, exists e, exec (os env) command = Throw e) ->
        specific = []
        /\ (String.eqb (platform (os env)) "win32" = true
            \/ String.eqb (platform (os env)) "linux" = true
            \/ String.eqb (platform (os env)) "darwin" = true ->
            In lookup_warning (derivation_events (os env))))
    /\ fingerprint
       = sha256 (JSString.join "||"
                   (match cpus (os env) with cpu :: _ => [model cpu] | [] => [] end
                    ++ [host; platform (os env); arch (os env)] ++ macs ++ specific)%list)
    /\ String.length fingerprint = 64%nat
    /\ generateHWID env this
       = (Return (JStr fingerprint), set_hwid (JStr fingerprint) this,
          derivation_events (os env))
    /\ In (Probe "os.cpus") (derivation_events (os env))
    /\ (forall env',
          generateHWID env' (set_hwid (JStr fingerprint) this)
          = (Return (JStr fingerprint), set_hwid (JStr fingerprint) this, [])).
Proof.
  intros Hc Hm Hh Hn.
  exists (Array_sort (filter mac_kept (all_macs interfaces))), (specific_id (os env)).
  eexists. split; [reflexivity|].
  split; [apply Array_sort_sorted|]. split; [apply Array_sort_perm|].
  split; [intros m; apply kept_macs_spec|]. split; [reflexivity|].
  split.
  { unfold specific_id.
    destruct (String.eqb (platform (os env)) "win32");
      [destruct (exec (os env) wmic_command) as [out|e];
       [destruct (nth_error (JSString.split newline out) 1)|]
      |destruct (String.eqb (platform (os env)) "linux");
       [destruct (exec (os env) machine_id_command)
       |destruct (String.eqb (platform (os env)) "darwin");
        [destruct (exec (os env) ioreg_command)|]]];
      cbn [List.length]; lia. }
  split.
  { intros Hfail. destruct (specific_id_on_failure (os env) Hfail) as [Hid Hw].
    split; [exact Hid|]. intros Hp. unfold derivation_events.
    apply in_or_app. right. exact (Hw Hp). }
  split; [reflexivity|]. split; [apply sha256_length|].
  split; [exact (generateHWID_fresh env this host interfaces Hc Hm Hh Hn)|].
  split; [left; reflexivity|].
  intros env'. apply (generateHWID_memoized env' (set_hwid (JStr _) this)).
  - exact Hc.
  - apply sha256_truthy.
Qed.

Lemma generateHWID_derives_and_memoizes_witness :
  generateHWID (world offline) test_instance
  = (Return (JStr "0a217f0f539c573c8f98b926bcdce60c159c4487f2f3c4bd21396d0b0749a11c"),
     set_hwid (JStr "0a217f0f539c573c8f98b926bcdce60c159c4487f2f3c4bd21396d0b0749a11c")
              test_instance,
     derivation_events linux_box)
  /\ generateHWID (world (authority KEY_VALID test_secret3))
       (set_hwid (JStr "0a217f0f539c573c8f98b926bcdce60c159c4487f2f3c4bd21396d0b0749a11c")
                 test_instance)
     = (Return (JStr "0a217f0f539c573c8f98b926bcdce60c159c4487f2f3c4bd21396d0b0749a11c"),
        set_hwid (JStr "0a217f0f539c573c8f98b926bcdce60c159c4487f2f3c4bd21396d0b0749a11c")
                 test_instance,
        []).
Proof.
  destruct (generateHWID_derives_and_memoizes (world offline) test_instance "build-host"
              [ ("lo", [ {| mac := "00:00:00:00:00:00" |}; {| mac := "00:00:00:00:00:00" |} ]);
                ("eth0", [ {| mac := "52:54:00:12:34:56" |}; {| mac := "52:54:00:12:34:56" |} ]) ]
              eq_refl eq_refl eq_refl eq_refl)
    as (macs & specific & fingerprint & Hmacs & _ & _ & _ & Hspec & _ & _ & Hfp & _
        & Hgen & _ & Hmemo).
  assert (Hvalue : fingerprint
                   = "0a217f0f539c573c8f98b926bcdce60c159c4487f2f3c4bd21396d0b0749a11c")
    by (rewrite Hfp, Hmacs, Hspec; vm_compute; reflexivity).
  rewrite Hvalue in Hgen, Hmemo. split; [exact Hgen | apply Hmemo].
Defined.

(** C7 as stated fails: on a machine whose interface has two entries
    with one MAC address, the usual case of an IPv4 and an IPv6 entry, the
    code hashes the address twice, so the fingerprint is not the hash of the
    component list built from the set of addresses. *)
Lemma duplicate_mac_is_hashed_twice :
  outcome_of (generateHWID (world offline) test_instance)
  = Return (JStr "0a217f0f539c573c8f98b926bcdce60c159c4487f2f3c4bd21396d0b0749a11c")
  /\ sha256 (JSString.join "||"
               (components_of_set linux_box "build-host"
                  [ ("lo", [ {| mac := "00:00:00:00:00:00" |};
                             {| mac := "00:00:00:00:00:00" |} ]);
                    ("eth0", [ {| mac := "52:54:00:12:34:56" |};
                               {| mac := "52:54:00:12:34:56" |} ]) ]))
     = "1dbc918c1913f0b198bb1c01102ee8197e3b73213c0c55157ce2a6c6532d46db"
  /\ ~ fingerprint_from_sorted_set.
Proof.
  assert (Hcode : outcome_of (generateHWID (world offline) test_instance)
                  = Return (JStr "0a217f0f539c573c8f98b926bcdce60c159c4487f2f3c4bd21396d0b0749a11c"))
    by (vm_compute; reflexivity).
  assert (Hset : sha256 (JSString.join "||"
                   (components_of_set linux_box "build-host"
                      [ ("lo", [ {| mac := "00:00:00:00:00:00" |};
                                 {| mac := "00:00:00:00:00:00" |} ]);
                        ("eth0", [ {| mac := "52:54:00:12:34:56" |};
                                   {| mac := "52:54:00:12:34:56" |} ]) ]))
                 = "1dbc918c1913f0b198bb1c01102ee8197e3b73213c0c55157ce2a6c6532d46db")
    by (vm_compute; reflexivity).
  split; [exact Hcode|]. split; [exact Hset|].
  intros Hall.
  pose proof (Hall (world offline) test_instance "build-host"
                [ ("lo", [ {| mac := "00:00:00:00:00:00" |}; {| mac := "00:00:00:00:00:00" |} ]);
                  ("eth0", [ {| mac := "52:54:00:12:34:56" |};
                             {| mac := "52:54:00:12:34:56" |} ]) ]
                eq_refl eq_refl eq_refl eq_refl) as H.
  change (os (world offline)) with linux_box in H.
  rewrite Hcode, Hset in H. discriminate H.
Qed.

(** * Further properties of the client *)

(** ** [verify]: keys, errors and answers *)

Lemma verify_string_key k env this :
  k <> "" ->
  verify (JStr k) env this =
    match getHWID env this with
    | (Throw e, this1, ev1) => (Throw (wrap_error e), this1, ev1)
    | (Return hwid, this1, ev1) =>
        match fetch env (request_of env this1 (JStr k) hwid) with
        | Throw e =>
            (Throw (wrap_error e), this1,
             (ev1 ++ [Fetch (request_of env this1 (JStr k) hwid)])%list)
        | Return response =>
            after_response env this1
              (ev1 ++ [Fetch (request_of env this1 (JStr k) hwid)])%list response
        end
    end.
Proof.
  intros Hk. rewrite verify_unfold, (nonempty_truthy k Hk). reflexivity.
Qed.

Lemma wrap_error_tagged e : JSString.includes (wrap_error e) "nexveil:" = true.
Proof.
  unfold wrap_error. destruct (JSString.includes e "nexveil:") eqn:E; [exact E|].
  exact (includes_app "nexveil:" (" Verification failed - " ++ e)).
Qed.


(** X1. A key that is empty or no string is refused at once, by
    [verify] and by [verifyOrThrow]: the error is thrown before the
    fingerprint is looked up, nothing is sent and the instance is as
    before. *)
Theorem bad_key_is_refused_before_any_effect key env this :
  JS.truthy key = false \/ JS.is_string key = false ->
  verify key env this
  = (Throw "Nexveil: License key must be a non-empty string", this, [])
  /\ verifyOrThrow key env this
     = (Throw "Nexveil: License key must be a non-empty string", this, []).
Proof.
  intros H.
  assert (Hv : verify key env this
               = (Throw "Nexveil: License key must be a non-empty string", this, [])).
  { rewrite verify_unfold. destruct H as [-> | ->]; rewrite ?orb_true_r; reflexivity. }
  split; [exact Hv|]. rewrite verifyOrThrow_unfold, Hv. reflexivity.
Qed.

Lemma bad_key_is_refused_before_any_effect_witness :
  verify (JStr "") (world offline) test_instance
  = (Throw "Nexveil: License key must be a non-empty string", test_instance, [])
  /\ verifyOrThrow (JBool true) (world offline) test_instance
     = (Throw "Nexveil: License key must be a non-empty string", test_instance, []).
Proof.
  split.
  - apply (bad_key_is_refused_before_any_effect (JStr "") (world offline) test_instance).
    left. reflexivity.
  - apply (bad_key_is_refused_before_any_effect (JBool true) (world offline) test_instance).
    right. reflexivity.
Defined.

(** X2. For a non-empty key, every error of [verify] and of
    [verifyOrThrow] carries the tag [nexveil:] in its message: errors from
    the fingerprint, the transport or the parser are rethrown under the
    prefix of the handler unless they carry the tag already. *)
Theorem errors_of_verify_are_tagged k env this message :
  k <> "" ->
  (outcome_of (verify (JStr k) env this) = Throw message ->
   JSString.includes message "nexveil:" = true)
  /\ (outcome_of (verifyOrThrow (JStr k) env this) = Throw message ->
      JSString.includes message "nexveil:" = true).
Proof.
  intros Hk.
  assert (Hv : forall m, outcome_of (verify (JStr k) env this) = Throw m ->
                         JSString.includes m "nexveil:" = true).
  { intros m. rewrite (verify_string_key k env this Hk). unfold outcome_of.
    destruct (getHWID env this) as [[[hwid|e] this1] ev1]; cbn [fst].
    2:{ intros H. injection H as <-. apply wrap_error_tagged. }
    destruct (fetch env (request_of env this1 (JStr k) hwid)) as [response|e]; cbn [fst].
    2:{ intros H. injection H as <-. apply wrap_error_tagged. }
    unfold after_response.
    destruct (negb (ok response) && (status response >=? 500)); cbn [fst].
    { intros H. injection H as <-. apply server_error_tagged. }
    destruct (json response) as [[data|]|e]; cbn [fst].
    - destruct (JS.truthy (Response.signature data)
                && negb (JS.strict_eq (Response.signature data)
                           (JStr (expected_signature env this1 data)))); cbn [fst].
      + intros H. injection H as <-. exact signature_error_tagged.
      + destruct (Result.isValid (classify env data)); cbn [fst]; discriminate.
    - intros H. injection H as <-. apply wrap_error_tagged.
    - intros H. injection H as <-. apply wrap_error_tagged. }
  split; [apply Hv|].
  rewrite verifyOrThrow_unfold. unfold outcome_of in *.
  destruct (verify (JStr k) env this) as [[[r|e] this'] ev]; cbn [fst] in *.
  - destruct (Result.success r); cbn [fst]; [discriminate|].
    intros H. injection H as <-.
    exact (includes_app "nexveil:"
             (" " ++ JS.ToString (Result.code r) ++ " - " ++ JS.ToString (Result.message r))).
  - apply Hv.
Qed.

Lemma errors_of_verify_are_tagged_witness :
  exists message,
    outcome_of (verify (JStr "ABC") (world offline) test_instance) = Throw message
    /\ JSString.includes message "nexveil:" = true.
Proof.
  exists "nexveil: Verification failed - fetch failed".
  assert (H : outcome_of (verify (JStr "ABC") (world offline) test_instance)
              = Throw "nexveil: Verification failed - fetch failed")
    by (vm_compute; reflexivity).
  split; [exact H|].
  apply (errors_of_verify_are_tagged "ABC" (world offline) test_instance);
    [discriminate | exact H].
Defined.

(** X3. When the fingerprint cannot be had, [verify] sends no request:
    the error of [getHWID] is the error of the call, under the prefix of the
    handler.  With automatic generation off and no custom value the message
    is the HWID-not-set text after the prefix, and nothing at all happens
    outside. *)
Theorem verify_sends_nothing_without_fingerprint k env this :
  k <> "" ->
  (forall e this1 ev1,
     getHWID env this = (Throw e, this1, ev1) ->
     verify (JStr k) env this
     = (Throw (if JSString.includes e "nexveil:" then e
               else "nexveil: Verification failed - " ++ e), this1, ev1)
     /\ forall request, ~ In (Fetch request) ev1)
  /\ (autoHWID this = false ->
      JS.truthy (customHWID this) = false ->
      verify (JStr k) env this
      = (Throw ("nexveil: Verification failed - "
                ++ "Nexveil: HWID not set. Enable autoHWID or provide customHWID"),
         this, [])).
Proof.
  intros Hk. split.
  - intros e this1 ev1 Hg. split.
    + rewrite (verify_string_key k env this Hk), Hg. reflexivity.
    + intros request. apply no_fetch_in.
      pose proof (getHWID_no_fetch env this) as Hn. unfold events_of in Hn.
      rewrite Hg in Hn. exact Hn.
  - intros Ha Hc. rewrite (verify_string_key k env this Hk).
    unfold getHWID. run_method. rewrite Ha, Hc. reflexivity.
Qed.

Lemma verify_sends_nothing_without_fingerprint_witness :
  verify (JStr "ABC") (world (authority KEY_VALID test_secret3)) manual_instance
  = (Throw ("nexveil: Verification failed - "
            ++ "Nexveil: HWID not set. Enable autoHWID or provide customHWID"),
     manual_instance, []).
Proof.
  destruct (verify_sends_nothing_without_fingerprint "ABC"
              (world (authority KEY_VALID test_secret3)) manual_instance)
    as (_ & H); [discriminate|].
  apply H; reflexivity.
Defined.

(** X4. An answer that is not [ok] and has a status of 500 or more ends
    the call with the server error that shows the status.  The body is not
    read: whatever it holds, a signed KEY_VALID included, no result is built
    and the cache is as before the call.  The request went out once. *)
Theorem server_error_discards_the_body k env this hwid this1 ev1 response :
  k <> "" ->
  getHWID env this = (Return hwid, this1, ev1) ->
  fetch env (request_of env this1 (JStr k) hwid) = Return response ->
  ok response = false ->
  500 <= status response ->
  verify (JStr k) env this
  = (Throw ("nexveil: Server error (" ++ JSString.Number_toString (status response) ++ ")"),
     this1, (ev1 ++ [Fetch (request_of env this1 (JStr k) hwid)])%list)
  /\ _lastVerification this1 = _lastVerification this.
Proof.
  intros Hk Hg Hf Hok Hst. split.
  - rewrite (verify_string_key k env this Hk), Hg, Hf. unfold after_response.
    rewrite Hok. cbn [negb andb].
    assert (Hge : (status response >=? 500) = true)
      by (rewrite Z.geb_leb; apply Z.leb_le; exact Hst).
    rewrite Hge. reflexivity.
  - pose proof (getHWID_keeps_cache env this) as Hc. rewrite Hg in Hc. exact Hc.
Qed.

Lemma server_error_discards_the_body_witness :
  outcome_of (verify (JStr "ABC") (world (answers false 503 unsigned_valid)) test_instance)
  = Throw "nexveil: Server error (503)".
Proof.
  assert (Hg : exists this1 ev1,
             getHWID (world (answers false 503 unsigned_valid)) test_instance
             = (Return (JStr "0a217f0f539c573c8f98b926bcdce60c159c4487f2f3c4bd21396d0b0749a11c"),
                this1, ev1)).
  { eexists. eexists. vm_compute. reflexivity. }
  destruct Hg as (this1 & ev1 & Hg).
  destruct (server_error_discards_the_body "ABC" (world (answers false 503 unsigned_valid))
              test_instance _ this1 ev1
              {| ok := false; status := 503; json := Return (Some unsigned_valid) |}
              ltac:(discriminate) Hg eq_refl eq_refl ltac:(cbn; lia)) as [Hv _].
  rewrite Hv. reflexivity.
Defined.

(** X5. Once the request is out, [verify] returns a result exactly when
    the answer passes the status test (it is [ok], or its status is below
    500), its body is a JSON value other than [null], and the signature of
    the body is either falsy or equal to the expected hash.  The status
    plays no other part: a 4xx answer is classified like a 200. *)
Theorem verify_returns_exactly_when k env this hwid this1 ev1 response :
  k <> "" ->
  getHWID env this = (Return hwid, this1, ev1) ->
  fetch env (request_of env this1 (JStr k) hwid) = Return response ->
  ((exists r, outcome_of (verify (JStr k) env this) = Return r)
   <-> (ok response = true \/ status response < 500)
       /\ exists data,
            json response = Return (Some data)
            /\ (JS.truthy (Response.signature data) = false
                \/ Response.signature data
                   = JStr (sha256 (nonce_of env ++ JS.ToString (secret3 this)
                                   ++ JS.ToString (Response.code data))))).
Proof.
  intros Hk Hg Hf.
  destruct (getHWID_keeps_secrets env this) as (_ & _ & Hs3).
  rewrite Hg in Hs3. unfold state_after in Hs3. cbn [fst snd] in Hs3.
  rewrite (verify_string_key k env this Hk), Hg, Hf.
  unfold after_response, outcome_of, expected_signature. rewrite Hs3.
  destruct (ok response) eqn:Hok; cbn [negb andb].
  - destruct (json response) as [[data|]|e]; cbn [fst].
    + destruct (JS.truthy (Response.signature data)) eqn:Ht; cbn [andb].
      * destruct (JS.strict_eq (Response.signature data) _) eqn:Es; cbn [negb fst].
        -- apply strict_eq_true in Es. split.
           ++ intros _. split; [left; reflexivity|]. exists data. split; [reflexivity|].
              right. exact Es.
           ++ intros _. destruct (Result.isValid (classify env data)); eexists; reflexivity.
        -- apply strict_eq_false in Es. split.
           ++ intros [r Hr]. discriminate Hr.
           ++ intros (_ & d & Hd & [Hfalse | Heq]).
              ** injection Hd as <-. congruence.
              ** injection Hd as <-. contradiction.
      * split.
        -- intros _. split; [left; reflexivity|]. exists data. split; [reflexivity|].
           left. exact Ht.
        -- intros _. destruct (Result.isValid (classify env data)); eexists; reflexivity.
    + split; [intros [r Hr]; discriminate Hr | intros (_ & d & Hd & _); discriminate Hd].
    + split; [intros [r Hr]; discriminate Hr | intros (_ & d & Hd & _); discriminate Hd].
  - destruct (status response >=? 500) eqn:Hge; cbn [fst].
    + split; [intros [r Hr]; discriminate Hr|].
      intros ([Habs | Hlt] & _); [discriminate Habs|].
      rewrite Z.geb_leb in Hge. apply Z.leb_le in Hge. lia.
    + assert (Hlt : status response < 500)
        by (rewrite Z.geb_leb in Hge; apply Z.leb_gt in Hge; exact Hge).
      destruct (json response) as [[data|]|e]; cbn [fst].
      * destruct (JS.truthy (Response.signature data)) eqn:Ht; cbn [andb].
        -- destruct (JS.strict_eq (Response.signature data) _) eqn:Es; cbn [negb fst].
           ++ apply strict_eq_true in Es. split.
              ** intros _. split; [right; exact Hlt|]. exists data. split; [reflexivity|].
                 right. exact Es.
              ** intros _. destruct (Result.isValid (classify env data)); eexists; reflexivity.
           ++ apply strict_eq_false in Es. split.
              ** intros [r Hr]. discriminate Hr.
              ** intros (_ & d & Hd & [Hfalse | Heq]).
                 --- injection Hd as <-. congruence.
                 --- injection Hd as <-. contradiction.
        -- split.
           ++ intros _. split; [right; exact Hlt|]. exists data. split; [reflexivity|].
              left. exact Ht.
           ++ intros _. destruct (Result.isValid (classify env data)); eexists; reflexivity.
      * split; [intros [r Hr]; discriminate Hr | intros (_ & d & Hd & _); discriminate Hd].
      * split; [intros [r Hr]; discriminate Hr | intros (_ & d & Hd & _); discriminate Hd].
Qed.

Lemma linux_box_fingerprint :
  sha256 (JSString.join "||" (components linux_box "build-host" linux_interfaces))
  = "0a217f0f539c573c8f98b926bcdce60c159c4487f2f3c4bd21396d0b0749a11c".
Proof. vm_compute. reflexivity. Qed.

Lemma test_fingerprint transport :
  getHWID (world transport) test_instance
  = (Return (JStr "0a217f0f539c573c8f98b926bcdce60c159c4487f2f3c4bd21396d0b0749a11c"),
     set_hwid (JStr "0a217f0f539c573c8f98b926bcdce60c159c4487f2f3c4bd21396d0b0749a11c")
              test_instance,
     derivation_events linux_box).
Proof.
  rewrite (getHWID_auto (world transport) test_instance eq_refl).
  rewrite (generateHWID_fresh (world transport) test_instance "build-host" linux_interfaces
             eq_refl eq_refl eq_refl eq_refl).
  change (os (world transport)) with linux_box.
  rewrite linux_box_fingerprint. reflexivity.
Qed.

Lemma verify_returns_exactly_when_witness :
  exists r,
    outcome_of (verify (JStr "ABC") (world (answers false 404 expired_body)) test_instance)
    = Return r.
Proof.
  apply (verify_returns_exactly_when "ABC" (world (answers false 404 expired_body))
           test_instance _ _ _
           {| ok := false; status := 404; json := Return (Some expired_body) |}
           ltac:(discriminate) (test_fingerprint _) eq_refl).
  split.
  - right. cbn. lia.
  - exists expired_body. split; [reflexivity|]. left. reflexivity.
Defined.

(** X6. A body without a truthy signature is taken at its word: when it
    reports KEY_VALID or KEY_ACTIVATED, [verify] returns a successful result
    with a [null] signature and stores it in the cache. *)
Theorem unsigned_answer_is_trusted k env this hwid this1 ev1 response data :
  k <> "" ->
  getHWID env this = (Return hwid, this1, ev1) ->
  fetch env (request_of env this1 (JStr k) hwid) = Return response ->
  ok response = true \/ status response < 500 ->
  json response = Return (Some data) ->
  JS.truthy (Response.signature data) = false ->
  Response.code data = KEY_VALID \/ Response.code data = KEY_ACTIVATED ->
  exists r,
    verify (JStr k) env this
    = (Return r, set_lastVerification (Some r) this1,
       (ev1 ++ [Fetch (request_of env this1 (JStr k) hwid)])%list)
    /\ Result.success r = true
    /\ Result.code r = Response.code data
    /\ Result.signature r = JNull.
Proof.
  intros Hk Hg Hf Hok Hj Ht Hcode.
  rewrite (verify_string_key k env this Hk), Hg, Hf. unfold after_response.
  assert (Hcheck : negb (ok response) && (status response >=? 500) = false).
  { destruct Hok as [-> | Hlt]; [reflexivity|].
    apply andb_false_iff. right. rewrite Z.geb_leb. apply Z.leb_gt. exact Hlt. }
  rewrite Hcheck, Hj, Ht. cbn [andb].
  assert (Hv : Result.isValid (classify env data) = true).
  { cbn [classify Result.isValid]. destruct Hcode as [-> | ->]; reflexivity. }
  rewrite Hv. eexists. split; [reflexivity|]. split; [reflexivity|].
  cbn [Result.set_success Result.code Result.signature classify]. unfold JS.or. rewrite Ht.
  split; [|reflexivity]. destruct Hcode as [-> | ->]; reflexivity.
Qed.

Lemma unsigned_answer_is_trusted_witness :
  exists r,
    verify (JStr "ABC") (world (answers true 200 unsigned_valid)) test_instance
    = (Return r,
       set_lastVerification (Some r)
         (set_hwid (JStr "0a217f0f539c573c8f98b926bcdce60c159c4487f2f3c4bd21396d0b0749a11c")
                   test_instance),
       (derivation_events linux_box
        ++ [Fetch (request_of (world (answers true 200 unsigned_valid))
                     (set_hwid
                        (JStr "0a217f0f539c573c8f98b926bcdce60c159c4487f2f3c4bd21396d0b0749a11c")
                        test_instance)
                     (JStr "ABC")
                     (JStr "0a217f0f539c573c8f98b926bcdce60c159c4487f2f3c4bd21396d0b0749a11c"))])%list)
    /\ Result.success r = true
    /\ Result.code r = KEY_VALID
    /\ Result.signature r = JNull.
Proof.
  exact (unsigned_answer_is_trusted "ABC" (world (answers true 200 unsigned_valid))
           test_instance _ _ _
           {| ok := true; status := 200; json := Return (Some unsigned_valid) |}
           unsigned_valid
           ltac:(discriminate) (test_fingerprint _) eq_refl (or_introl eq_refl) eq_refl eq_refl
           (or_introl eq_refl)).
Defined.

(** X7. What the body leaves out is filled in: a result returned by
    [verify] has the code UNKNOWN_ERROR when the body has no truthy code, the
    message [Unknown error occurred] when it has no truthy message, and a
    [null] signature when it has no truthy one; such a result without code
    is never successful.  [verifyOrThrow] then throws with these defaults in
    its message. *)
Theorem absent_fields_get_defaults key env this r this' ev :
  verify key env this = (Return r, this', ev) ->
  exists hwid this1 ev1 response data,
    getHWID env this = (Return hwid, this1, ev1)
    /\ fetch env (request_of env this1 key hwid) = Return response
    /\ json response = Return (Some data)
    /\ (JS.truthy (Response.code data) = false ->
        Result.code r = JStr "UNKNOWN_ERROR" /\ Result.success r = false)
    /\ (JS.truthy (Response.code data) = true -> Result.code r = Response.code data)
    /\ (JS.truthy (Response.message data) = false ->
        Result.message r = JStr "Unknown error occurred")
    /\ (JS.truthy (Response.message data) = true ->
        Result.message r = Response.message data)
    /\ (JS.truthy (Response.signature data) = false -> Result.signature r = JNull)
    /\ Result.data r = Response.data data
    /\ Result.timestamp r = toISOString env
    /\ (JS.truthy (Response.code data) = false ->
        JS.truthy (Response.message data) = false ->
        outcome_of (verifyOrThrow key env this)
        = Throw "nexveil: UNKNOWN_ERROR - Unknown error occurred").
Proof.
  intros Hv.
  destruct (verify_returns key env this r this' ev Hv)
    as (hwid & this1 & ev1 & response & data & Hg & Hf & Hj & _ & _ & Hr).
  exists hwid, this1, ev1, response, data. do 3 (split; [assumption|]).
  assert (Hfields : Result.code r = JS.or (Response.code data) (JStr "UNKNOWN_ERROR")
            /\ Result.message r
               = JS.or (Response.message data) (JStr "Unknown error occurred")
            /\ Result.signature r = JS.or (Response.signature data) JNull
            /\ Result.data r = Response.data data
            /\ Result.timestamp r = toISOString env
            /\ Result.success r
               = JS.strict_eq (Response.code data) KEY_VALID
                 || JS.strict_eq (Response.code data) KEY_ACTIVATED).
  { destruct Hr as [(Hval & -> & _) | (Hval & -> & _)];
      cbn [classify Result.isValid] in Hval; repeat split; try reflexivity.
    - cbn [Result.set_success Result.success]. symmetry. exact Hval.
    - cbn [classify Result.success]. symmetry. exact Hval. }
  destruct Hfields as (Hc & Hm & Hs & Hd & Ht & Hsucc).
  assert (Hno : JS.truthy (Response.code data) = false -> Result.success r = false).
  { intros Hfalse. rewrite Hsucc.
    destruct (Response.code data) as [| |[|]|[|c s]]; try reflexivity; discriminate Hfalse. }
  split.
  { intros Hfalse. split; [|exact (Hno Hfalse)]. rewrite Hc. unfold JS.or.
    rewrite Hfalse. reflexivity. }
  split; [intros Htrue; rewrite Hc; unfold JS.or; rewrite Htrue; reflexivity|].
  split; [intros Hfalse; rewrite Hm; unfold JS.or; rewrite Hfalse; reflexivity|].
  split; [intros Htrue; rewrite Hm; unfold JS.or; rewrite Htrue; reflexivity|].
  split; [intros Hfalse; rewrite Hs; unfold JS.or; rewrite Hfalse; reflexivity|].
  split; [exact Hd|]. split; [exact Ht|].
  intros Hcf Hmf. rewrite verifyOrThrow_unfold, Hv. rewrite (Hno Hcf).
  unfold outcome_of. cbn [fst]. rewrite Hc, Hm. unfold JS.or. rewrite Hcf, Hmf. reflexivity.
Qed.

Lemma absent_fields_get_defaults_witness :
  outcome_of (verifyOrThrow (JStr "ABC") (world (answers true 200 empty_body)) test_instance)
  = Throw "nexveil: UNKNOWN_ERROR - Unknown error occurred".
Proof.
  pose proof (result_eta (verify (JStr "ABC") (world (answers true 200 empty_body))
                                 test_instance)) as Hrun.
  assert (Hret : match outcome_of (verify (JStr "ABC") (world (answers true 200 empty_body))
                                          test_instance)
                 with Return _ => True | Throw _ => False end)
    by (vm_compute; exact I).
  destruct (outcome_of (verify (JStr "ABC") (world (answers true 200 empty_body))
                               test_instance)) as [r|e]; [|contradiction].
  destruct (absent_fields_get_defaults _ _ _ _ _ _ Hrun)
    as (hwid & this1 & ev1 & response & data & Hg & Hf & Hj & _ & _ & _ & _ & _ & _ & _ & Hthrow).
  rewrite (test_fingerprint _) in Hg. injection Hg as <- <- <-.
  cbn in Hf. injection Hf as <-. cbn in Hj. injection Hj as <-.
  apply Hthrow; reflexivity.
Defined.


(** ** The fingerprint across calls *)

Lemma verify_state {B : Type} (f : NexveilAuth -> B) k env this :
  (forall v this, f (set_lastVerification v this) = f this) ->
  k <> "" ->
  f (state_after (verify (JStr k) env this)) = f (state_after (getHWID env this)).
Proof.
  intros Hf Hk. rewrite (verify_string_key k env this Hk). unfold state_after.
  destruct (getHWID env this) as [[[hwid|e] this1] ev1]; cbn [fst snd]; [|reflexivity].
  destruct (fetch env (request_of env this1 (JStr k) hwid)) as [response|e];
    [|reflexivity].
  unfold after_response.
  destruct (negb (ok response) && (status response >=? 500)); [reflexivity|].
  destruct (json response) as [[data|]|e]; try reflexivity.
  destruct (JS.truthy (Response.signature data)
            && negb (JS.strict_eq (Response.signature data)
                       (JStr (expected_signature env this1 data)))); [reflexivity|].
  destruct (Result.isValid (classify env data)); cbn [fst snd]; [apply Hf | reflexivity].
Qed.

(** X9. With a custom fingerprint set, a [verify] call touches the
    outside only through its one request: no probe of the system, no
    command, no warning.  The request carries the custom value itself as
    [clienthwid], and the signature is taken over that value. *)
Theorem custom_fingerprint_is_sent_unprobed k env this :
  k <> "" ->
  JS.truthy (customHWID this) = true ->
  exists request,
    events_of (verify (JStr k) env this) = [Fetch request]
    /\ header "clienthwid" (headers request) = customHWID this
    /\ header "externalsignature" (headers request)
       = JStr (sha256 (nonce_of env ++ JS.ToString (secret1 this) ++ k
                       ++ JS.ToString (secret2 this)
                       ++ JSString.Number_toString (Date_now env)
                       ++ JS.ToString (secret3 this)
                       ++ JS.ToString (customHWID this))).
Proof.
  intros Hk Hc. exists (request_of env this (JStr k) (customHWID this)).
  split; [|split; reflexivity].
  rewrite (verify_sends_one k env this (customHWID this) Hk);
    rewrite (getHWID_custom env this Hc); reflexivity.
Qed.

Lemma custom_fingerprint_is_sent_unprobed_witness :
  exists request,
    events_of (verify (JStr "ABC") (world offline)
                 (set_customHWID (JStr "my-custom-hwid") test_instance))
    = [Fetch request]
    /\ header "clienthwid" (headers request) = JStr "my-custom-hwid".
Proof.
  destruct (custom_fingerprint_is_sent_unprobed "ABC" (world offline)
              (set_customHWID (JStr "my-custom-hwid") test_instance)
              ltac:(discriminate) eq_refl) as (request & Hev & Hh & _).
  exists request. split; [exact Hev | exact Hh].
Defined.

(** X10. The fingerprint derived during one [verify] call is kept for
    the next, however the first call ended: the later call probes nothing and
    sends the fingerprint of the earlier derivation, also when the machine
    reports other values by then. *)
Theorem later_verify_reuses_fingerprint k1 k2 env1 env2 this host interfaces :
  k1 <> "" -> k2 <> "" ->
  autoHWID this = true ->
  JS.truthy (customHWID this) = false ->
  JS.truthy (_hwid this) = false ->
  hostname (os env1) = Return host ->
  networkInterfaces (os env1) = Return interfaces ->
  exists request,
    events_of (verify (JStr k2) env2 (state_after (verify (JStr k1) env1 this)))
    = [Fetch request]
    /\ header "clienthwid" (headers request)
       = JStr (sha256 (JSString.join "||" (components (os env1) host interfaces))).
Proof.
  intros Hk1 Hk2 Ha Hc Hm Hh Hi.
  set (fp := sha256 (JSString.join "||" (components (os env1) host interfaces))).
  set (this1 := state_after (verify (JStr k1) env1 this)).
  assert (Hg1 : getHWID env1 this = (Return (JStr fp), set_hwid (JStr fp) this,
                                     derivation_events (os env1))).
  { rewrite (getHWID_auto env1 this Ha).
    exact (generateHWID_fresh env1 this host interfaces Hc Hm Hh Hi). }
  assert (Hh1 : _hwid this1 = JStr fp).
  { unfold this1. rewrite (verify_state _hwid k1 env1 this) by auto.
    rewrite Hg1. reflexivity. }
  assert (Hc1 : customHWID this1 = customHWID this).
  { apply (verify_preserves customHWID); auto. }
  assert (Ha1 : autoHWID this1 = true).
  { unfold this1. rewrite <- Ha. apply (verify_preserves autoHWID); auto. }
  assert (Hg2 : getHWID env2 this1 = (Return (JStr fp), this1, [])).
  { rewrite (getHWID_auto env2 this1 Ha1).
    rewrite (generateHWID_memoized env2 this1).
    - rewrite Hh1. reflexivity.
    - rewrite Hc1. exact Hc.
    - rewrite Hh1. apply sha256_truthy. }
  exists (request_of env2 this1 (JStr k2) (JStr fp)). split; [|reflexivity].
  rewrite (verify_sends_one k2 env2 this1 (JStr fp) Hk2); rewrite Hg2; reflexivity.
Qed.

Lemma later_verify_reuses_fingerprint_witness :
  exists request,
    events_of (verify (JStr "DEF") (on_machine nameless_box)
                 (state_after (verify (JStr "ABC") (world offline) test_instance)))
    = [Fetch request]
    /\ header "clienthwid" (headers request)
       = JStr "0a217f0f539c573c8f98b926bcdce60c159c4487f2f3c4bd21396d0b0749a11c".
Proof.
  destruct (later_verify_reuses_fingerprint "ABC" "DEF" (world offline)
              (on_machine nameless_box) test_instance "build-host"
              [ ("lo", [ {| mac := "00:00:00:00:00:00" |}; {| mac := "00:00:00:00:00:00" |} ]);
                ("eth0", [ {| mac := "52:54:00:12:34:56" |}; {| mac := "52:54:00:12:34:56" |} ]) ]
              ltac:(discriminate) ltac:(discriminate) eq_refl eq_refl eq_refl eq_refl eq_refl)
    as (request & Hev & Hh).
  exists request. split; [exact Hev|]. rewrite Hh.
  change (os (world offline)) with linux_box.
  exact (f_equal JStr linux_box_fingerprint).
Defined.

(** ** [setHWID] *)

Lemma setHWID_cases hwid env this :
  (exists x, hwid = JStr x /\ x <> ""
             /\ setHWID hwid env this
                = (Return tt, set_hwid hwid (set_customHWID hwid this), []))
  \/ ((JS.truthy hwid = false \/ JS.is_string hwid = false)
      /\ setHWID hwid env this
         = (Throw "Nexveil: HWID must be a non-empty string", this, [])).
Proof.
  destruct hwid as [| |b|[|c s]].
  - right. split; [left; reflexivity | reflexivity].
  - right. split; [left; reflexivity | reflexivity].
  - right. split; [right; reflexivity|]. unfold setHWID. cbn [JS.is_string negb].
    rewrite orb_true_r. reflexivity.
  - right. split; [left; reflexivity | reflexivity].
  - left. exists (String c s). split; [reflexivity|]. split; [discriminate | reflexivity].
Qed.



Lemma perform_keeps_custom c env this :
  JS.truthy (customHWID this) = true ->
  JS.truthy (customHWID (perform c env this)) = true.
Proof.
  intros H. destruct (is_setHWID c) eqn:Hc.
  - destruct c; try discriminate Hc. cbn [perform].
    destruct (setHWID_cases hwid env this) as [(x & -> & Hx & Hs) | (_ & Hs)];
      rewrite Hs; unfold state_after; cbn [fst snd].
    + cbn [set_hwid set_customHWID customHWID]. apply nonempty_truthy. exact Hx.
    + exact H.
  - rewrite (perform_keeps customHWID c env this) by (auto || exact Hc). exact H.
Qed.

(** X12. A custom fingerprint cannot be taken back: once one is set,
    whatever methods are called afterwards, [setHWID] included, the instance
    still has one, and [getHWID] returns it without deriving anything. *)
Theorem custom_fingerprint_is_never_unset calls this env :
  JS.truthy (customHWID this) = true ->
  JS.truthy (customHWID (run calls this)) = true
  /\ getHWID env (run calls this)
     = (Return (customHWID (run calls this)), run calls this, [])
  /\ generateHWID env (run calls this)
     = (Return (customHWID (run calls this)), run calls this, []).
Proof.
  intros H.
  assert (Hrun : JS.truthy (customHWID (run calls this)) = true).
  { revert this H. induction calls as [|[c e] calls IH]; intros this H; cbn [run].
    - exact H.
    - apply IH. apply perform_keeps_custom. exact H. }
  split; [exact Hrun|]. split.
  - apply getHWID_custom. exact Hrun.
  - apply generateHWID_custom. exact Hrun.
Qed.

Lemma custom_fingerprint_is_never_unset_witness :
  getHWID (world offline)
    (run [(call_setHWID (JStr ""), world offline);
          (call_verify (JStr "ABC"), world offline);
          (call_setHWID (JStr "second"), world offline);
          (call_clearCache, world offline)]
         (set_customHWID (JStr "first") test_instance))
  = (Return (JStr "second"),
     run [(call_setHWID (JStr ""), world offline);
          (call_verify (JStr "ABC"), world offline);
          (call_setHWID (JStr "second"), world offline);
          (call_clearCache, world offline)]
         (set_customHWID (JStr "first") test_instance),
     []).
Proof.
  destruct (custom_fingerprint_is_never_unset
              [(call_setHWID (JStr ""), world offline);
               (call_verify (JStr "ABC"), world offline);
               (call_setHWID (JStr "second"), world offline);
               (call_clearCache, world offline)]
              (set_customHWID (JStr "first") test_instance) (world offline) eq_refl)
    as (_ & Hget & _).
  rewrite Hget.
  assert (Hc : customHWID
                 (run [(call_setHWID (JStr ""), world offline);
                       (call_verify (JStr "ABC"), world offline);
                       (call_setHWID (JStr "second"), world offline);
                       (call_clearCache, world offline)]
                      (set_customHWID (JStr "first") test_instance))
               = JStr "second")
    by (vm_compute; reflexivity).
  rewrite Hc. reflexivity.
Defined.
(** ** The derivation: failures and the order of the interfaces *)

Lemma generateHWID_failure env this e :
  JS.truthy (customHWID this) = false ->
  JS.truthy (_hwid this) = false ->
  hostname (os env) = Throw e
  \/ (exists host, hostname (os env) = Return host /\ networkInterfaces (os env) = Throw e) ->
  exists ev,
    generateHWID env this = (Throw ("Nexveil: Failed to generate HWID: " ++ e), this, ev)
    /\ (forall command, ~ In (Exec command) ev)
    /\ (forall text, ~ In (Warn text) ev).
Proof.
  intros Hc Hm Hfail. unfold generateHWID. run_method. rewrite Hc, Hm. run_method.
  destruct Hfail as [Hh | (host & Hh & Hi)].
  - rewrite Hh. run_method. cbn [app]. eexists. split; [reflexivity|].
    split; intros x Hin; cbn in Hin;
      repeat (destruct Hin as [Hin|Hin]; [discriminate Hin|]); exact Hin.
  - rewrite Hh. run_method. rewrite Hi. run_method. cbn [app]. eexists.
    split; [reflexivity|].
    split; intros x Hin; cbn in Hin;
      repeat (destruct Hin as [Hin|Hin]; [discriminate Hin|]); exact Hin.
Qed.

(** X13. When the host name or the interfaces cannot be read,
    [generateHWID] throws the failed-to-generate error with the message of
    the cause; it runs no command, logs no warning, and memoizes nothing: the
    instance is as before, so a later call on a machine that answers derives
    the fingerprint in full. *)
Theorem failed_derivation_is_not_memoized env this e :
  JS.truthy (customHWID this) = false ->
  JS.truthy (_hwid this) = false ->
  hostname (os env) = Throw e
  \/ (exists host, hostname (os env) = Return host /\ networkInterfaces (os env) = Throw e) ->
  (exists ev,
     generateHWID env this = (Throw ("Nexveil: Failed to generate HWID: " ++ e), this, ev)
     /\ (forall command, ~ In (Exec command) ev)
     /\ (forall text, ~ In (Warn text) ev))
  /\ (forall env' host interfaces,
        hostname (os env') = Return host ->
        networkInterfaces (os env') = Return interfaces ->
        generateHWID env' (state_after (generateHWID env this))
        = (Return (JStr (sha256 (JSString.join "||" (components (os env') host interfaces)))),
           set_hwid (JStr (sha256 (JSString.join "||"
                                     (components (os env') host interfaces)))) this,
           derivation_events (os env'))).
Proof.
  intros Hc Hm Hfail.
  destruct (generateHWID_failure env this e Hc Hm Hfail) as (ev & Hg & Hx & Hw).
  split.
  - exists ev. auto.
  - intros env' host interfaces Hh Hi. rewrite Hg. unfold state_after. cbn [fst snd].
    exact (generateHWID_fresh env' this host interfaces Hc Hm Hh Hi).
Qed.

Lemma failed_derivation_is_not_memoized_witness :
  outcome_of (generateHWID (on_machine nameless_box) test_instance)
  = Throw ("Nexveil: Failed to generate HWID: "
           ++ "A system error occurred: uv_os_gethostname returned ENOSYS")
  /\ outcome_of (generateHWID (world offline)
                   (state_after (generateHWID (on_machine nameless_box) test_instance)))
     = Return (JStr "0a217f0f539c573c8f98b926bcdce60c159c4487f2f3c4bd21396d0b0749a11c").
Proof.
  destruct (failed_derivation_is_not_memoized (on_machine nameless_box) test_instance
              "A system error occurred: uv_os_gethostname returned ENOSYS"
              eq_refl eq_refl (or_introl eq_refl)) as ((ev & Hg & _) & Hlater).
  split.
  - rewrite Hg. reflexivity.
  - rewrite (Hlater (world offline) "build-host" linux_interfaces eq_refl eq_refl).
    unfold outcome_of. cbn [fst]. change (os (world offline)) with linux_box.
    rewrite linux_box_fingerprint. reflexivity.
Defined.

Lemma string_le_cases a b :
  string_le a b <-> a = b \/ OrderedTypeEx.String_as_OT.lt a b.
Proof.
  unfold string_le, String.leb.
  pose proof (OrderedTypeEx.String_as_OT.cmp_eq a b) as He.
  pose proof (OrderedTypeEx.String_as_OT.cmp_lt a b) as Hl.
  unfold OrderedTypeEx.String_as_OT.cmp in He, Hl.
  destruct (String.compare a b) eqn:E.
  - split; [intros _; left; apply He; reflexivity | reflexivity].
  - split; [intros _; right; apply Hl; reflexivity | reflexivity].
  - split; [discriminate|]. intros [H | H].
    + apply He in H. discriminate H.
    + apply Hl in H. discriminate H.
Qed.

Lemma string_le_trans a b c : string_le a b -> string_le b c -> string_le a c.
Proof.
  rewrite !string_le_cases. intros [-> | Hab] [-> | Hbc]; auto.
  right. exact (OrderedTypeEx.String_as_OT.lt_trans _ _ _ Hab Hbc).
Qed.

Lemma string_le_antisym a b : string_le a b -> string_le b a -> a = b.
Proof. apply String.leb_antisym. Qed.

Lemma sorted_permutations_agree l1 l2 :
  StronglySorted string_le l1 -> StronglySorted string_le l2 ->
  Permutation l1 l2 -> l1 = l2.
Proof.
  intros H1. revert l2. induction H1 as [|x l1 Hs1 IH Hx]; intros l2 H2 Hp.
  - apply Permutation_nil in Hp. congruence.
  - destruct H2 as [|y l2 Hs2 Hy].
    + apply Permutation_sym, Permutation_nil in Hp. discriminate Hp.
    + assert (Hxy : x = y).
      { assert (Hin1 : In x (y :: l2)) by (apply (Permutation_in _ Hp); left; reflexivity).
        assert (Hin2 : In y (x :: l1))
          by (apply (Permutation_in _ (Permutation_sym Hp)); left; reflexivity).
        destruct Hin1 as [E | Hin1]; [congruence|].
        destruct Hin2 as [E | Hin2]; [congruence|].
        rewrite Forall_forall in Hx, Hy.
        apply string_le_antisym; [apply Hx; exact Hin2 | apply Hy; exact Hin1]. }
      subst y. f_equal. apply IH; [exact Hs2|].
      exact (Permutation_cons_inv Hp).
Qed.

Lemma Array_sort_strongly_sorted l : StronglySorted string_le (Array_sort l).
Proof.
  apply Sorted_StronglySorted.
  - intros a b c. apply string_le_trans.
  - apply Array_sort_sorted.
Qed.

Lemma Array_sort_of_permutation l1 l2 :
  Permutation l1 l2 -> Array_sort l1 = Array_sort l2.
Proof.
  intros Hp. apply sorted_permutations_agree; try apply Array_sort_strongly_sorted.
  apply perm_trans with l1; [apply Array_sort_perm|].
  apply perm_trans with l2; [exact Hp | apply Permutation_sym, Array_sort_perm].
Qed.

Lemma filter_of_permutation {A : Type} (f : A -> bool) l1 l2 :
  Permutation l1 l2 -> Permutation (filter f l1) (filter f l2).
Proof.
  induction 1 as [|x l1 l2 Hp IH|x y l|l1 l2 l3 H12 IH12 H23 IH23]; cbn [filter].
  - apply perm_nil.
  - destruct (f x); [apply perm_skip|]; exact IH.
  - destruct (f x), (f y); try apply Permutation_refl. apply perm_swap.
  - apply perm_trans with (filter f l2); assumption.
Qed.

(** X14. The fingerprint does not depend on the order in which the
    interfaces and their entries are listed: two machines that agree on CPU,
    host name, platform, architecture and the answers of the commands, and
    report the same MAC addresses in any order, get the same fingerprint. *)
Theorem fingerprint_ignores_interface_order env1 env2 this host interfaces1 interfaces2 :
  JS.truthy (customHWID this) = false ->
  JS.truthy (_hwid this) = false ->
  cpus (os env1) = cpus (os env2) ->
  platform (os env1) = platform (os env2) ->
  arch (os env1) = arch (os env2) ->
  (forall command, exec (os env1) command = exec (os env2) command) ->
  hostname (os env1) = Return host ->
  hostname (os env2) = Return host ->
  networkInterfaces (os env1) = Return interfaces1 ->
  networkInterfaces (os env2) = Return interfaces2 ->
  Permutation (all_macs interfaces1) (all_macs interfaces2) ->
  outcome_of (generateHWID env1 this) = outcome_of (generateHWID env2 this)
  /\ exists fingerprint, outcome_of (generateHWID env1 this) = Return (JStr fingerprint).
Proof.
  intros Hc Hm Hcpu Hp Ha Hx Hh1 Hh2 Hi1 Hi2 Hperm.
  rewrite (generateHWID_fresh env1 this host interfaces1 Hc Hm Hh1 Hi1).
  rewrite (generateHWID_fresh env2 this host interfaces2 Hc Hm Hh2 Hi2).
  unfold outcome_of. cbn [fst]. split; [|eexists; reflexivity].
  do 4 f_equal. unfold components, specific_id.
  rewrite Hcpu, Hp, Ha, !Hx.
  rewrite (Array_sort_of_permutation _ _ (filter_of_permutation mac_kept _ _ Hperm)).
  reflexivity.
Qed.

Lemma fingerprint_ignores_interface_order_witness :
  outcome_of (generateHWID (on_machine linux_box) test_instance)
  = outcome_of (generateHWID (on_machine linux_box_reordered) test_instance).
Proof.
  apply (fingerprint_ignores_interface_order (on_machine linux_box)
           (on_machine linux_box_reordered) test_instance "build-host"
           [ ("lo", [ {| mac := "00:00:00:00:00:00" |}; {| mac := "00:00:00:00:00:00" |} ]);
             ("eth0", [ {| mac := "52:54:00:12:34:56" |}; {| mac := "52:54:00:12:34:56" |} ]) ]
           [ ("eth0", [ {| mac := "52:54:00:12:34:56" |}; {| mac := "52:54:00:12:34:56" |} ]);
             ("lo", [ {| mac := "00:00:00:00:00:00" |}; {| mac := "00:00:00:00:00:00" |} ]) ]);
    try reflexivity.
  cbn [all_macs flat_map map snd mac app].
  apply (Permutation_app_comm
           ["00:00:00:00:00:00"; "00:00:00:00:00:00"]
           ["52:54:00:12:34:56"; "52:54:00:12:34:56"]).
Defined.

(** ** The cache and the configuration across calls *)

Lemma valid_code_is_kept data :
  JS.strict_eq (Response.code data) KEY_VALID
  || JS.strict_eq (Response.code data) KEY_ACTIVATED = true ->
  (Response.code data = KEY_VALID \/ Response.code data = KEY_ACTIVATED)
  /\ JS.or (Response.code data) (JStr "UNKNOWN_ERROR") = Response.code data.
Proof.
  intros H. apply orb_true_iff in H.
  assert (Hc : Response.code data = KEY_VALID \/ Response.code data = KEY_ACTIVATED).
  { destruct H as [H | H]; apply strict_eq_true in H; auto. }
  split; [exact Hc|]. destruct Hc as [-> | ->]; reflexivity.
Qed.

Lemma successful_result_shape key env this r this' ev :
  verify key env this = (Return r, this', ev) ->
  Result.success r = true ->
  Result.isValid r = true
  /\ (Result.code r = KEY_VALID \/ Result.code r = KEY_ACTIVATED)
  /\ _lastVerification this' = Some r.
Proof.
  intros Hv Hs.
  destruct (verify_returns key env this r this' ev Hv)
    as (hwid & this1 & ev1 & response & data & _ & _ & _ & _ & _ & Hr).
  destruct Hr as [(Hval & Hr & Ht) | (_ & Hr & _)].
  - cbn [classify Result.isValid] in Hval.
    destruct (valid_code_is_kept data Hval) as [Hc Hor].
    rewrite Hr. cbn [Result.set_success Result.isValid Result.code classify].
    rewrite Hor. split; [exact Hval|]. split; [exact Hc|].
    rewrite Ht, Hr. reflexivity.
  - rewrite Hr in Hs. discriminate Hs.
Qed.

(** X15. After a [verify] that returned a successful result,
    [getLastVerification] returns that very result and [isAuthenticated]
    returns [true], at any later moment; [clearCache] then empties the slot,
    so that the two return [null], and leaves the fingerprint, its memoized
    value included, alone. *)
Theorem successful_result_is_served_from_cache key env this r this' ev env' :
  verify key env this = (Return r, this', ev) ->
  Result.success r = true ->
  getLastVerification env' this' = (Return (Some r), this', [])
  /\ isAuthenticated env' this' = (Return (JBool true), this', [])
  /\ getLastVerification env' (state_after (clearCache env' this'))
     = (Return None, state_after (clearCache env' this'), [])
  /\ isAuthenticated env' (state_after (clearCache env' this'))
     = (Return JNull, state_after (clearCache env' this'), [])
  /\ _hwid (state_after (clearCache env' this')) = _hwid this'
  /\ customHWID (state_after (clearCache env' this')) = customHWID this'.
Proof.
  intros Hv Hs.
  destruct (successful_result_shape key env this r this' ev Hv Hs) as (_ & _ & Hc).
  split; [|split; [|split; [|split; [|split]]]]; try reflexivity.
  - unfold getLastVerification. run_method. rewrite Hc. reflexivity.
  - unfold isAuthenticated. run_method. rewrite Hc, Hs. reflexivity.
Qed.

Lemma successful_result_is_served_from_cache_witness :
  exists r,
    outcome_of (verify (JStr "ABC") (world (authority KEY_VALID test_secret3)) test_instance)
    = Return r
    /\ outcome_of (getLastVerification (world offline)
                     (state_after (verify (JStr "ABC")
                                     (world (authority KEY_VALID test_secret3))
                                     test_instance)))
       = Return (Some r)
    /\ outcome_of (isAuthenticated (world offline)
                     (state_after (verify (JStr "ABC")
                                     (world (authority KEY_VALID test_secret3))
                                     test_instance)))
       = Return (JBool true).
Proof.
  pose proof (result_eta (verify (JStr "ABC") (world (authority KEY_VALID test_secret3))
                                 test_instance)) as Hrun.
  assert (Hs : match outcome_of (verify (JStr "ABC")
                                   (world (authority KEY_VALID test_secret3)) test_instance)
               with
               | Return r => Result.success r = true
               | Throw _ => False
               end)
    by (vm_compute; reflexivity).
  destruct (outcome_of (verify (JStr "ABC") (world (authority KEY_VALID test_secret3))
                               test_instance)) as [r|e]; [|contradiction].
  destruct (successful_result_is_served_from_cache _ _ _ _ _ _ (world offline) Hrun Hs)
    as (Hlast & Hauth & _).
  exists r. split; [reflexivity|]. rewrite Hlast, Hauth. split; reflexivity.
Defined.

Lemma verify_keeps_cache_sound key env this :
  cache_sound this -> cache_sound (state_after (verify key env this)).
Proof.
  intros H. pose proof (verify_cache key env this) as Hc.
  unfold state_after in *.
  destruct (verify key env this) as [[[r|e] this'] ev] eqn:He; cbn [fst snd] in *.
  - destruct Hc as [[Hs Hc] | [_ Hc]].
    + destruct (successful_result_shape key env this r this' ev He Hs)
        as (Hv & Hcode & _).
      unfold cache_sound. rewrite Hc. auto.
    + unfold cache_sound in *. rewrite Hc. exact H.
  - unfold cache_sound in *. rewrite Hc. exact H.
Qed.

Lemma perform_keeps_cache_sound c env this :
  cache_sound this -> cache_sound (perform c env this).
Proof.
  intros H. destruct c; cbn [perform].
  - unfold cache_sound in *.
    rewrite (generateHWID_preserves _lastVerification) by auto. exact H.
  - unfold cache_sound in *. rewrite getHWID_keeps_cache. exact H.
  - destruct (setHWID_cases hwid env this) as [(x & _ & _ & ->) | (_ & ->)]; exact H.
  - apply verify_keeps_cache_sound. exact H.
  - replace (state_after (verifyOrThrow key env this))
      with (state_after (verify key env this)).
    + apply verify_keeps_cache_sound. exact H.
    + rewrite verifyOrThrow_unfold. unfold state_after.
      destruct (verify key env this) as [[[r|e] this'] ev]; [|reflexivity].
      destruct (Result.success r); reflexivity.
  - exact H.
  - rewrite isAuthenticated_state. exact H.
  - exact I.
Qed.

(** X16. On an instance built by the constructor, after any calls of
    its methods, the cache is empty or holds a successful result with code
    KEY_VALID or KEY_ACTIVATED.  So [isAuthenticated] returns [null] or
    [true], never the boolean [false]. *)
Theorem isAuthenticated_is_null_or_true config this0 calls env :
  constructor (Some config) = Return this0 ->
  cache_sound (run calls this0)
  /\ (isAuthenticated env (run calls this0) = (Return JNull, run calls this0, [])
      \/ isAuthenticated env (run calls this0)
         = (Return (JBool true), run calls this0, [])).
Proof.
  intros Hc.
  assert (H0 : cache_sound this0).
  { rewrite (constructor_fields config this0 Hc). exact I. }
  assert (Hrun : cache_sound (run calls this0)).
  { clear Hc. revert this0 H0.
    induction calls as [|[c e] calls IH]; intros this0 H0; cbn [run].
    - exact H0.
    - apply IH. apply perform_keeps_cache_sound. exact H0. }
  split; [exact Hrun|].
  unfold isAuthenticated, cache_sound in *. run_method.
  destruct (_lastVerification (run calls this0)) as [r|].
  - right. destruct Hrun as (-> & _). reflexivity.
  - left. reflexivity.
Qed.

Lemma isAuthenticated_is_null_or_true_witness :
  cache_sound
    (run [(call_verify (JStr "ABC"), world (authority KEY_VALID test_secret3));
          (call_verify (JStr "ABC"), world (authority (JStr "KEY_EXPIRED") test_secret3))]
         test_instance)
  /\ (isAuthenticated (world offline)
        (run [(call_verify (JStr "ABC"), world (authority KEY_VALID test_secret3));
              (call_verify (JStr "ABC"),
               world (authority (JStr "KEY_EXPIRED") test_secret3))]
             test_instance)
      = (Return JNull,
         run [(call_verify (JStr "ABC"), world (authority KEY_VALID test_secret3));
              (call_verify (JStr "ABC"),
               world (authority (JStr "KEY_EXPIRED") test_secret3))]
             test_instance, [])
      \/ isAuthenticated (world offline)
           (run [(call_verify (JStr "ABC"), world (authority KEY_VALID test_secret3));
                 (call_verify (JStr "ABC"),
                  world (authority (JStr "KEY_EXPIRED") test_secret3))]
                test_instance)
         = (Return (JBool true),
            run [(call_verify (JStr "ABC"), world (authority KEY_VALID test_secret3));
                 (call_verify (JStr "ABC"),
                  world (authority (JStr "KEY_EXPIRED") test_secret3))]
                test_instance, [])).
Proof.
  exact (isAuthenticated_is_null_or_true test_config test_instance _ (world offline)
           test_instance_constructed).
Defined.

(** X17. A result that [verifyOrThrow] returns is successful: its flags
    [success] and [isValid] are true, its code is KEY_VALID or KEY_ACTIVATED,
    it is the result [verify] returned and it is the cached one. *)
Theorem verifyOrThrow_returns_only_successes key env this r this' ev :
  verifyOrThrow key env this = (Return r, this', ev) ->
  verify key env this = (Return r, this', ev)
  /\ Result.success r = true
  /\ Result.isValid r = true
  /\ (Result.code r = KEY_VALID \/ Result.code r = KEY_ACTIVATED)
  /\ _lastVerification this' = Some r.
Proof.
  rewrite verifyOrThrow_unfold. intros H.
  destruct (verify key env this) as [[[r0|e] this0] ev0] eqn:Hv; [|discriminate H].
  destruct (Result.success r0) eqn:Hs; [|discriminate H].
  injection H as <- <- <-.
  destruct (successful_result_shape key env this r0 this0 ev0 Hv Hs) as (Hval & Hc & Hl).
  repeat split; assumption.
Qed.

Lemma verifyOrThrow_returns_only_successes_witness :
  exists r,
    outcome_of (verifyOrThrow (JStr "ABC") (world (authority KEY_ACTIVATED test_secret3))
                  test_instance)
    = Return r
    /\ Result.success r = true
    /\ (Result.code r = KEY_VALID \/ Result.code r = KEY_ACTIVATED).
Proof.
  pose proof (result_eta (verifyOrThrow (JStr "ABC")
                            (world (authority KEY_ACTIVATED test_secret3)) test_instance))
    as Hrun.
  assert (Hret : match outcome_of (verifyOrThrow (JStr "ABC")
                                     (world (authority KEY_ACTIVATED test_secret3))
                                     test_instance)
                 with Return _ => True | Throw _ => False end)
    by (vm_compute; exact I).
  destruct (outcome_of (verifyOrThrow (JStr "ABC")
                          (world (authority KEY_ACTIVATED test_secret3)) test_instance))
    as [r|e]; [|contradiction].
  destruct (verifyOrThrow_returns_only_successes _ _ _ _ _ _ Hrun) as (_ & Hs & _ & Hc & _).
  exists r. split; [reflexivity|]. split; assumption.
Defined.

Lemma perform_keeps_configuration {B : Type} (f : NexveilAuth -> B) c env this :
  (forall v this, f (set_hwid v this) = f this) ->
  (forall v this, f (set_customHWID v this) = f this) ->
  (forall v this, f (set_lastVerification v this) = f this) ->
  f (perform c env this) = f this.
Proof.
  intros Hh Hc Hl. destruct (is_setHWID c) eqn:E.
  - destruct c; try discriminate E. cbn [perform].
    destruct (setHWID_cases hwid env this) as [(x & _ & _ & ->) | (_ & ->)];
      unfold state_after; cbn [fst snd]; [rewrite Hh, Hc|]; reflexivity.
  - apply perform_keeps; assumption.
Qed.

Lemma run_keeps_configuration {B : Type} (f : NexveilAuth -> B) calls this :
  (forall v this, f (set_hwid v this) = f this) ->
  (forall v this, f (set_customHWID v this) = f this) ->
  (forall v this, f (set_lastVerification v this) = f this) ->
  f (run calls this) = f this.
Proof.
  intros Hh Hc Hl. revert this.
  induction calls as [|[c e] calls IH]; intros this; cbn [run].
  - reflexivity.
  - rewrite IH. apply perform_keeps_configuration; assumption.
Qed.

(** X18. No method writes the configuration: the application name, the
    three secrets, the API address and the two switches of an instance are
    after any calls what they were before. *)
Theorem configuration_is_never_written calls this :
  appName (run calls this) = appName this
  /\ secret1 (run calls this) = secret1 this
  /\ secret2 (run calls this) = secret2 this
  /\ secret3 (run calls this) = secret3 this
  /\ apiUrl (run calls this) = apiUrl this
  /\ autoHWID (run calls this) = autoHWID this
  /\ strictSSL (run calls this) = strictSSL this.
Proof.
  repeat split; apply run_keeps_configuration; auto.
Qed.
(** ** Construction: what is accepted, in which order it is refused *)



Lemma first_missing_intro config before field after :
  required = (before ++ field :: after)%list ->
  Forall (fun g => JS.truthy (Config.get config g) = true) before ->
  JS.truthy (Config.get config field) = false ->
  first_missing config field.
Proof. intros. exists before, after. auto. Qed.

Lemma first_bad_secret_intro config before i after :
  [1; 2; 3] = (before ++ i :: after)%list ->
  Forall (fun j => String.length (JS.ToString (Config.get config (secret_field j)))
                   = 64%nat) before ->
  String.length (JS.ToString (Config.get config (secret_field i))) <> 64%nat ->
  first_bad_secret config i.
Proof. intros. exists before, after. auto. Qed.

Lemma regex_accepts_length v :
  secretRegex_test v = true -> String.length (JS.ToString v) = 64%nat.
Proof. unfold secretRegex_test. apply Nat.eqb_eq. Qed.

(** X20. Validation reports the first failure in a fixed order.  When
    a required field is falsy, the error names the first such field in the
    order appName, secret1, secret2, secret3, whatever the lengths of the
    secrets.  When none is, and a secret has not 64 characters, the error
    names the first such secret.  When the secrets are right and [appName]
    is truthy but no string, the error is the appName error. *)
Theorem validation_reports_first_failure config :
  ((exists field, In field required /\ JS.truthy (Config.get config field) = false) ->
   exists field,
     first_missing config field
     /\ constructor (Some config)
        = Throw ("nexveil: Missing required field: " ++ field))
  /\ (Forall (fun g => JS.truthy (Config.get config g) = true) required ->
      (exists i, In i [1; 2; 3]
                 /\ String.length (JS.ToString (Config.get config (secret_field i)))
                    <> 64%nat) ->
      exists i,
        first_bad_secret config i
        /\ constructor (Some config)
           = Throw ("nexveil: " ++ secret_field i ++ " must be exactly 64 characters"))
  /\ (Forall (fun g => JS.truthy (Config.get config g) = true) required ->
      Forall (fun j => String.length (JS.ToString (Config.get config (secret_field j)))
                       = 64%nat) [1; 2; 3] ->
      JS.is_string (Config.appName config) = false ->
      constructor (Some config) = Throw "nexveil: appName must be a non-empty string").
Proof.
  split; [|split].
  - intros (f & Hin & Hf). rewrite constructor_cases, validateConfig_cases.
    destruct (JS.truthy (Config.appName config)) eqn:Ea; cbn [negb].
    2:{ exists "appName". split; [|reflexivity].
        apply (first_missing_intro config [] "appName" ["secret1"; "secret2"; "secret3"]);
          [reflexivity | constructor | exact Ea]. }
    destruct (JS.truthy (Config.secret1 config)) eqn:E1; cbn [negb].
    2:{ exists "secret1". split; [|reflexivity].
        apply (first_missing_intro config ["appName"] "secret1" ["secret2"; "secret3"]);
          [reflexivity | repeat constructor; exact Ea | exact E1]. }
    destruct (JS.truthy (Config.secret2 config)) eqn:E2; cbn [negb].
    2:{ exists "secret2". split; [|reflexivity].
        apply (first_missing_intro config ["appName"; "secret1"] "secret2" ["secret3"]);
          [reflexivity | repeat constructor; assumption | exact E2]. }
    destruct (JS.truthy (Config.secret3 config)) eqn:E3; cbn [negb].
    2:{ exists "secret3". split; [|reflexivity].
        apply (first_missing_intro config ["appName"; "secret1"; "secret2"] "secret3" []);
          [reflexivity | repeat constructor; assumption | exact E3]. }
    exfalso. simpl in Hin.
    destruct Hin as [<-|[<-|[<-|[<-|[]]]]];
      change (Config.get config _) with (Config.appName config) in Hf
      || change (Config.get config _) with (Config.secret1 config) in Hf
      || change (Config.get config _) with (Config.secret2 config) in Hf
      || change (Config.get config _) with (Config.secret3 config) in Hf;
      congruence.
  - intros Hall (i & Hin & Hbad). rewrite constructor_cases, validateConfig_cases.
    inversion Hall as [|? ? Ha Hall1]; subst.
    inversion Hall1 as [|? ? H1 Hall2]; subst.
    inversion Hall2 as [|? ? H2 Hall3]; subst.
    inversion Hall3 as [|? ? H3 _]; subst.
    change (Config.get config "appName") with (Config.appName config) in Ha.
    change (Config.get config "secret1") with (Config.secret1 config) in H1.
    change (Config.get config "secret2") with (Config.secret2 config) in H2.
    change (Config.get config "secret3") with (Config.secret3 config) in H3.
    rewrite Ha, H1, H2, H3. cbn [negb].
    destruct (secretRegex_test (Config.secret1 config)) eqn:R1; cbn [negb].
    2:{ exists 1. split; [|reflexivity].
        apply (first_bad_secret_intro config [] 1 [2; 3]);
          [reflexivity | constructor | exact (regex_rejects _ R1)]. }
    destruct (secretRegex_test (Config.secret2 config)) eqn:R2; cbn [negb].
    2:{ exists 2. split; [|reflexivity].
        apply (first_bad_secret_intro config [1] 2 [3]);
          [reflexivity | repeat constructor; exact (regex_accepts_length _ R1)
          | exact (regex_rejects _ R2)]. }
    destruct (secretRegex_test (Config.secret3 config)) eqn:R3; cbn [negb].
    2:{ exists 3. split; [|reflexivity].
        apply (first_bad_secret_intro config [1; 2] 3 []);
          [reflexivity
          | repeat constructor; [exact (regex_accepts_length _ R1)
                                | exact (regex_accepts_length _ R2)]
          | exact (regex_rejects _ R3)]. }
    exfalso. simpl in Hin.
    destruct Hin as [<-|[<-|[<-|[]]]]; apply Hbad; apply regex_accepts_length; assumption.
  - intros Hall Hlen Hstr. rewrite constructor_cases, validateConfig_cases.
    inversion Hall as [|? ? Ha Hall1]; subst.
    inversion Hall1 as [|? ? H1 Hall2]; subst.
    inversion Hall2 as [|? ? H2 Hall3]; subst.
    inversion Hall3 as [|? ? H3 _]; subst.
    change (Config.get config "appName") with (Config.appName config) in Ha.
    change (Config.get config "secret1") with (Config.secret1 config) in H1.
    change (Config.get config "secret2") with (Config.secret2 config) in H2.
    change (Config.get config "secret3") with (Config.secret3 config) in H3.
    rewrite Ha, H1, H2, H3. cbn [negb].
    inversion Hlen as [|? ? L1 Hlen1]; subst.
    inversion Hlen1 as [|? ? L2 Hlen2]; subst.
    inversion Hlen2 as [|? ? L3 _]; subst.
    unfold secretRegex_test.
    change (Config.get config (secret_field 1)) with (Config.secret1 config) in L1.
    change (Config.get config (secret_field 2)) with (Config.secret2 config) in L2.
    change (Config.get config (secret_field 3)) with (Config.secret3 config) in L3.
    rewrite L1, L2, L3. cbn [Nat.eqb negb].
    destruct (Config.appName config); try reflexivity. discriminate Hstr.
Qed.

Lemma validation_reports_first_failure_witness :
  (exists field,
     first_missing (with_appName JUndefined (with_secret2 (JStr symbols63) test_config))
                   field
     /\ constructor (Some (with_appName JUndefined
                             (with_secret2 (JStr symbols63) test_config)))
        = Throw ("nexveil: Missing required field: " ++ field))
  /\ constructor (Some (with_appName (JBool true) test_config))
     = Throw "nexveil: appName must be a non-empty string".
Proof.
  destruct (validation_reports_first_failure
              (with_appName JUndefined (with_secret2 (JStr symbols63) test_config)))
    as (Hmissing & _).
  destruct (validation_reports_first_failure (with_appName (JBool true) test_config))
    as (_ & _ & Hname).
  split.
  - apply Hmissing. exists "appName". split; [simpl; tauto | reflexivity].
  - apply Hname.
    + repeat constructor.
    + repeat constructor.
    + reflexivity.
Defined.


(** ** The request *)

Lemma percent_encode_app l1 l2 :
  JSString.percent_encode (l1 ++ l2)
  = JSString.percent_encode l1 ++ JSString.percent_encode l2.
Proof.
  induction l1 as [|b l1 IH]; cbn [JSString.percent_encode app].
  - reflexivity.
  - rewrite IH.
    destruct (JSString.uri_unreserved b); cbn [String.append];
      [reflexivity|].
    unfold JSString.hex_byte. reflexivity.
Qed.

Lemma chars_app s t : chars (s ++ t) = (chars s ++ chars t)%list.
Proof.
  unfold chars. induction s as [|c s IH]; cbn; [reflexivity|]. rewrite IH. reflexivity.
Qed.

Lemma encoded_char_is_safe c :
  forallb query_safe (chars (JSString.percent_encode (JSString.utf8_of_char c))) = true.
Proof. destruct c as [[] [] [] [] [] [] [] []]; reflexivity. Qed.

Lemma encodeURIComponent_is_safe s :
  forallb query_safe (chars (JSString.encodeURIComponent s)) = true.
Proof.
  unfold JSString.encodeURIComponent.
  induction s as [|c s IH]; cbn [JSString.utf8].
  - reflexivity.
  - rewrite percent_encode_app, chars_app, forallb_app, encoded_char_is_safe, IH.
    reflexivity.
Qed.

(** X21. The one request of a [verify] call is a GET on the API address
    of the instance followed by the path and the two query parameters [key]
    and [app_name], each percent-encoded; in the encoded values only
    unreserved characters and the percent sign occur, so no ampersand, equals
    sign, question mark, hash, slash or space of the key or the application
    name reaches the query.  The headers are the content type and the four
    client headers, in this order.  The [agent] option is set, to [null],
    only when [strictSSL] is off and the address contains [localhost]. *)
Theorem request_is_built_from_instance key env this r this' ev request :
  verify key env this = (r, this', ev) ->
  In (Fetch request) ev ->
  exists k,
    key = JStr k
    /\ method request = "GET"
    /\ url request
       = JS.ToString (apiUrl this) ++ "/wlv1/application/auth?key="
         ++ JSString.encodeURIComponent k ++ "&app_name="
         ++ JSString.encodeURIComponent (JS.ToString (appName this))
    /\ forallb query_safe (chars (JSString.encodeURIComponent k)) = true
    /\ forallb query_safe
         (chars (JSString.encodeURIComponent (JS.ToString (appName this)))) = true
    /\ map fst (headers request)
       = ["Content-Type"; "clienttime"; "externalsignature"; "clientnonce"; "clienthwid"]
    /\ header "Content-Type" (headers request) = JStr "application/json"
    /\ (agent request = JNull
        <-> strictSSL this = false /\ JSString.includes (url request) "localhost" = true)
    /\ (agent request <> JNull -> agent request = JUndefined).
Proof.
  intros Hv Hin.
  assert (Hkey : exists k, key = JStr k).
  { rewrite verify_unfold in Hv. destruct key as [| |b|k]; cbn in Hv;
      try (inversion Hv; subst; contradiction).
    - destruct b; cbn in Hv; inversion Hv; subst; contradiction.
    - exists k. reflexivity. }
  destruct Hkey as [k ->].
  destruct (verify_fetches _ _ _ _ _ _ _ Hv Hin) as (hwid & this1 & ev1 & Hg & -> & _).
  assert (Happ : appName this1 = appName this).
  { pose proof (getHWID_preserves appName ltac:(auto) env this) as H.
    rewrite Hg in H. exact H. }
  assert (Hapi : apiUrl this1 = apiUrl this).
  { pose proof (getHWID_preserves apiUrl ltac:(auto) env this) as H.
    rewrite Hg in H. exact H. }
  assert (Hssl : strictSSL this1 = strictSSL this).
  { pose proof (getHWID_preserves strictSSL ltac:(auto) env this) as H.
    rewrite Hg in H. exact H. }
  exists k. split; [reflexivity|]. split; [reflexivity|].
  cbn [request_of url method headers agent map fst].
  unfold url_of. rewrite Happ, Hapi, Hssl. cbn [JS.ToString].
  split; [reflexivity|].
  split; [apply encodeURIComponent_is_safe|].
  split; [apply encodeURIComponent_is_safe|].
  split; [reflexivity|]. split; [reflexivity|].
  destruct (strictSSL this); cbn [negb andb].
  - split; [|intros _; reflexivity].
    split; [intros H; discriminate H | intros [H _]; discriminate H].
  - destruct (JSString.includes _ "localhost").
    + split; [|intros H; contradiction H; reflexivity].
      split; [intros _; split; reflexivity | intros _; reflexivity].
    + split; [|intros _; reflexivity].
      split; [intros H; discriminate H | intros [_ H]; discriminate H].
Qed.

Lemma bare_instance_constructed : constructor (Some bare_config) = Return bare_instance.
Proof. reflexivity. Qed.

Lemma request_is_built_from_instance_witness :
  exists request,
    In (Fetch request) (events_of (verify (JStr "A&B=C") (world offline) bare_instance))
    /\ url request
       = "https://api.nexveil.net/wlv1/application/auth?key=A%26B%3DC&app_name=My%20App%20%26%20Co"
    /\ agent request = JUndefined.
Proof.
  assert (Hg : outcome_of (getHWID (world offline) bare_instance)
               = Return (JStr "0a217f0f539c573c8f98b926bcdce60c159c4487f2f3c4bd21396d0b0749a11c"))
    by (vm_compute; reflexivity).
  pose proof (verify_sends_one "A&B=C" (world offline) bare_instance _
                ltac:(discriminate) Hg) as Hev.
  assert (Hin : In (Fetch (request_of (world offline)
                             (state_after (getHWID (world offline) bare_instance))
                             (JStr "A&B=C")
                             (JStr "0a217f0f539c573c8f98b926bcdce60c159c4487f2f3c4bd21396d0b0749a11c")))
                   (events_of (verify (JStr "A&B=C") (world offline) bare_instance)))
    by (rewrite Hev; apply in_or_app; right; left; reflexivity).
  destruct (request_is_built_from_instance _ _ _ _ _ _ _ (result_eta _) Hin)
    as (k & Hk & _ & Hurl & _ & _ & _ & _ & _ & Hagent).
  injection Hk as <-.
  eexists. split; [exact Hin|]. split.
  - rewrite Hurl. vm_compute. reflexivity.
  - apply Hagent. vm_compute. discriminate.
Defined.

(** X22. The constructor fills in what the configuration leaves out.
    Automatic generation and strict SSL are on unless the configuration says
    the boolean [false]: [null], [undefined] or an empty string leave them
    on.  A falsy API address gives the production address, a falsy custom
    fingerprint gives none.  On the new instance [getHWID] therefore derives
    the fingerprint, unless a custom one was given or generation was switched
    off, in which case without a custom one it throws. *)
Theorem constructor_applies_defaults config this :
  constructor (Some config) = Return this ->
  (autoHWID this = false <-> Config.autoHWID config = JBool false)
  /\ (strictSSL this = false <-> Config.strictSSL config = JBool false)
  /\ (JS.truthy (Config.apiUrl config) = false ->
      apiUrl this = JStr "https://api.nexveil.net")
  /\ (JS.truthy (Config.apiUrl config) = true -> apiUrl this = Config.apiUrl config)
  /\ (JS.truthy (Config.customHWID config) = false ->
      customHWID this = JNull
      /\ (Config.autoHWID config <> JBool false ->
          forall env, getHWID env this = generateHWID env this)
      /\ (Config.autoHWID config = JBool false ->
          forall env,
            getHWID env this
            = (Throw "Nexveil: HWID not set. Enable autoHWID or provide customHWID",
               this, [])))
  /\ _hwid this = JNull
  /\ _lastVerification this = None.
Proof.
  intros Hc. rewrite (constructor_fields config this Hc).
  cbn [autoHWID strictSSL apiUrl customHWID _hwid _lastVerification].
  assert (Hsw : forall v, negb (JS.strict_eq v (JBool false)) = false <-> v = JBool false).
  { intros v. rewrite negb_false_iff. apply strict_eq_true. }
  split; [apply Hsw|]. split; [apply Hsw|].
  split; [intros H; unfold JS.or; rewrite H; reflexivity|].
  split; [intros H; unfold JS.or; rewrite H; reflexivity|].
  split; [|split; reflexivity].
  intros Hcustom. unfold JS.or. rewrite Hcustom.
  split; [reflexivity|]. split.
  - intros Hauto env. apply getHWID_auto. cbn [autoHWID].
    destruct (negb (JS.strict_eq (Config.autoHWID config) (JBool false))) eqn:E;
      [reflexivity|].
    apply Hsw in E. contradiction.
  - intros Hauto env. unfold getHWID. run_method. cbn [autoHWID customHWID].
    rewrite Hauto. reflexivity.
Qed.

Lemma constructor_applies_defaults_witness :
  autoHWID bare_instance = true
  /\ apiUrl bare_instance = JStr "https://api.nexveil.net"
  /\ customHWID bare_instance = JNull
  /\ getHWID (world offline) bare_instance = generateHWID (world offline) bare_instance.
Proof.
  destruct (constructor_applies_defaults bare_config bare_instance bare_instance_constructed)
    as (_ & _ & Hapi & _ & Hcustom & _).
  destruct (Hcustom eq_refl) as (Hnull & Hauto & _).
  split; [reflexivity|]. split; [exact (Hapi eq_refl)|]. split; [exact Hnull|].
  apply Hauto. discriminate.
Defined.

(** ** The answer of [wmic] *)

Lemma split_from_no_separator sep s cur :
  ~ In sep (chars s) -> JSString.split_from sep cur s = [cur ++ s].
Proof.
  revert cur. induction s as [|c s IH]; intros cur Hn; cbn [JSString.split_from].
  - f_equal. induction cur as [|d cur IHc]; cbn; [reflexivity|]. rewrite <- IHc at 1.
    reflexivity.
  - destruct (Ascii.eqb c sep) eqn:E.
    + apply Ascii.eqb_eq in E. exfalso. apply Hn. left. exact E.
    + rewrite IH.
      * f_equal. induction cur as [|d cur IHc]; cbn; [reflexivity|].
        rewrite IHc. reflexivity.
      * intros Hin. apply Hn. right. exact Hin.
Qed.

Lemma split_from_separator sep first rest cur :
  ~ In sep (chars first) ->
  JSString.split_from sep cur (first ++ String sep rest)
  = (cur ++ first) :: JSString.split_from sep "" rest.
Proof.
  revert cur. induction first as [|c first IH]; intros cur Hn.
  - cbn [String.append JSString.split_from]. rewrite Ascii.eqb_refl. f_equal.
    induction cur as [|d cur IHc]; cbn; [reflexivity|]. rewrite <- IHc at 1. reflexivity.
  - cbn [String.append JSString.split_from].
    destruct (Ascii.eqb c sep) eqn:E.
    + apply Ascii.eqb_eq in E. exfalso. apply Hn. left. exact E.
    + rewrite IH.
      * f_equal. induction cur as [|d cur IHc]; cbn; [reflexivity|].
        rewrite IHc. reflexivity.
      * intros Hin. apply Hn. right. exact Hin.
Qed.

Lemma split_nonempty sep s cur : JSString.split_from sep cur s <> [].
Proof.
  revert cur. induction s as [|c s IH]; intros cur; cbn [JSString.split_from].
  - discriminate.
  - destruct (Ascii.eqb c sep); [discriminate | apply IH].
Qed.

(** X23. On Windows the identifier is the second line of the answer of
    [wmic], trimmed.  An answer of a single line has no second line: the
    identifier is left out, the warning is logged, and the fingerprint is
    derived from the other components. *)
Theorem wmic_identifier_is_the_second_line env this host interfaces out :
  JS.truthy (customHWID this) = false ->
  JS.truthy (_hwid this) = false ->
  hostname (os env) = Return host ->
  networkInterfaces (os env) = Return interfaces ->
  platform (os env) = "win32" ->
  exec (os env) wmic_command = Return out ->
  (~ In newline (chars out) ->
   generateHWID env this
   = (Return (JStr (sha256 (JSString.join "||"
                              (match cpus (os env) with cpu :: _ => [model cpu] | [] => [] end
                               ++ [host; "win32"; arch (os env)]
                               ++ Array_sort (filter mac_kept (all_macs interfaces)))%list))),
      set_hwid (JStr (sha256 (JSString.join "||"
                                (match cpus (os env) with cpu :: _ => [model cpu] | [] => [] end
                                 ++ [host; "win32"; arch (os env)]
                                 ++ Array_sort (filter mac_kept (all_macs interfaces)))%list)))
               this,
      derivation_events (os env))
   /\ In lookup_warning (derivation_events (os env)))
  /\ (forall first rest,
        out = first ++ String newline rest ->
        ~ In newline (chars first) ->
        generateHWID env this
        = (Return (JStr (sha256 (JSString.join "||"
                                   (match cpus (os env) with
                                    | cpu :: _ => [model cpu]
                                    | [] => []
                                    end
                                    ++ [host; "win32"; arch (os env)]
                                    ++ Array_sort (filter mac_kept (all_macs interfaces))
                                    ++ [JSString.trim (first_line rest)])%list))),
           set_hwid (JStr (sha256 (JSString.join "||"
                                     (match cpus (os env) with
                                      | cpu :: _ => [model cpu]
                                      | [] => []
                                      end
                                      ++ [host; "win32"; arch (os env)]
                                      ++ Array_sort (filter mac_kept (all_macs interfaces))
                                      ++ [JSString.trim (first_line rest)])%list)))
                    this,
           derivation_events (os env))
        /\ ~ In lookup_warning (derivation_events (os env))).
Proof.
  intros Hc Hm Hh Hi Hp Hx.
  pose proof (generateHWID_fresh env this host interfaces Hc Hm Hh Hi) as Hg.
  unfold components, specific_id in Hg. rewrite Hp, Hx in Hg. cbn [String.eqb] in Hg.
  change (String.eqb "win32" "win32") with true in Hg. cbv iota in Hg.
  split.
  - intros Hn.
    assert (Hs : nth_error (JSString.split newline out) 1 = None).
    { unfold JSString.split. rewrite (split_from_no_separator newline out "" Hn).
      reflexivity. }
    rewrite Hs in Hg. rewrite app_nil_r in Hg. split; [exact Hg|].
    unfold derivation_events, specific_events. rewrite Hp, Hx, Hs.
    change (String.eqb "win32" "win32") with true. cbv iota.
    apply in_or_app. right. apply in_or_app. right. left. reflexivity.
  - intros first rest -> Hn.
    assert (Hs : nth_error (JSString.split newline (first ++ String newline rest)) 1
                 = Some (first_line rest)).
    { unfold JSString.split, first_line.
      rewrite (split_from_separator newline first rest "" Hn). cbn [nth_error].
      unfold JSString.split.
      destruct (JSString.split_from newline "" rest) eqn:E; [|reflexivity].
      exfalso. exact (split_nonempty _ _ _ E). }
    rewrite Hs in Hg. split; [exact Hg|].
    unfold derivation_events, specific_events. rewrite Hp, Hx, Hs.
    change (String.eqb "win32" "win32") with true. cbv iota.
    intros Hin. cbn in Hin.
    repeat (destruct Hin as [Hin|Hin]; [discriminate Hin|]). exact Hin.
Qed.

Lemma wmic_identifier_is_the_second_line_witness :
  In lookup_warning (derivation_events windows_box)
  /\ exists fingerprint,
       outcome_of (generateHWID (on_machine windows_box) test_instance)
       = Return (JStr fingerprint).
Proof.
  destruct (wmic_identifier_is_the_second_line (on_machine windows_box) test_instance
              "DESKTOP-1" [ ("Ethernet", [ {| mac := "52:54:00:12:34:56" |} ]) ]
              "No Instance(s) Available." eq_refl eq_refl eq_refl eq_refl eq_refl eq_refl)
    as (Hone & _).
  destruct Hone as (Hg & Hw).
  - vm_compute. intros H.
    repeat (destruct H as [H|H]; [discriminate H|]). exact H.
  - split; [exact Hw|]. eexists. rewrite Hg. reflexivity.
Defined.

(** ** The alphabet of digests *)

Lemma hex_byte_is_lower_hex b :
  0 <= b < 256 -> forallb lower_hex (chars (JSString.hex_byte false b)) = true.
Proof.
  intros Hb.
  assert (Hc : exists c : ascii, b = Z.of_N (N_of_ascii c)).
  { exists (ascii_of_N (Z.to_N b)). rewrite N_ascii_embedding; lia. }
  destruct Hc as [c ->].
  destruct c as [[] [] [] [] [] [] [] []]; vm_compute; reflexivity.
Qed.

Lemma chars_append s t : chars (s ++ t) = (chars s ++ chars t)%list.
Proof.
  induction s as [|c s IH]; cbn; [reflexivity|].
  unfold chars in IH. rewrite IH. reflexivity.
Qed.

Lemma hex_is_lower_hex bytes :
  Forall (fun b => 0 <= b < 256) bytes ->
  forallb lower_hex (chars (JSString.hex bytes)) = true.
Proof.
  induction 1 as [|b bytes Hb _ IH]; [reflexivity|].
  change (JSString.hex (b :: bytes)) with (JSString.hex_byte false b ++ JSString.hex bytes).
  rewrite chars_append, forallb_app, IH, (hex_byte_is_lower_hex b Hb). reflexivity.
Qed.

Lemma be_bytes_are_bytes count x : Forall (fun b => 0 <= b < 256) (SHA256.be_bytes count x).
Proof.
  unfold SHA256.be_bytes. apply Forall_map, Forall_forall. intros i _.
  change 255 with (Z.ones 8). rewrite Z.land_ones by lia.
  apply Z.mod_pos_bound. reflexivity.
Qed.

Lemma digest_is_bytes msg : Forall (fun b => 0 <= b < 256) (SHA256.digest msg).
Proof.
  unfold SHA256.digest. apply Forall_flat_map, Forall_forall. intros w _.
  apply be_bytes_are_bytes.
Qed.

Lemma sha256_is_lower_hex data : forallb lower_hex (chars (sha256 data)) = true.
Proof. unfold sha256. apply hex_is_lower_hex, digest_is_bytes. Qed.

(** X24. What the client derives is always a digest in the form of
    [digest('hex')]: 64 characters, each a digit or a letter from [a] to
    [f].  This holds for [sha256] of any text, hence for every fingerprint
    [generateHWID] derives and memoizes and for the [externalsignature]
    header of every request [verify] sends, whatever the key, the secrets and
    the machine. *)
Theorem derived_values_are_hex_digests :
  (forall data,
     String.length (sha256 data) = 64%nat
     /\ forallb lower_hex (chars (sha256 data)) = true)
  /\ (forall env this v,
        JS.truthy (customHWID this) = false ->
        JS.truthy (_hwid this) = false ->
        outcome_of (generateHWID env this) = Return v ->
        exists fingerprint,
          v = JStr fingerprint
          /\ _hwid (state_after (generateHWID env this)) = JStr fingerprint
          /\ String.length fingerprint = 64%nat
          /\ forallb lower_hex (chars fingerprint) = true)
  /\ (forall key env this request,
        In (Fetch request) (events_of (verify key env this)) ->
        exists signature,
          header "externalsignature" (headers request) = JStr signature
          /\ String.length signature = 64%nat
          /\ forallb lower_hex (chars signature) = true).
Proof.
  split; [intros data; split; [apply sha256_length | apply sha256_is_lower_hex]|].
  split.
  - intros env this v Hc Hm Hr.
    destruct (hostname (os env)) as [host|e] eqn:Hh.
    + destruct (networkInterfaces (os env)) as [interfaces|e] eqn:Hi.
      * rewrite (generateHWID_fresh env this host interfaces Hc Hm Hh Hi) in Hr |- *.
        cbn [outcome_of state_after fst snd] in Hr |- *. injection Hr as <-.
        eexists. split; [reflexivity|]. split; [reflexivity|].
        split; [apply sha256_length | apply sha256_is_lower_hex].
      * destruct (generateHWID_failure env this e Hc Hm) as (ev & Hg & _).
        { right. exists host. split; [exact Hh | exact Hi]. }
        rewrite Hg in Hr. discriminate Hr.
    + destruct (generateHWID_failure env this e Hc Hm (or_introl Hh)) as (ev & Hg & _).
      rewrite Hg in Hr. discriminate Hr.
  - intros key env this request Hin.
    destruct (verify_fetches key env this _ _ _ request (result_eta _) Hin)
      as (hwid & this1 & ev1 & _ & -> & _).
    eexists. split; [reflexivity|].
    split; [apply sha256_length | apply sha256_is_lower_hex].
Qed.

Lemma derived_values_are_hex_digests_witness :
  exists fingerprint,
    outcome_of (generateHWID (world offline) test_instance) = Return (JStr fingerprint)
    /\ String.length fingerprint = 64%nat.
Proof.
  assert (Hg : outcome_of (generateHWID (world offline) test_instance)
               = Return (JStr "0a217f0f539c573c8f98b926bcdce60c159c4487f2f3c4bd21396d0b0749a11c")).
  { rewrite <- (getHWID_auto (world offline) test_instance eq_refl), test_fingerprint.
    reflexivity. }
  destruct derived_values_are_hex_digests as (_ & H & _).
  destruct (H (world offline) test_instance _ eq_refl eq_refl Hg) as (fingerprint & Hv & _ & Hl & _).
  exists fingerprint. split; [rewrite Hg, Hv; reflexivity | exact Hl].
Defined.

(** ** The callers in [examples.js] *)

Lemma robust_instance_constructed : constructor (Some robust_config) = Return robust_instance.
Proof. reflexivity. Qed.

Lemma getHWID_unset env this :
  autoHWID this = false ->
  JS.truthy (customHWID this) = false ->
  getHWID env this
  = (Throw "Nexveil: HWID not set. Enable autoHWID or provide customHWID", this, []).
Proof. intros Ha Hc. unfold getHWID. run_method. rewrite Ha, Hc. reflexivity. Qed.

Lemma getHWID_idempotent env this hwid this1 ev1 :
  getHWID env this = (Return hwid, this1, ev1) ->
  getHWID env this1 = (Return hwid, this1, []).
Proof.
  intros Hg. destruct (JS.truthy (customHWID this)) eqn:Hc.
  { rewrite (getHWID_custom env this Hc) in Hg. inversion Hg; subst.
    apply getHWID_custom. exact Hc. }
  destruct (autoHWID this) eqn:Ha.
  2:{ rewrite (getHWID_unset env this Ha Hc) in Hg. discriminate Hg. }
  rewrite (getHWID_auto env this Ha) in Hg.
  destruct (JS.truthy (_hwid this)) eqn:Hm.
  { rewrite (generateHWID_memoized env this Hc Hm) in Hg. inversion Hg; subst.
    rewrite (getHWID_auto env this1 Ha). apply generateHWID_memoized; assumption. }
  destruct (hostname (os env)) as [host|e] eqn:Hh.
  - destruct (networkInterfaces (os env)) as [interfaces|e] eqn:Hi.
    + rewrite (generateHWID_fresh env this host interfaces Hc Hm Hh Hi) in Hg.
      inversion Hg; subst.
      rewrite getHWID_auto by exact Ha.
      rewrite generateHWID_memoized; [reflexivity | exact Hc | apply sha256_truthy].
    + destruct (generateHWID_failure env this e Hc Hm) as (ev & Hf & _).
      { right. exists host. split; [exact Hh | exact Hi]. }
      rewrite Hf in Hg. discriminate Hg.
  - destruct (generateHWID_failure env this e Hc Hm (or_introl Hh)) as (ev & Hf & _).
    rewrite Hf in Hg. discriminate Hg.
Qed.

Lemma verify_after_getHWID key env this hwid this1 ev1 :
  getHWID env this = (Return hwid, this1, ev1) ->
  JS.truthy key = true ->
  JS.is_string key = true ->
  verify key env this
  = (outcome_of (verify key env this1), state_after (verify key env this1),
     (ev1 ++ events_of (verify key env this1))%list).
Proof.
  intros Hg Ht Hs. rewrite !verify_unfold. rewrite Ht, Hs. cbn [negb orb].
  rewrite Hg, (getHWID_idempotent env this hwid this1 ev1 Hg). cbv zeta. cbn [app].
  destruct (fetch env (request_of env this1 key hwid)) as [response|e]; [|reflexivity].
  unfold after_response.
  destruct (negb (ok response) && (status response >=? 500)); [reflexivity|].
  destruct (json response) as [[data|]|e]; try reflexivity.
  destruct (JS.truthy (Response.signature data)
            && negb (JS.strict_eq (Response.signature data)
                                  (JStr (expected_signature env this1 data))));
    [reflexivity|].
  destruct (Result.isValid (classify env data)); reflexivity.
Qed.

Lemma verify_bad_key key env this :
  JS.truthy key = false \/ JS.is_string key = false ->
  verify key env this = (Throw "Nexveil: License key must be a non-empty string", this, []).
Proof.
  intros H. rewrite verify_unfold.
  destruct H as [-> | ->]; [reflexivity|]. rewrite orb_true_r. reflexivity.
Qed.

Lemma library_app out1 out2 :
  Script.library (out1 ++ out2) = (Script.library out1 ++ Script.library out2)%list.
Proof. apply flat_map_app. Qed.

Lemma library_calls ev : Script.library (map Script.Library ev) = ev.
Proof.
  induction ev as [|e ev IH]; [reflexivity|].
  change (Script.library (map Script.Library (e :: ev)))
    with (e :: Script.library (map Script.Library ev)).
  rewrite IH. reflexivity.
Qed.

Lemma verifyLicense_cases licenseKey env auth :
  (exists e auth1 ev1,
     getHWID env auth = (Throw e, auth1, ev1)
     /\ verifyLicense licenseKey env auth
        = (Return false, auth1,
           ([Script.Log Script.Verifying_license] ++ map Script.Library ev1
            ++ [Script.Error (Script.Error_during_verification e)])%list))
  \/ (exists hwid auth1 ev1,
        getHWID env auth = (Return hwid, auth1, ev1)
        /\ exists tail,
             verifyLicense licenseKey env auth
             = (Return (match outcome_of (verify licenseKey env auth1) with
                        | Return result => Result.success result
                        | Throw _ => false
                        end),
                state_after (verify licenseKey env auth1),
                ([Script.Log Script.Verifying_license] ++ map Script.Library ev1
                 ++ [Script.Log (Script.Hardware_ID hwid)]
                 ++ map Script.Library (events_of (verify licenseKey env auth1))
                 ++ tail)%list)
             /\ Script.library tail = []).
Proof.
  unfold verifyLicense, Script.try_catch, Script.bind, Script.call, Script.console_log,
    Script.console_error, Script.ret.
  destruct (getHWID env auth) as [[[hwid|e] auth1] ev1].
  - right. exists hwid, auth1, ev1. split; [reflexivity|].
    destruct (verify licenseKey env auth1) as [[[result|e] auth2] ev2];
      cbn [outcome_of state_after events_of fst snd].
    + destruct (Result.success result).
      * destruct (Result.isActivated result).
        -- exists [Script.Log Script.License_is_VALID;
                   Script.Log (Script.Response_code (Result.code result));
                   Script.Log Script.First_activation].
           split; [|reflexivity]. cbn [app]. rewrite <- ?app_assoc. reflexivity.
        -- exists [Script.Log Script.License_is_VALID;
                   Script.Log (Script.Response_code (Result.code result))].
           split; [|reflexivity]. cbn [app]. rewrite <- ?app_assoc. reflexivity.
      * exists [Script.Log Script.License_verification_failed;
                Script.Log (Script.Error_code (Result.code result) (Result.message result))].
        split; [|reflexivity]. cbn [app]. rewrite <- ?app_assoc. reflexivity.
    + exists [Script.Error (Script.Error_during_verification e)].
      split; [|reflexivity]. cbn [app]. rewrite <- ?app_assoc. reflexivity.
  - left. exists e, auth1, ev1. split; [reflexivity|].
    cbn [app]. rewrite <- ?app_assoc. reflexivity.
Qed.

(** X25. [verifyLicense] never throws, and it answers [true] exactly
    when [verify], called on the same instance with the same key, returns a
    successful result.  For a key that is a non-empty string it does to the
    instance and through the library exactly what that [verify] call does:
    the fingerprint it looks up first is the one [verify] then reuses.  For
    any other key it answers [false], but only after the fingerprint lookup,
    which [verify] alone would not have made. *)
Theorem verifyLicense_follows_verify licenseKey env auth :
  exists answer,
    Script.answer (verifyLicense licenseKey env auth) = Return answer
    /\ (answer = true
        <-> exists result,
              outcome_of (verify licenseKey env auth) = Return result
              /\ Result.success result = true)
    /\ (JS.truthy licenseKey = true ->
        JS.is_string licenseKey = true ->
        Script.instance (verifyLicense licenseKey env auth)
        = state_after (verify licenseKey env auth)
        /\ Script.library (Script.output (verifyLicense licenseKey env auth))
           = events_of (verify licenseKey env auth))
    /\ (JS.truthy licenseKey = false \/ JS.is_string licenseKey = false ->
        answer = false
        /\ Script.instance (verifyLicense licenseKey env auth)
           = state_after (getHWID env auth)
        /\ Script.library (Script.output (verifyLicense licenseKey env auth))
           = events_of (getHWID env auth)
        /\ events_of (verify licenseKey env auth) = []).
Proof.
  destruct (verifyLicense_cases licenseKey env auth)
    as [(e & auth1 & ev1 & Hg & ->) | (hwid & auth1 & ev1 & Hg & tail & -> & Htail)];
    cbn [Script.answer Script.instance Script.output fst snd].
  - exists false. split; [reflexivity|].
    rewrite !library_app, library_calls. cbn [Script.library flat_map app].
    rewrite app_nil_r. rewrite Hg. cbn [state_after events_of fst snd].
    split; [|split].
    + split; [intros H; discriminate H|].
      intros (result & Hr & _). rewrite verify_unfold, Hg in Hr.
      destruct (negb (JS.truthy licenseKey) || negb (JS.is_string licenseKey));
        discriminate Hr.
    + intros Ht Hs. rewrite verify_unfold, Ht, Hs, Hg. split; reflexivity.
    + intros Hbad. rewrite (verify_bad_key licenseKey env auth Hbad).
      repeat split; reflexivity.
  - eexists. split; [reflexivity|].
    rewrite !library_app, !library_calls, Htail. cbn [Script.library flat_map app].
    rewrite app_nil_r. rewrite Hg. cbn [state_after events_of fst snd].
    split; [|split].
    + destruct (JS.truthy licenseKey) eqn:Ht; [destruct (JS.is_string licenseKey) eqn:Hs|].
      * rewrite (verify_after_getHWID licenseKey env auth hwid auth1 ev1 Hg Ht Hs).
        unfold outcome_of. cbn [fst snd].
        destruct (fst (fst (verify licenseKey env auth1))) as [result|e].
        -- split; [intros H; exists result; split; [reflexivity | exact H]|].
           intros (r & Hr & Hsucc). injection Hr as <-. exact Hsucc.
        -- split; [intros H; discriminate H | intros (r & Hr & _); discriminate Hr].
      * rewrite !verify_bad_key by (right; exact Hs). cbn [outcome_of fst snd].
        split; [intros H; discriminate H | intros (r & Hr & _); discriminate Hr].
      * rewrite !verify_bad_key by (left; exact Ht). cbn [outcome_of fst snd].
        split; [intros H; discriminate H | intros (r & Hr & _); discriminate Hr].
    + intros Ht Hs.
      rewrite (verify_after_getHWID licenseKey env auth hwid auth1 ev1 Hg Ht Hs).
      split; reflexivity.
    + intros Hbad. rewrite !(verify_bad_key licenseKey) by exact Hbad.
      cbn [outcome_of state_after events_of fst snd]. rewrite app_nil_r.
      repeat split; reflexivity.
Qed.

Lemma verifyLicense_follows_verify_witness :
  Script.answer (verifyLicense (JStr "") (world offline) test_instance) = Return false
  /\ Script.library (Script.output (verifyLicense (JStr "") (world offline) test_instance))
     = derivation_events linux_box.
Proof.
  destruct (verifyLicense_follows_verify (JStr "") (world offline) test_instance)
    as (answer & Ha & _ & _ & Hbad).
  destruct (Hbad (or_introl eq_refl)) as (Hf & _ & Hl & _).
  split; [rewrite Ha, Hf; reflexivity|]. rewrite Hl, test_fingerprint. reflexivity.
Defined.

Lemma default_code_is_not_valid code valid :
  valid <> "" ->
  valid <> "UNKNOWN_ERROR" ->
  JS.strict_eq (JS.or code (JStr "UNKNOWN_ERROR")) (JStr valid)
  = JS.strict_eq code (JStr valid).
Proof.
  intros Hne Hnu.
  assert (Hu : JS.strict_eq (JStr "UNKNOWN_ERROR") (JStr valid) = false).
  { apply strict_eq_false. intros H. injection H as H. apply Hnu. symmetry. exact H. }
  assert (He : JS.strict_eq (JStr "") (JStr valid) = false).
  { apply strict_eq_false. intros H. injection H as H. apply Hne. symmetry. exact H. }
  destruct code as [| |[]|[|c s]];
    [exact Hu | exact Hu | reflexivity | exact Hu | | reflexivity].
  change (JS.or (JStr "") (JStr "UNKNOWN_ERROR")) with (JStr "UNKNOWN_ERROR").
  rewrite Hu, He. reflexivity.
Qed.

Lemma success_follows_code key env this r this' ev :
  verify key env this = (Return r, this', ev) ->
  Result.success r
  = JS.strict_eq (Result.code r) (JStr "KEY_VALID")
    || JS.strict_eq (Result.code r) (JStr "KEY_ACTIVATED").
Proof.
  intros Hv.
  destruct (verify_returns key env this r this' ev Hv)
    as (hwid & this1 & ev1 & response & data & _ & _ & _ & _ & _ & Hr).
  assert (Hcode : JS.strict_eq (Result.code (classify env data)) (JStr "KEY_VALID")
                  || JS.strict_eq (Result.code (classify env data)) (JStr "KEY_ACTIVATED")
                  = Result.isValid (classify env data)).
  { cbn [classify Result.code Result.isValid].
    rewrite !default_code_is_not_valid by discriminate. reflexivity. }
  destruct Hr as [(Hval & -> & _) | (Hval & -> & _)].
  - cbn [Result.set_success Result.success Result.code]. rewrite Hcode, Hval. reflexivity.
  - rewrite Hcode, Hval. reflexivity.
Qed.

Lemma library_prints_nothing line ev : ~ In (Script.Log line) (map Script.Library ev).
Proof. intros H. apply in_map_iff in H. destruct H as (e & H & _). discriminate H. Qed.

(** X26. [robustVerification] builds its instance, which never fails,
    and never throws.  It answers [true] exactly when [verify], called on
    that new instance, returns a successful result: the codes its [switch]
    accepts are the ones for which the library sets [success].  Through the
    library it does what that one [verify] call does, so the fingerprint is
    derived anew on every call.  It reports the server as unreachable exactly
    when [verify] throws an error whose message contains [fetch]. *)
Theorem robustVerification_follows_verify licenseKey env :
  constructor (Some robust_config) = Return robust_instance
  /\ exists answer,
       fst (robustVerification licenseKey env) = Return answer
       /\ (answer = true
           <-> exists result,
                 outcome_of (verify licenseKey env robust_instance) = Return result
                 /\ Result.success result = true)
       /\ Script.library (snd (robustVerification licenseKey env))
          = events_of (verify licenseKey env robust_instance)
       /\ (In (Script.Log Script.Unable_to_reach_server)
              (snd (robustVerification licenseKey env))
           <-> exists message,
                 outcome_of (verify licenseKey env robust_instance) = Throw message
                 /\ JSString.includes message "fetch" = true).
Proof.
  split; [exact robust_instance_constructed|].
  unfold robustVerification. rewrite robust_instance_constructed.
  unfold robustVerification_try, Script.try_catch, Script.bind, Script.call,
    Script.console_log, Script.console_error, Script.ret.
  destruct (verify licenseKey env robust_instance) as [[[result|e] auth2] ev2] eqn:Hv;
    cbn [outcome_of events_of fst snd].
  - pose proof (success_follows_code _ _ _ _ _ _ Hv) as Hs.
    assert (Hno : forall rest,
               ~ In (Script.Log Script.Unable_to_reach_server) rest ->
               In (Script.Log Script.Unable_to_reach_server)
                  (map Script.Library ev2 ++ rest)
               <-> exists message : string,
                     @Return Result.t result = Throw message
                     /\ JSString.includes message "fetch" = true).
    { intros rest Hrest. split.
      - intros H. apply in_app_or in H. destruct H as [H | H].
        + exfalso. exact (library_prints_nothing _ _ H).
        + contradiction.
      - intros (message & H & _). discriminate H. }
    destruct (JS.strict_eq (Result.code result) (JStr "KEY_VALID")
              || JS.strict_eq (Result.code result) (JStr "KEY_ACTIVATED")).
    { exists true. cbn [fst snd app]. split; [reflexivity|]. split.
      - split; [intros _; exists result; split; [reflexivity | exact Hs]|reflexivity].
      - split; [rewrite library_app, library_calls; apply app_nil_r|].
        apply Hno. cbn.
        intros [H | H]; [discriminate H | exact H]. }
    assert (Hfalse : (false = true <-> exists r, Return result = Return r
                                                 /\ Result.success r = true)).
    { split; [intros H; discriminate H|].
      intros (r & Hr & Hsr). injection Hr as <-. rewrite Hs in Hsr. discriminate Hsr. }
    repeat match goal with
           | |- context [if JS.strict_eq ?a ?b then _ else _] =>
               destruct (JS.strict_eq a b)
           end;
      exists false; cbn [fst snd app]; (split; [reflexivity|]); (split; [exact Hfalse|]);
      (split; [rewrite library_app, library_calls; apply app_nil_r|]);
      apply Hno; cbn;
      intros H; repeat (destruct H as [H | H]; [discriminate H|]); exact H.
  - assert (Hfalse : (false = true <-> exists r, @Throw Result.t e = Return r
                                                 /\ Result.success r = true)).
    { split; [intros H; discriminate H | intros (r & Hr & _); discriminate Hr]. }
    destruct (JSString.includes e "fetch") eqn:Hf; exists false; cbn [fst snd app];
      (split; [reflexivity|]); (split; [exact Hfalse|]);
      (split; [rewrite library_app, library_calls; apply app_nil_r|]).
    + split.
      * intros _. exists e. split; [reflexivity | exact Hf].
      * intros _. apply in_or_app. right. right. left. reflexivity.
    + split.
      * intros H. apply in_app_or in H. destruct H as [H | H].
        -- exfalso. exact (library_prints_nothing _ _ H).
        -- cbn in H. repeat (destruct H as [H | H]; [discriminate H|]). contradiction.
      * intros (message & Hm & Hi). injection Hm as <-. rewrite Hf in Hi. discriminate Hi.
Qed.

Lemma robustVerification_follows_verify_witness :
  fst (robustVerification (JStr "ABC") (world offline)) = Return false
  /\ In (Script.Log Script.Unable_to_reach_server)
        (snd (robustVerification (JStr "ABC") (world offline))).
Proof.
  assert (Hv : outcome_of (verify (JStr "ABC") (world offline) robust_instance)
               = Throw "nexveil: Verification failed - fetch failed")
    by (vm_compute; reflexivity).
  destruct (robustVerification_follows_verify (JStr "ABC") (world offline))
    as (_ & answer & Ha & Hiff & _ & Hun).
  split.
  - rewrite Ha. destruct answer; [|reflexivity].
    destruct (proj1 Hiff eq_refl) as (result & Hr & _). rewrite Hv in Hr. discriminate Hr.
  - apply Hun. eexists. split; [exact Hv|]. vm_compute. reflexivity.
Defined.
